(** * Incremental Static Regeneration: the serve / regenerate / invalidate core

    A shallow embedding of the ISR handler of rx-angular
    ([libs/isr/server/src]): the timeout executor ([utils/timeout.ts]), the
    renderer wrapper ([utils/render-url.ts]), the regeneration coordinator
    ([cache-generation.ts]) and the handler itself ([isr-handler.ts]:
    [invalidate], [getVariantUrlsToInvalidate], [serveFromCache], [render]).

    Asynchronous methods are functions in a small monad [Async]: they thread
    the mutable state of the handler (the in-flight registry [urlsOnHold], the
    cache backend, the timer table), collect the calls made on collaborators
    (cache, renderer, response, [next]) and end fulfilled, rejected or
    pending.  A promise handed over by a collaborator is described by the
    moment it settles. *)

From Stdlib Require Import List String Ascii ZArith QArith Lia Bool.
From Stdlib Require Import DecimalString.
Import ListNotations.

Close Scope Q_scope.
Local Open Scope string_scope.
Local Open Scope Z_scope.
Local Open Scope list_scope.

Set Implicit Arguments.

(** ** JavaScript values *)

(** [T | null | undefined]. *)
Inductive Nullable (T : Type) : Type :=
| undefined
| null
| value (v : T).
Arguments undefined {T}.
Arguments null {T}.
Arguments value {T} v.

(** Truthiness of [number | null | undefined] (no NaN is modelled). *)
Definition truthyNumber (x : Nullable Z) : bool :=
  match x with
  | value n => negb (n =? 0)
  | _ => false
  end.

(** Truthiness of [string | null | undefined]. *)
Definition truthyString (x : Nullable string) : bool :=
  match x with
  | value s => negb (s =? "")%string
  | _ => false
  end.

(** [a || b] on numbers. *)
Definition orNumber (a b : Nullable Z) : Nullable Z :=
  if truthyNumber a then a else b.

(** [a === b] on [string | null | undefined]. *)
Definition strictEqString (a b : Nullable string) : bool :=
  match a, b with
  | undefined, undefined => true
  | null, null => true
  | value s, value t => (s =? t)%string
  | _, _ => false
  end.

(** [a === b] on [number | null | undefined]. *)
Definition strictEqNumber (a b : Nullable Z) : bool :=
  match a, b with
  | undefined, undefined => true
  | null, null => true
  | value m, value n => m =? n
  | _, _ => false
  end.

(** [x === null || x === undefined]. *)
Definition isNullish {T} (x : Nullable T) : bool :=
  match x with
  | value _ => false
  | _ => true
  end.

(** [Array.prototype.includes] on strings. *)
Definition includes (l : list string) (x : string) : bool :=
  existsb (fun y => (y =? x)%string) l.

(** Template-literal rendering of an integer. *)
Definition numberToString (n : Z) : string :=
  NilZero.string_of_int (Z.to_int n).

(** [new Error(message)]. *)
Record Error : Type := mkError { message : string }.

(** [string | Buffer]. *)
Inductive Html : Type :=
| HtmlString (s : string)
| HtmlBuffer (bytes : list Byte.byte).

(** Truthiness of [string | Buffer]: only the empty string is falsy. *)
Definition truthyHtml (h : Html) : bool :=
  match h with
  | HtmlString s => negb (s =? "")%string
  | HtmlBuffer _ => true
  end.

(** ** Plain objects *)

(** The own properties of an object, in the order in which they were added:
    [setProperty] adds or overwrites one, [getProperty] looks one up. *)
Fixpoint setProperty {V} (k : string) (v : V) (o : list (string * V))
    : list (string * V) :=
  match o with
  | [] => [(k, v)]
  | (k', v') :: rest =>
      if (k' =? k)%string then (k, v) :: rest
      else (k', v') :: setProperty k v rest
  end.

Fixpoint getProperty {V} (k : string) (o : list (string * V)) : option V :=
  match o with
  | [] => None
  | (k', v') :: rest => if (k' =? k)%string then Some v' else getProperty k rest
  end.

(** The properties [Object.prototype] defines (ECMAScript, its annex B
    included).  A read [o[k]] that finds no own property goes on along the
    prototype chain, which ends here: a plain object answers each of these
    names with a function, or with its prototype for [__proto__], all of them
    truthy. *)
Definition objectPrototypeMembers : list string :=
  ["constructor"; "__defineGetter__"; "__defineSetter__"; "hasOwnProperty";
   "__lookupGetter__"; "__lookupSetter__"; "isPrototypeOf";
   "propertyIsEnumerable"; "toString"; "valueOf"; "__proto__";
   "toLocaleString"].

Definition objectPrototypeMember (k : string) : bool :=
  includes objectPrototypeMembers k.

(** What [o[k]] gives on a plain object whose own properties hold values of
    [V]: an own value, or a member inherited from [Object.prototype]. *)
Inductive Member (V : Type) : Type :=
| Own (v : V)
| Inherited (name : string).
Arguments Own {V} v.
Arguments Inherited {V} name.

(** [o[k]] on a plain object with the own properties [o]; [None] is
    [undefined]. *)
Definition readMember {V} (k : string) (o : list (string * V)) : option (Member V) :=
  match getProperty k o with
  | Some v => Some (Own v)
  | None => if objectPrototypeMember k then Some (Inherited k) else None
  end.

(** *** The object [urlWithErrors] of [invalidate] *)

(** What [invalidate] stores under a key: the errors the page reported (line
    124), or what the regeneration threw (line 127). *)
Definition RebuildErrors : Type := (list string + Error)%type.

(** [urlWithErrors] starts as [{}].  [entries] are its own properties;
    [prototype] is [None] as long as its prototype is [Object.prototype], and
    holds the object that an assignment to [__proto__] has put in its
    place. *)
Module UrlWithErrors.
Record t : Type := mk {
  entries : list (string * RebuildErrors);
  prototype : option RebuildErrors
}.
End UrlWithErrors.

(** [{}]. *)
Definition emptyObject : UrlWithErrors.t := UrlWithErrors.mk [] None.

(** [urlWithErrors[k] = v], for [v] an array or an error object.  Under
    [__proto__] the assignment runs the setter of [Object.prototype], which
    makes [v] the prototype and adds no own property; under any other name it
    adds or overwrites an own property. *)
Definition assignProperty (k : string) (v : RebuildErrors) (o : UrlWithErrors.t)
    : UrlWithErrors.t :=
  if (k =? "__proto__")%string
  then UrlWithErrors.mk (UrlWithErrors.entries o) (Some v)
  else UrlWithErrors.mk (setProperty k v (UrlWithErrors.entries o))
                        (UrlWithErrors.prototype o).

(** The element of an array under the property name [k], from index [i] on:
    an index is named by its decimal numeral. *)
Fixpoint elementAt (k : string) (i : nat) (l : list string) : option string :=
  match l with
  | [] => None
  | s :: rest =>
      if (numberToString (Z.of_nat i) =? k)%string then Some s
      else elementAt k (S i) rest
  end.

(** The properties [Array.prototype] defines (ECMAScript 2023), all of them
    functions. *)
Definition arrayPrototypeMembers : list string :=
  ["at"; "concat"; "copyWithin"; "entries"; "every"; "fill"; "filter"; "find";
   "findIndex"; "findLast"; "findLastIndex"; "flat"; "flatMap"; "forEach";
   "includes"; "indexOf"; "join"; "keys"; "lastIndexOf"; "map"; "pop"; "push";
   "reduce"; "reduceRight"; "reverse"; "shift"; "slice"; "some"; "sort";
   "splice"; "toReversed"; "toSorted"; "toSpliced"; "unshift"; "values";
   "with"].

(** Whether a read of [k] that has come to the object [v], installed as a
    prototype, finds something truthy on [v] or on the prototype of its
    class: an array has its elements, its [length] and the members of
    [Array.prototype]; an error made by [new Error(message)] has its [stack]
    and its [message], and [Error.prototype] gives [name] (the members
    [constructor] and [toString] are those of every object).  Strings are
    truthy unless empty, [length] unless 0. *)
Definition truthyThrough (v : RebuildErrors) (k : string) : bool :=
  match v with
  | inl errors =>
      match elementAt k 0 errors with
      | Some s => negb (s =? "")%string
      | None =>
          if (k =? "length")%string then negb (Nat.eqb (List.length errors) 0)
          else includes arrayPrototypeMembers k
      end
  | inr error =>
      if (k =? "message")%string then negb (message error =? "")%string
      else (k =? "stack")%string || (k =? "name")%string
  end.

(** [!!urlWithErrors[k]]: own properties hold arrays and error objects, which
    are truthy; a name that is not an own property is looked up along the
    prototype chain. *)
Definition truthyProperty (k : string) (o : UrlWithErrors.t) : bool :=
  match getProperty k (UrlWithErrors.entries o) with
  | Some _ => true
  | None =>
      objectPrototypeMember k ||
      match UrlWithErrors.prototype o with
      | Some v => truthyThrough v k
      | None => false
      end
  end.

(** ** Promises *)

(** How a promise ends once it has settled. *)
Inductive Settled (T : Type) : Type :=
| Resolve (v : T)
| Reject (e : Error).
Arguments Resolve {T} v.
Arguments Reject {T} e.

(** A promise held by the code: it settles [at] so many milliseconds after it
    was created, or never. *)
Inductive Promise (T : Type) : Type :=
| SettlesAt (at_ms : Z) (s : Settled T)
| NeverSettles.
Arguments SettlesAt {T} at_ms s.
Arguments NeverSettles {T}.

(** [Promise.race]: the result follows the member that settles first, and a
    race of promises that never settle never settles.  Members are listed in
    the order in which they were created: among members due at the same
    moment the one created first settles first (timers of equal delay fire in
    the order they were set), so the one listed first wins. *)
Fixpoint Promise_race {T} (ps : list (Promise T)) : Promise T :=
  match ps with
  | [] => NeverSettles
  | p :: rest =>
      match p, Promise_race rest with
      | NeverSettles, r => r
      | SettlesAt t s, NeverSettles => SettlesAt t s
      | SettlesAt t s, SettlesAt t' s' =>
          if t <=? t' then SettlesAt t s else SettlesAt t' s'
      end
  end.

(** ** Timers *)

(** The largest delay a timer of the runtime takes: [2^31 - 1] milliseconds. *)
Definition TIMEOUT_MAX : Z := 2147483647.

(** The delay [setTimeout(callback, ms)] really waits: the runtime sets a
    delay above [TIMEOUT_MAX] or below 1 to 1 millisecond (no NaN and no
    fraction is modelled). *)
Definition timerDelay (ms : Z) : Z :=
  if (1 <=? ms) && (ms <=? TIMEOUT_MAX) then ms else 1.
Arguments timerDelay : simpl never.

(** The runtime's table of scheduled timeouts: [(id, delay)] pairs, the delay
    being the one the timer waits. *)
Record Timers : Type := mkTimers {
  nextTimeoutId : nat;
  scheduled : list (nat * Z)
}.

Definition setTimeout (ms : Z) (tm : Timers) : nat * Timers :=
  (nextTimeoutId tm,
   {| nextTimeoutId := S (nextTimeoutId tm);
      scheduled := scheduled tm ++ [(nextTimeoutId tm, timerDelay ms)] |}).

Definition clearTimeout (id : nat) (tm : Timers) : Timers :=
  {| nextTimeoutId := nextTimeoutId tm;
     scheduled := filter (fun t => negb (Nat.eqb (fst t) id)) (scheduled tm) |}.

(** Timer ids handed out so far are below [nextTimeoutId]. *)
Definition timersWf (tm : Timers) : Prop :=
  Forall (fun t => (fst t < nextTimeoutId tm)%nat) (scheduled tm).

(** ** Data model ([models/src/cache-handler.ts] and the handler's configuration) *)

(** The part of the express [Request] the handler reads or overwrites.
    [originalUrl] is not kept apart from [url]: its only read, in [renderUrl],
    comes right after both were assigned the same string. *)
Module Request.
Record t : Type := mk {
  protocol : string;
  host : string;                               (* headers.host *)
  url : string;
  cookie : string;                             (* what variants inspect *)
  token : Nullable string;                     (* body.token *)
  urlsToInvalidate : Nullable (list string)    (* body.urlsToInvalidate *)
}.
Definition setUrl (u : string) (r : t) : t :=
  mk (protocol r) (host r) u (cookie r) (token r) (urlsToInvalidate r).
End Request.

(** The express [Response]: [res.render] is the express view engine; sending is
    recorded as a call (see [Effect]). *)
Module Response.
Record t : Type := mk {
  render : string -> Request.t -> Promise string
}.
End Response.

Module CacheISRConfig.
Record t : Type := mk {
  revalidate : Nullable Z;
  buildId : Nullable string;
  errors : option (list string)
}.
End CacheISRConfig.

Module CacheData.
Record t : Type := mk {
  html : Html;
  options : CacheISRConfig.t;
  createdAt : Z
}.
End CacheData.

Module RenderVariant.
Record t : Type := mk {
  identifier : string;
  detectVariant : Request.t -> bool;
  simulateVariant : option (Request.t -> Request.t)
}.
End RenderVariant.

Module VariantRebuildItem.
Record t : Type := mk {
  url : string;
  cacheKey : string;
  reqSimulator : Request.t -> Request.t
}.
End VariantRebuildItem.

Module IGeneratedResult.
Record t : Type := mk {
  html : Html;
  errors : option (list string)
}.
End IGeneratedResult.

(** What [getRouteISRDataFromHTML] reads back from rendered markup. *)
Module RouteISRData.
Record t : Type := mk {
  revalidate : Nullable Z;
  errors : option (list string)
}.
End RouteISRData.

Definition CacheKeyGeneratorFn : Type :=
  string -> Nullable (list string) -> option RenderVariant.t -> string.

(** ['regenerate' | 'generate']. *)
Inductive Mode : Type := Regenerate | Generate.

Definition isRegenerate (m : Mode) : bool :=
  match m with Regenerate => true | Generate => false end.

(** The handler configuration as the methods find it, i.e. after the
    constructor of [ISRHandler] has defaulted [skipCachingOnHttpError] to
    [true], and [buildId] and [invalidateSecretToken] to [null].  Options that
    are only handed through to the rendering engine (bootstrap, providers,
    dist folder, critical-CSS inlining) are left out. *)
Module ISRHandlerConfig.
Record t : Type := mk {
  cacheKeyGenerator : option CacheKeyGeneratorFn;
  allowedQueryParams : Nullable (list string);
  variants : option (list RenderVariant.t);
  indexHtml : string;
  commonEngine : option (string -> Promise string);   (* commonEngine.render, by url *)
  renderingTimeoutMs : option Z;
  modifyGeneratedHtml : option (Request.t -> string -> Nullable Z -> string);
  compressHtml : option (Html -> Promise Html);
  skipCachingOnHttpError : bool;
  defaultRevalidate : Nullable Z;
  buildId : Nullable string;
  nonBlockingRender : bool;
  backgroundRevalidation : bool;
  cacheTimeoutMs : Nullable Z;
  invalidateSecretToken : Nullable string
}.
End ISRHandlerConfig.

(** [ServeFromCacheConfig]: the optional [modifyCachedHtml] callback. *)
Module ServeFromCacheConfig.
Record t : Type := mk {
  modifyCachedHtml : option (Request.t -> Html -> string)
}.
End ServeFromCacheConfig.

(** The JSON bodies [invalidate] answers with. *)
Inductive InvalidateResponse : Type :=
| ErrorResponse (message : string)
| SuccessResponse (notInCache : list string)
                  (urlWithErrors : UrlWithErrors.t)
                  (invalidatedUrls : list string).

(** ** Calls on collaborators

    Every call the handler makes on the cache backend, the rendering engine,
    the response, [next] and its own regeneration coordinator, in order. *)
Inductive Effect : Type :=
| CacheAdd (cacheKey : string) (html : Html) (config : CacheISRConfig.t)
| CacheGet (cacheKey : string)
| CacheHas (cacheKey : string) (answer : Promise bool)
| EngineRender (url : string)                      (* commonEngine.render *)
| ResRender (view : string) (url : string)         (* res.render *)
| GenerateWithCacheKey (cacheKey : string) (mode : Mode)
| SetCompressHeader
| ResSend (html : Html)
| ResJson (body : InvalidateResponse)
| Next.

(** ** The storage contract *)

(** The abstract class [CacheHandler], over a backend state [C]: each method
    hands back the promise it returns and the backend as it leaves it. *)
Class CacheHandler (C : Type) : Type := {
  add : string -> Html -> CacheISRConfig.t -> C -> Promise unit * C;
  get : string -> C -> Promise CacheData.t * C;
  has : string -> C -> Promise bool * C;
  delete : string -> C -> Promise bool * C;
  getAll : C -> Promise (list string) * C
}.

(** ** The [Async] monad *)

Inductive Outcome (T : Type) : Type :=
| Fulfilled (v : T)
| Rejected (e : Error)
| Pending.
Arguments Fulfilled {T} v.
Arguments Rejected {T} e.
Arguments Pending {T}.

Section Handler.

Context {C : Type} `{CacheHandler C}.

(** Mutable state shared by the methods of one handler instance. *)
Record State : Type := mkState {
  urlsOnHold : list string;      (* CacheGeneration.urlsOnHold *)
  cache : C;
  timers : Timers
}.

(** One run of an asynchronous method. *)
Record Run (T : Type) : Type := mkRun {
  outcome : Outcome T;
  after : State;
  calls : list Effect
}.

Definition Async (T : Type) : Type := State -> Run T.

Definition ret {T} (v : T) : Async T :=
  fun st => mkRun (Fulfilled v) st [].

Definition throw {T} (e : Error) : Async T :=
  fun st => mkRun (Rejected e) st [].

Definition hang {T} : Async T :=
  fun st => mkRun Pending st [].

Definition bind {A B} (m : Async A) (k : A -> Async B) : Async B :=
  fun st =>
    let r := m st in
    match outcome r with
    | Fulfilled a =>
        let r' := k a (after r) in
        mkRun (outcome r') (after r') (calls r ++ calls r')
    | Rejected e => mkRun (Rejected e) (after r) (calls r)
    | Pending => mkRun Pending (after r) (calls r)
    end.

(** [try { m } catch (e) { handler e }]. *)
Definition tryCatch {A} (m : Async A) (handler : Error -> Async A) : Async A :=
  fun st =>
    let r := m st in
    match outcome r with
    | Rejected e =>
        let r' := handler e (after r) in
        mkRun (outcome r') (after r') (calls r ++ calls r')
    | _ => r
    end.

(** [try { m } finally { cleanup }], for a [cleanup] that does not throw: it
    runs when [m] returns and when [m] throws, not while [m] is pending. *)
Definition tryFinally {A} (m : Async A) (cleanup : State -> State) : Async A :=
  fun st =>
    let r := m st in
    match outcome r with
    | Pending => r
    | _ => mkRun (outcome r) (cleanup (after r)) (calls r)
    end.

(** [await p]. *)
Definition await {T} (p : Promise T) : Async T :=
  match p with
  | SettlesAt _ (Resolve v) => ret v
  | SettlesAt _ (Reject e) => throw e
  | NeverSettles => hang
  end.

Definition call (e : Effect) : Async unit :=
  fun st => mkRun (Fulfilled tt) st [e].

Definition modify (f : State -> State) : Async unit :=
  fun st => mkRun (Fulfilled tt) (f st) [].

Definition setUrlsOnHold (l : list string) (st : State) : State :=
  mkState l (cache st) (timers st).

Definition setCache (c : C) (st : State) : State :=
  mkState (urlsOnHold st) c (timers st).

Definition setTimers (tm : Timers) (st : State) : State :=
  mkState (urlsOnHold st) (cache st) tm.

Notation "x <- m ;; k" := (bind m (fun x => k))
  (at level 61, m at next level, right associativity).
Notation "m ;;; k" := (bind m (fun _ => k))
  (at level 61, right associativity).

(** ** The timeout executor ([utils/timeout.ts]) *)

(** [timeoutPromise] (lines 47-51): rejected with [new Error(message)] when
    the timer fires, that is after the delay [setTimeout] gives [timeoutMs]. *)
Definition timeoutPromise {T} (timeoutMs : Z) (message : string) : Promise T :=
  SettlesAt (timerDelay timeoutMs) (Reject (mkError message)).

(** [executeWithTimeout(promise, timeoutMs, message)]: the timer is scheduled,
    the promise is raced against the timer's rejection, and the [finally]
    block clears the timer ([timeoutId] is a [NodeJS.Timeout] object, so the
    guard [timeoutId &&] of line 55 always lets [clearTimeout] run). *)
Definition executeWithTimeout {T} (promise : Promise T) (timeoutMs : Z)
    (message : string) : Async T :=
  fun st =>
    let (timeoutId, tm) := setTimeout timeoutMs (timers st) in
    tryFinally
      (await (Promise_race [promise; timeoutPromise timeoutMs message]))
      (fun st' => setTimers (clearTimeout timeoutId (timers st')) st')
      (setTimers tm st).

End Handler.

Arguments State C : clear implicits.
Arguments Run C T : clear implicits.
Arguments Async C T : clear implicits.

Notation "x <- m ;; k" := (bind m (fun x => k))
  (at level 61, m at next level, right associativity).
Notation "m ;;; k" := (bind m (fun _ => k))
  (at level 61, right associativity).

(** A promise that is started and not awaited: the task runs, its outcome is
    not observed by the caller.  The model lets the detached task run to its
    end at the place where it is started: [calls] lists the calls of the task
    there, and [after] is the state once the task has ended.  In the handler
    the caller goes on as soon as the task is suspended, so the calls the
    caller makes next come before those the task makes when it is resumed,
    and a key the task holds is still held when the caller returns; nothing
    below is stated about that order or about the state in between. *)
Definition detach {C T} (m : Async C T) : Async C unit :=
  fun st => let r := m st in mkRun (Fulfilled tt) (after r) (calls r).

(** ** Imported from modules that are not part of the sources at hand

    [utils/cache-utils.ts], [utils/get-isr-options.ts],
    [modify-generated-html.ts], [utils/compression-utils.ts] and
    [utils/constants.ts] are imported by the code below; what it uses of them
    is taken as a parameter. *)
Record Imports : Type := mkImports {
  defaultCacheKeyGenerator : CacheKeyGeneratorFn;
  getVariant : Request.t -> option (list RenderVariant.t) -> option RenderVariant.t;
  getRouteISRDataFromHTML : string -> RouteISRData.t;
  defaultModifyGeneratedHtml : Request.t -> string -> Nullable Z -> string;
  stringToBuffer : Html -> Html;
  DEFAULT_CACHE_TIMEOUT : Z;
  DEFAULT_RENDERING_TIMEOUT : Z
}.

(** ** The regeneration coordinator ([cache-generation.ts]) *)

(** Lines 70-80, on the registry alone: [None] is the early [return] taken
    when the key is already on hold. *)
Definition holdUrl (mode : Mode) (cacheKey : string) (onHold : list string)
    : option (list string) :=
  match mode with
  | Regenerate =>
      if includes onHold cacheKey then None else Some (onHold ++ [cacheKey])
  | Generate => Some onHold
  end.

(** [if (mode === 'regenerate') this.urlsOnHold = this.urlsOnHold.filter((x) => x !== cacheKey)]. *)
Definition releaseUrl (mode : Mode) (cacheKey : string) (onHold : list string)
    : list string :=
  match mode with
  | Regenerate => filter (fun x => negb (x =? cacheKey)%string) onHold
  | Generate => onHold
  end.

(** [errors?.length], as a condition. *)
Definition hasErrors (errors : option (list string)) : bool :=
  match errors with
  | Some (_ :: _) => true
  | _ => false
  end.

Section CacheGeneration.

Context {C : Type} `{CacheHandler C}.
Variable imports : Imports.
Variable isrConfig : ISRHandlerConfig.t.

(** [getCacheKey]; the constructor has put [defaultCacheKeyGenerator] in place
    of a missing [cacheKeyGenerator] (lines 32-34). *)
Definition getCacheKey : CacheKeyGeneratorFn :=
  fun url allowedQueryParams variant =>
    match ISRHandlerConfig.cacheKeyGenerator isrConfig with
    | Some generator => generator url allowedQueryParams variant
    | None => defaultCacheKeyGenerator imports url allowedQueryParams variant
    end.

(** [this.isrConfig.cacheTimeoutMs || DEFAULT_CACHE_TIMEOUT]. *)
Definition cacheTimeoutMs : Z :=
  match orNumber (ISRHandlerConfig.cacheTimeoutMs isrConfig)
                 (value (DEFAULT_CACHE_TIMEOUT imports)) with
  | value ms => ms
  | _ => DEFAULT_CACHE_TIMEOUT imports
  end.

(** [renderUrl] ([utils/render-url.ts], the revision built on
    [executeWithTimeout]). *)
Definition renderUrl (req : Request.t) (res : Response.t) (url : string)
    : Async C string :=
  let timeoutMs :=
    match ISRHandlerConfig.renderingTimeoutMs isrConfig with
    | Some ms => ms
    | None => DEFAULT_RENDERING_TIMEOUT imports
    end in
  let req := Request.setUrl url req in
  match ISRHandlerConfig.commonEngine isrConfig with
  | Some render =>
      let target :=
        (Request.protocol req ++ "://" ++ Request.host req ++ Request.url req)%string in
      call (EngineRender target) ;;;
      executeWithTimeout (render target) timeoutMs
        ("Rendering timeout after " ++ numberToString timeoutMs ++ " ms")%string
  | None =>
      let view := ISRHandlerConfig.indexHtml isrConfig in
      call (ResRender view (Request.url req)) ;;;
      await (Response.render res view req)
  end.

(** The closure [addToCache] (lines 142-158): a failed or timed-out write is
    logged and swallowed. *)
Definition addToCache (cacheKey : string) (finalHtml : Html)
    (revalidate : Nullable Z) : Async C unit :=
  tryCatch
    (fun st =>
       let config :=
         CacheISRConfig.mk revalidate (ISRHandlerConfig.buildId isrConfig) None in
       let (promise, cache') := add cacheKey finalHtml config (cache st) in
       (call (CacheAdd cacheKey finalHtml config) ;;;
        executeWithTimeout promise cacheTimeoutMs
          ("Timeout while adding to cache for cacheKey: " ++ cacheKey)%string)
         (setCache cache' st))
    (fun error => ret tt).

(** Lines 160-173: the write is awaited, or started and left alone when
    [nonBlockingRender] is set. *)
Definition addToCacheMaybeWaiting (cacheKey : string) (finalHtml : Html)
    (revalidate : Nullable Z) : Async C unit :=
  tryCatch
    (if ISRHandlerConfig.nonBlockingRender isrConfig
     then detach (addToCache cacheKey finalHtml revalidate)
     else addToCache cacheKey finalHtml revalidate)
    (fun error => ret tt).

(** Lines 103-112: the [modifyGeneratedHtml] callback (or its default), then
    the optional [compressHtml]. *)
Definition postProcess (req : Request.t) (html : string)
    (revalidate : Nullable Z) : Async C Html :=
  let finalHtml :=
    match ISRHandlerConfig.modifyGeneratedHtml isrConfig with
    | Some modifyGeneratedHtml => modifyGeneratedHtml req html revalidate
    | None => defaultModifyGeneratedHtml imports req html revalidate
    end in
  match ISRHandlerConfig.compressHtml isrConfig with
  | Some compressHtml => await (compressHtml (HtmlString finalHtml))
  | None => ret (HtmlString finalHtml)
  end.

(** The [try]/[catch] of [generateWithCacheKey] (lines 94-190), entered once
    the key is on hold. *)
Definition renderAndCache (req : Request.t) (res : Response.t)
    (cacheKey : string) (mode : Mode) : Async C (option IGeneratedResult.t) :=
  let release := modify (fun st =>
    setUrlsOnHold (releaseUrl mode cacheKey (urlsOnHold st)) st) in
  tryCatch
    (html <- renderUrl req res (Request.url req) ;;
     let data := getRouteISRDataFromHTML imports html in
     let initialRevalidate := RouteISRData.revalidate data in
     let errors := RouteISRData.errors data in
     finalHtml <- postProcess req html initialRevalidate ;;
     if hasErrors errors && ISRHandlerConfig.skipCachingOnHttpError isrConfig
     then
       release ;;;
       ret (Some (IGeneratedResult.mk finalHtml errors))
     else
       let revalidate :=
         orNumber initialRevalidate (ISRHandlerConfig.defaultRevalidate isrConfig) in
       if strictEqNumber revalidate (value (-1)) then
         ret (Some (IGeneratedResult.mk finalHtml None))
       else if isNullish revalidate then
         ret (Some (IGeneratedResult.mk finalHtml None))
       else
         addToCacheMaybeWaiting cacheKey finalHtml revalidate ;;;
         release ;;;
         ret (Some (IGeneratedResult.mk finalHtml None)))
    (fun error => release ;;; throw error).

(** [generateWithCacheKey]; [None] is the [void] of the early [return]. *)
Definition generateWithCacheKey (req : Request.t) (res : Response.t)
    (cacheKey : string) (mode : Mode) : Async C (option IGeneratedResult.t) :=
  call (GenerateWithCacheKey cacheKey mode) ;;;
  fun st =>
    match holdUrl mode cacheKey (urlsOnHold st) with
    | None => ret None st
    | Some onHold => renderAndCache req res cacheKey mode (setUrlsOnHold onHold st)
    end.

(** [generate] (lines 45-60). *)
Definition generate (req : Request.t) (res : Response.t) (mode : Mode)
    : Async C (option IGeneratedResult.t) :=
  let variant := getVariant imports req (ISRHandlerConfig.variants isrConfig) in
  let cacheKey :=
    getCacheKey (Request.url req)
      (ISRHandlerConfig.allowedQueryParams isrConfig) variant in
  generateWithCacheKey req res cacheKey mode.

End CacheGeneration.

(** ** The handler ([isr-handler.ts]) *)

(** [for (const x of l) { s = body(s, x) }] with awaits in the body. *)
Fixpoint forOf {C A S} (l : list A) (body : S -> A -> Async C S) (s : S)
    : Async C S :=
  match l with
  | [] => ret s
  | x :: rest => s' <- body s x ;; forOf rest body s'
  end.

Definition LF : string := String (ascii_of_nat 10) EmptyString.

(** The note [serveFromCache] appends after [modifyCachedHtml]. *)
Definition modifiedNote (totalTime : string) : string :=
  ("<!--" ++ LF ++
   "ℹ️ ISR: This cachedHtml has been modified with modifyCachedHtml()" ++ LF ++
   "❗️" ++ LF ++
   "          This resulted into more " ++ totalTime ++
   "ms of processing time." ++ LF ++ "-->")%string.

Section ISRHandler.

Context {C : Type} `{CacheHandler C}.
Variable imports : Imports.
Variable isrConfig : ISRHandlerConfig.t.

(** [getVariantUrlsToInvalidate] (lines 163-187): two nested loops pushing
    onto [result]. *)
Definition getVariantUrlsToInvalidate (urlsToInvalidate : list string)
    : list VariantRebuildItem.t :=
  let variants :=
    match ISRHandlerConfig.variants isrConfig with
    | Some vs => vs
    | None => []
    end in
  let defaultVariant := fun req : Request.t => req in
  fold_left
    (fun result url =>
       let result := result ++ [VariantRebuildItem.mk url url defaultVariant] in
       fold_left
         (fun result variant =>
            result ++
            [VariantRebuildItem.mk url
               (getCacheKey imports isrConfig url
                  (ISRHandlerConfig.allowedQueryParams isrConfig) (Some variant))
               (match RenderVariant.simulateVariant variant with
                | Some simulateVariant => simulateVariant
                | None => defaultVariant
                end)])
         variants result)
    urlsToInvalidate [].

(** Lines 96-106: the existence check, a failed or timed-out check counting
    as absent. *)
Definition urlExists (cacheKey : string) : Async C bool :=
  fun st =>
    let (promise, cache') := has cacheKey (cache st) in
    (call (CacheHas cacheKey promise) ;;;
     tryCatch
       (executeWithTimeout promise (cacheTimeoutMs imports isrConfig)
          ("Timeout while checking cache for cacheKey: " ++ cacheKey)%string)
       (fun error => ret false))
      (setCache cache' st).

(** What the loop of [invalidate] carries from one item to the next: the
    request (its [url] is overwritten), [notInCache] and [urlWithErrors]. *)
Definition InvalidateLoop : Type :=
  (Request.t * list string * UrlWithErrors.t)%type.

(** The body of the loop (lines 93-128). *)
Definition invalidateItem (res : Response.t) (acc : InvalidateLoop)
    (variantUrl : VariantRebuildItem.t) : Async C InvalidateLoop :=
  let '(req, notInCache, urlWithErrors) := acc in
  let cacheKey := VariantRebuildItem.cacheKey variantUrl in
  let url := VariantRebuildItem.url variantUrl in
  let reqSimulator := VariantRebuildItem.reqSimulator variantUrl in
  exists_ <- urlExists cacheKey ;;
  if negb exists_ then ret (req, notInCache ++ [cacheKey], urlWithErrors)
  else
    let req := Request.setUrl url req in
    urlWithErrors' <-
      tryCatch
        (result <- generateWithCacheKey imports isrConfig (reqSimulator req) res
                     cacheKey Generate ;;
         ret (match result with
              | Some r =>
                  match IGeneratedResult.errors r with
                  | Some (e :: es) => assignProperty cacheKey (inl (e :: es)) urlWithErrors
                  | _ => urlWithErrors
                  end
              | None => urlWithErrors
              end))
        (fun err => ret (assignProperty cacheKey (inr err) urlWithErrors)) ;;
    ret (req, notInCache, urlWithErrors').

(** [invalidate] (lines 63-161). *)
Definition invalidate (req : Request.t) (res : Response.t) : Async C unit :=
  let token := Request.token req in
  if negb (strictEqString token (ISRHandlerConfig.invalidateSecretToken isrConfig))
  then call (ResJson (ErrorResponse "Your secret token is wrong!!!"))
  else
    match Request.urlsToInvalidate req with
    | value (u :: us) =>
        let urlsToInvalidate := u :: us in
        let variantUrlsToInvalidate := getVariantUrlsToInvalidate urlsToInvalidate in
        acc <- forOf variantUrlsToInvalidate (invalidateItem res)
                 (req, [], emptyObject) ;;
        let '(_, notInCache, urlWithErrors) := acc in
        let invalidatedUrls :=
          filter
            (fun cacheKey =>
               negb (includes notInCache cacheKey) &&
               negb (truthyProperty cacheKey urlWithErrors))
            (map VariantRebuildItem.cacheKey variantUrlsToInvalidate) in
        call (ResJson (SuccessResponse notInCache urlWithErrors invalidatedUrls))
    | _ =>
        call (ResJson (ErrorResponse "Please add `urlsToInvalidate` in the payload!"))
    end.

(** [(Date.now() - createdAt) / 1000 > revalidate], the quotient taken in the
    rationals. *)
Definition expired (now createdAt revalidate : Z) : bool :=
  let lastCacheDateDiff := (inject_Z (now - createdAt) / inject_Z 1000)%Q in
  negb (Qle_bool lastCacheDateDiff (inject_Z revalidate)).

(** Lines 206-221: the cache read; [None] after [next()] was called. *)
Definition readCache (cacheKey : string) : Async C (option CacheData.t) :=
  tryCatch
    (fun st =>
       let (cachePromise, cache') := get cacheKey (cache st) in
       (call (CacheGet cacheKey) ;;;
        cacheData <- executeWithTimeout cachePromise (cacheTimeoutMs imports isrConfig)
                       ("Failed to get cache data for cacheKey: " ++ cacheKey)%string ;;
        ret (Some cacheData))
         (setCache cache' st))
    (fun error => call Next ;;; ret None).

(** Lines 242-246: [finalHtml] as taken from the entry, turned into a buffer
    when compression is configured. *)
Definition cachedHtml (html : Html) : Html :=
  match ISRHandlerConfig.compressHtml isrConfig with
  | Some _ => stringToBuffer imports html
  | None => html
  end.

(** Lines 228-231: the entry carries a build id other than the running one. *)
Definition fromOtherBuild (cacheConfig : CacheISRConfig.t) : bool :=
  let cacheHasBuildId := negb (isNullish (CacheISRConfig.buildId cacheConfig)) in
  cacheHasBuildId &&
  negb (strictEqString (CacheISRConfig.buildId cacheConfig)
          (ISRHandlerConfig.buildId isrConfig)).

(** Lines 248-291: the freshness check on a usable entry, giving the markup to
    send. *)
Definition revalidateIfExpired (req : Request.t) (res : Response.t)
    (cacheKey : string) (cacheConfig : CacheISRConfig.t) (createdAt now : Z)
    (finalHtml : Html) : Async C Html :=
  match CacheISRConfig.revalidate cacheConfig with
  | value revalidate =>
      if negb (revalidate =? 0) && (0 <? revalidate) then
        if expired now createdAt revalidate then
          let generate_ :=
            generateWithCacheKey imports isrConfig req res cacheKey Regenerate in
          tryCatch
            (if ISRHandlerConfig.backgroundRevalidation isrConfig then
               detach generate_ ;;;
               ret finalHtml
             else
               result <- generate_ ;;
               ret (match result with
                    | Some r =>
                        if truthyHtml (IGeneratedResult.html r)
                        then IGeneratedResult.html r
                        else finalHtml
                    | None => finalHtml
                    end))
            (fun error => call Next ;;; ret finalHtml)
        else ret finalHtml
      else ret finalHtml
  | _ => ret finalHtml
  end.

(** Lines 293-310: the optional [modifyCachedHtml] callback, or the compress
    header, then [res.send]. *)
Definition sendCached (req : Request.t) (totalTime : string)
    (config : option ServeFromCacheConfig.t) (finalHtml : Html) : Async C unit :=
  match ISRHandlerConfig.compressHtml isrConfig with
  | None =>
      let modifyCachedHtml :=
        match config with
        | Some c => ServeFromCacheConfig.modifyCachedHtml c
        | None => None
        end in
      match modifyCachedHtml with
      | Some modifyCachedHtml =>
          call (ResSend (HtmlString
                  (modifyCachedHtml req finalHtml ++ modifiedNote totalTime)%string))
      | None => call (ResSend finalHtml)
      end
  | Some _ =>
      call SetCompressHeader ;;;
      call (ResSend finalHtml)
  end.

(** [serveFromCache] (lines 189-315).  [now] is what [Date.now()] reads and
    [totalTime] the processing time measured around [modifyCachedHtml]. *)
Definition serveFromCache (req : Request.t) (res : Response.t)
    (now : Z) (totalTime : string) (config : option ServeFromCacheConfig.t)
    : Async C unit :=
  tryCatch
    (let variant := getVariant imports req (ISRHandlerConfig.variants isrConfig) in
     let cacheKey :=
       getCacheKey imports isrConfig (Request.url req)
         (ISRHandlerConfig.allowedQueryParams isrConfig) variant in
     found <- readCache cacheKey ;;
     match found with
     | None => ret tt
     | Some cacheData =>
         let html := CacheData.html cacheData in
         let cacheConfig := CacheData.options cacheData in
         let createdAt := CacheData.createdAt cacheData in
         if fromOtherBuild cacheConfig
         then call Next
         else
           let finalHtml := cachedHtml html in
           finalHtml' <- revalidateIfExpired req res cacheKey cacheConfig
                           createdAt now finalHtml ;;
           sendCached req totalTime config finalHtml'
     end)
    (fun error => call Next).

End ISRHandler.

(** ** Interleaved calls of [generateWithCacheKey]

    Between its call and its return a run of [generateWithCacheKey] is
    suspended on awaits, and other runs may start or finish.  The registry is
    touched in two synchronous stretches only: on entry ([holdUrl], before the
    renderer is invoked) and in the stretch that ends the run.  The system
    below keeps the registry and the runs that are suspended. *)
Module Interleaving.

(** How a run leaves [renderAndCache]. *)
Inductive ExitPath : Type :=
| SkippedOnError      (* errors reported and skipCachingOnHttpError: line 123 *)
| NotCached           (* revalidate is -1, null or undefined: lines 132, 138 *)
| Cached              (* line 181 *)
| Thrown.             (* line 189 *)

(** What the final stretch of each path does to the registry. *)
Definition exitRegistry (path : ExitPath) (mode : Mode) (cacheKey : string)
    (onHold : list string) : list string :=
  match path with
  | NotCached => onHold
  | _ => releaseUrl mode cacheKey onHold
  end.

Record Task : Type := mkTask { taskKey : string; taskMode : Mode }.

Record System : Type := mkSystem {
  registry : list string;
  inFlight : list Task
}.

Inductive Event : Type :=
| Call (cacheKey : string) (mode : Mode)
| Return (n : nat) (path : ExitPath).     (* the n-th suspended run ends *)

Fixpoint removeNth {A} (n : nat) (l : list A) : list A :=
  match n, l with
  | _, [] => []
  | O, _ :: rest => rest
  | S m, x :: rest => x :: removeNth m rest
  end.

Definition step (s : System) (e : Event) : System :=
  match e with
  | Call cacheKey mode =>
      match holdUrl mode cacheKey (registry s) with
      | None => s
      | Some onHold => mkSystem onHold (inFlight s ++ [mkTask cacheKey mode])
      end
  | Return n path =>
      match nth_error (inFlight s) n with
      | None => s
      | Some task =>
          mkSystem
            (exitRegistry path (taskMode task) (taskKey task) (registry s))
            (removeNth n (inFlight s))
      end
  end.

Definition initial : System := mkSystem [] [].

Definition run (events : list Event) : System := fold_left step events initial.

(** The runs in regenerate mode that are suspended on [cacheKey]. *)
Definition regenerating (cacheKey : string) (s : System) : list Task :=
  filter
    (fun t => (taskKey t =? cacheKey)%string && isRegenerate (taskMode t))
    (inFlight s).

(** At most one suspended run in regenerate mode per key, and the key of
    every such run is in the registry. *)
Definition singleFlight (s : System) : Prop :=
  (forall k, (List.length (regenerating k s) <= 1)%nat) /\
  (forall t, In t (inFlight s) -> taskMode t = Regenerate ->
             In (taskKey t) (registry s)).

End Interleaving.

(** ** A list-backed cache and a small site, to run the model on *)
Module Example.

(** Entries in insertion order; [add] replaces an entry with the same key. *)
Definition ListCache : Type := list (string * CacheData.t).

Definition lookup (k : string) (c : ListCache) : option CacheData.t :=
  getProperty k c.

#[global] Instance listCacheHandler : CacheHandler ListCache := {|
  add := fun k html config c =>
    (SettlesAt 1 (Resolve tt), setProperty k (CacheData.mk html config 0) c);
  get := fun k c =>
    (match lookup k c with
     | Some d => SettlesAt 1 (Resolve d)
     | None => SettlesAt 1 (Reject (mkError "This url does not exist in cache!"))
     end, c);
  has := fun k c =>
    (SettlesAt 1 (Resolve (match lookup k c with Some _ => true | None => false end)), c);
  delete := fun k c =>
    (SettlesAt 1 (Resolve (match lookup k c with Some _ => true | None => false end)),
     filter (fun e => negb (fst e =? k)%string) c);
  getAll := fun c => (SettlesAt 1 (Resolve (map fst c)), c)
|}.

(** A backend whose promises never settle. *)
Definition SilentCache : Type := unit.

Definition silentCacheHandler : CacheHandler SilentCache := {|
  add := fun _ _ _ c => (NeverSettles, c);
  get := fun _ c => (NeverSettles, c);
  has := fun _ c => (NeverSettles, c);
  delete := fun _ c => (NeverSettles, c);
  getAll := fun c => (NeverSettles, c)
|}.

Definition mobile : RenderVariant.t :=
  RenderVariant.mk "mobile"
    (fun req => (Request.cookie req =? "device=mobile")%string)
    (Some (fun req =>
       Request.mk (Request.protocol req) (Request.host req) (Request.url req)
         "device=mobile" (Request.token req) (Request.urlsToInvalidate req))).

Definition dark : RenderVariant.t :=
  RenderVariant.mk "dark"
    (fun req => (Request.cookie req =? "theme=dark")%string)
    None.

(** What a page reports about itself: the markup of this site is the
    directive. *)
Definition readDirective (html : string) : RouteISRData.t :=
  if (html =? "revalidate:5")%string then RouteISRData.mk (value 5) None
  else if (html =? "revalidate:0")%string then RouteISRData.mk (value 0) None
  else if (html =? "revalidate:-1")%string then RouteISRData.mk (value (-1)) None
  else if (html =? "revalidate:5;error")%string
  then RouteISRData.mk (value 5) (Some ["500 Internal Server Error"])
  else RouteISRData.mk null None.

Definition keyOf : CacheKeyGeneratorFn :=
  fun url _ variant =>
    match variant with
    | Some v => (url ++ "<variantId:" ++ RenderVariant.identifier v ++ ">")%string
    | None => url
    end.

Definition imports : Imports := {|
  defaultCacheKeyGenerator := keyOf;
  getVariant := fun req variants =>
    match variants with
    | Some vs => find (fun v => RenderVariant.detectVariant v req) vs
    | None => None
    end;
  getRouteISRDataFromHTML := readDirective;
  defaultModifyGeneratedHtml := fun _ html _ => html;
  stringToBuffer := fun html => html;
  DEFAULT_CACHE_TIMEOUT := 5000;
  DEFAULT_RENDERING_TIMEOUT := 10000
|}.

(** The engine of the site: each path renders to a fixed page after 20 ms;
    ["/slow"] never finishes and ["/broken"] fails. *)
Definition engine (target : string) : Promise string :=
  if (target =? "http://localhost/five")%string
  then SettlesAt 20 (Resolve "revalidate:5")
  else if (target =? "http://localhost/zero")%string
  then SettlesAt 20 (Resolve "revalidate:0")
  else if (target =? "http://localhost/never")%string
  then SettlesAt 20 (Resolve "revalidate:-1")
  else if (target =? "http://localhost/error")%string
  then SettlesAt 20 (Resolve "revalidate:5;error")
  else if (target =? "http://localhost/slow")%string
  then NeverSettles
  else if (target =? "http://localhost/broken")%string
  then SettlesAt 20 (Reject (mkError "render failed"))
  else SettlesAt 20 (Resolve "plain").

Definition config : ISRHandlerConfig.t := {|
  ISRHandlerConfig.cacheKeyGenerator := None;
  ISRHandlerConfig.allowedQueryParams := undefined;
  ISRHandlerConfig.variants := Some [mobile; dark];
  ISRHandlerConfig.indexHtml := "index.html";
  ISRHandlerConfig.commonEngine := Some engine;
  ISRHandlerConfig.renderingTimeoutMs := None;
  ISRHandlerConfig.modifyGeneratedHtml := None;
  ISRHandlerConfig.compressHtml := None;
  ISRHandlerConfig.skipCachingOnHttpError := true;
  ISRHandlerConfig.defaultRevalidate := undefined;
  ISRHandlerConfig.buildId := null;
  ISRHandlerConfig.nonBlockingRender := false;
  ISRHandlerConfig.backgroundRevalidation := false;
  ISRHandlerConfig.cacheTimeoutMs := undefined;
  ISRHandlerConfig.invalidateSecretToken := value "s3cret"
|}.

(** The same site with a caller-supplied key generator. *)
Definition prefixedKey : CacheKeyGeneratorFn :=
  fun url allowed variant => ("isr:" ++ keyOf url allowed variant)%string.

Definition withGenerator (g : CacheKeyGeneratorFn) (c : ISRHandlerConfig.t)
    : ISRHandlerConfig.t :=
  ISRHandlerConfig.mk (Some g)
    (ISRHandlerConfig.allowedQueryParams c) (ISRHandlerConfig.variants c)
    (ISRHandlerConfig.indexHtml c) (ISRHandlerConfig.commonEngine c)
    (ISRHandlerConfig.renderingTimeoutMs c) (ISRHandlerConfig.modifyGeneratedHtml c)
    (ISRHandlerConfig.compressHtml c) (ISRHandlerConfig.skipCachingOnHttpError c)
    (ISRHandlerConfig.defaultRevalidate c) (ISRHandlerConfig.buildId c)
    (ISRHandlerConfig.nonBlockingRender c) (ISRHandlerConfig.backgroundRevalidation c)
    (ISRHandlerConfig.cacheTimeoutMs c) (ISRHandlerConfig.invalidateSecretToken c).

Definition withDefaultRevalidate (d : Nullable Z) (c : ISRHandlerConfig.t)
    : ISRHandlerConfig.t :=
  ISRHandlerConfig.mk (ISRHandlerConfig.cacheKeyGenerator c)
    (ISRHandlerConfig.allowedQueryParams c) (ISRHandlerConfig.variants c)
    (ISRHandlerConfig.indexHtml c) (ISRHandlerConfig.commonEngine c)
    (ISRHandlerConfig.renderingTimeoutMs c) (ISRHandlerConfig.modifyGeneratedHtml c)
    (ISRHandlerConfig.compressHtml c) (ISRHandlerConfig.skipCachingOnHttpError c)
    d (ISRHandlerConfig.buildId c)
    (ISRHandlerConfig.nonBlockingRender c) (ISRHandlerConfig.backgroundRevalidation c)
    (ISRHandlerConfig.cacheTimeoutMs c) (ISRHandlerConfig.invalidateSecretToken c).

Definition request (url : string) : Request.t :=
  Request.mk "http" "localhost" url "" undefined undefined.

Definition invalidation (token : Nullable string) (urls : Nullable (list string))
    : Request.t :=
  Request.mk "http" "localhost" "/api/invalidate" "" token urls.

Definition response : Response.t :=
  Response.mk (fun _ _ => SettlesAt 20 (Resolve "plain")).

Definition noTimers : Timers := mkTimers 0 [].

Definition start (c : ListCache) : State ListCache := mkState [] c noTimers.

Definition entry (html : string) (revalidate : Nullable Z) (createdAt : Z)
    : CacheData.t :=
  CacheData.mk (HtmlString html) (CacheISRConfig.mk revalidate null None) createdAt.

End Example.

(** ** Reading the record of calls *)

Definition isRender (e : Effect) : bool :=
  match e with
  | EngineRender _ | ResRender _ _ => true
  | _ => false
  end.

Definition isCacheAdd (e : Effect) : bool :=
  match e with
  | CacheAdd _ _ _ => true
  | _ => false
  end.

Definition isGenerateCall (e : Effect) : bool :=
  match e with
  | GenerateWithCacheKey _ _ => true
  | _ => false
  end.

(** The existence checks among the calls, each with the promise it got. *)
Fixpoint hasChecks (l : list Effect) : list (string * Promise bool) :=
  match l with
  | [] => []
  | CacheHas cacheKey answer :: rest => (cacheKey, answer) :: hasChecks rest
  | _ :: rest => hasChecks rest
  end.

(** An existence check counts as present when its promise resolves to [true]
    before the timer set for [timeoutMs] fires. *)
Definition answeredTrue (timeoutMs : Z) (answer : Promise bool) : bool :=
  match answer with
  | SettlesAt t (Resolve true) => t <=? timerDelay timeoutMs
  | _ => false
  end.

(** The calls of [generateWithCacheKey] among the calls. *)
Fixpoint generateCalls (l : list Effect) : list (string * Mode) :=
  match l with
  | [] => []
  | GenerateWithCacheKey cacheKey mode :: rest => (cacheKey, mode) :: generateCalls rest
  | _ :: rest => generateCalls rest
  end.

(** The keys whose existence check did not come back [true] in time. *)
Definition absentKeys (timeoutMs : Z) (l : list Effect) : list string :=
  map fst (filter (fun check => negb (answeredTrue timeoutMs (snd check)))
                  (hasChecks l)).

(** The keys whose existence check came back [true] in time. *)
Definition presentKeys (timeoutMs : Z) (l : list Effect) : list string :=
  map fst (filter (fun check => answeredTrue timeoutMs (snd check))
                  (hasChecks l)).

(** The rebuild items of one URL, as the spec lists them: the default item,
    then one item per variant in declaration order. *)
Definition itemsOf (imports : Imports) (isrConfig : ISRHandlerConfig.t)
    (variants : list RenderVariant.t) (url : string) : list VariantRebuildItem.t :=
  VariantRebuildItem.mk url url (fun req => req) ::
  map (fun variant =>
         VariantRebuildItem.mk url
           (getCacheKey imports isrConfig url
              (ISRHandlerConfig.allowedQueryParams isrConfig) (Some variant))
           (match RenderVariant.simulateVariant variant with
            | Some simulateVariant => simulateVariant
            | None => fun req => req
            end))
      variants.

(** ** How a run of [renderAndCache] can end

    One case per way out of the [try]/[catch] of [generateWithCacheKey], or
    none when the run stays suspended on an await that never settles. *)
Section Ends.

Context {C : Type} `{CacheHandler C}.
Variable imports : Imports.
Variable isrConfig : ISRHandlerConfig.t.
Variables (req : Request.t) (res : Response.t) (cacheKey : string) (mode : Mode).
Variable st : State C.

(** The revalidate value the caching decision looks at (line 129). *)
Definition resolvedRevalidate (html : string) : Nullable Z :=
  orNumber (RouteISRData.revalidate (getRouteISRDataFromHTML imports html))
           (ISRHandlerConfig.defaultRevalidate isrConfig).

(** The condition of line 114. *)
Definition skipsOnError (html : string) : bool :=
  hasErrors (RouteISRData.errors (getRouteISRDataFromHTML imports html)) &&
  ISRHandlerConfig.skipCachingOnHttpError isrConfig.

(** The conditions of lines 130 and 135. *)
Definition notCacheable (revalidate : Nullable Z) : bool :=
  strictEqNumber revalidate (value (-1)) || isNullish revalidate.

(** The render succeeded with [html] and post-processing gave [finalHtml]. *)
Definition rendersTo (html : string) (finalHtml : Html) : Prop :=
  let rendered := renderUrl imports isrConfig req res (Request.url req) st in
  outcome rendered = Fulfilled html /\
  outcome (postProcess imports isrConfig req html
             (RouteISRData.revalidate (getRouteISRDataFromHTML imports html))
             (after rendered)) = Fulfilled finalHtml.

Inductive Ends (r : Run C (option IGeneratedResult.t))
    : option Interleaving.ExitPath -> Prop :=
| ends_pending :
    outcome r = Pending ->
    urlsOnHold (after r) = urlsOnHold st ->
    filter isCacheAdd (calls r) = [] ->
    Ends r None
| ends_thrown (e : Error) :
    outcome r = Rejected e ->
    filter isCacheAdd (calls r) = [] ->
    Ends r (Some Interleaving.Thrown)
| ends_skippedOnError (html : string) (finalHtml : Html) :
    rendersTo html finalHtml ->
    skipsOnError html = true ->
    outcome r =
      Fulfilled (Some (IGeneratedResult.mk finalHtml
                         (RouteISRData.errors (getRouteISRDataFromHTML imports html)))) ->
    filter isCacheAdd (calls r) = [] ->
    Ends r (Some Interleaving.SkippedOnError)
| ends_notCached (html : string) (finalHtml : Html) :
    rendersTo html finalHtml ->
    skipsOnError html = false ->
    notCacheable (resolvedRevalidate html) = true ->
    outcome r = Fulfilled (Some (IGeneratedResult.mk finalHtml None)) ->
    filter isCacheAdd (calls r) = [] ->
    Ends r (Some Interleaving.NotCached)
| ends_cached (html : string) (finalHtml : Html) :
    rendersTo html finalHtml ->
    skipsOnError html = false ->
    notCacheable (resolvedRevalidate html) = false ->
    outcome r = Fulfilled (Some (IGeneratedResult.mk finalHtml None)) ->
    filter isCacheAdd (calls r) =
      [CacheAdd cacheKey finalHtml
         (CacheISRConfig.mk (resolvedRevalidate html)
            (ISRHandlerConfig.buildId isrConfig) None)] ->
    Ends r (Some Interleaving.Cached).

End Ends.

(** ** The [render] method of the handler ([isr-handler.ts], lines 317-357) *)

(** [RenderConfig]: the optional two-argument [modifyGeneratedHtml]. *)
Module RenderConfig.
Record t : Type := mk {
  modifyGeneratedHtml : option (Request.t -> string -> string)
}.
End RenderConfig.

Definition setModifyGeneratedHtml
    (f : option (Request.t -> string -> Nullable Z -> string))
    (c : ISRHandlerConfig.t) : ISRHandlerConfig.t :=
  ISRHandlerConfig.mk (ISRHandlerConfig.cacheKeyGenerator c)
    (ISRHandlerConfig.allowedQueryParams c) (ISRHandlerConfig.variants c)
    (ISRHandlerConfig.indexHtml c) (ISRHandlerConfig.commonEngine c)
    (ISRHandlerConfig.renderingTimeoutMs c) f
    (ISRHandlerConfig.compressHtml c) (ISRHandlerConfig.skipCachingOnHttpError c)
    (ISRHandlerConfig.defaultRevalidate c) (ISRHandlerConfig.buildId c)
    (ISRHandlerConfig.nonBlockingRender c) (ISRHandlerConfig.backgroundRevalidation c)
    (ISRHandlerConfig.cacheTimeoutMs c) (ISRHandlerConfig.invalidateSecretToken c).

(** Lines 324-337: a [modifyGeneratedHtml] given to [render] is written into
    the handler configuration, wrapped so that an empty result falls back to
    the markup it was given.  The configuration stays so for later calls. *)
Definition patchedConfig (isrConfig : ISRHandlerConfig.t)
    (config : option RenderConfig.t) : ISRHandlerConfig.t :=
  match config with
  | Some c =>
      match RenderConfig.modifyGeneratedHtml c with
      | Some modifyGeneratedHtml =>
          let patchedModifyFn :=
            fun (req : Request.t) (html : string) (_ : Nullable Z) =>
              let modified := modifyGeneratedHtml req html in
              if (modified =? "")%string then html else modified in
          setModifyGeneratedHtml (Some patchedModifyFn) isrConfig
      | None => isrConfig
      end
  | None => isrConfig
  end.

Section Render.

Context {C : Type} `{CacheHandler C}.
Variable imports : Imports.
Variable isrConfig : ISRHandlerConfig.t.

(** [render] (lines 317-357). *)
Definition render (req : Request.t) (res : Response.t)
    (config : option RenderConfig.t) : Async C unit :=
  let isrConfig := patchedConfig isrConfig config in
  tryCatch
    (result <- generate imports isrConfig req res Generate ;;
     let html :=
       match result with
       | Some r =>
           if truthyHtml (IGeneratedResult.html r)
           then Some (IGeneratedResult.html r)
           else None
       | None => None
       end in
     match html with
     | None => throw (mkError "Error while generating the page!")
     | Some html =>
         (match ISRHandlerConfig.compressHtml isrConfig with
          | Some _ => call SetCompressHeader
          | None => ret tt
          end) ;;;
         call (ResSend html)
     end)
    (fun error => call Next).

End Render.

(** ** The earlier revision of [renderUrl] ([utils/render-url.ts], lines 27-114)

    The race against the rendering deadline is written out in place, and the
    default deadline is the literal 10000.  The timer is set (lines 62-67)
    before the engine is called (lines 70-77), so in the race of line 81 the
    timer is the member created first: when both are due at the same moment
    the timer fires first. *)
Section RenderUrlInline.

Context {C : Type}.
Variable isrConfig : ISRHandlerConfig.t.

Definition renderUrlInline (req : Request.t) (res : Response.t) (url : string)
    : Async C string :=
  let timeoutMs :=
    match ISRHandlerConfig.renderingTimeoutMs isrConfig with
    | Some ms => ms
    | None => 10000
    end in
  let req := Request.setUrl url req in
  match ISRHandlerConfig.commonEngine isrConfig with
  | Some render =>
      let target :=
        (Request.protocol req ++ "://" ++ Request.host req ++ Request.url req)%string in
      fun st =>
        let (timeoutId, tm) := setTimeout timeoutMs (timers st) in
        let timeoutPromise : Promise string :=
          SettlesAt (timerDelay timeoutMs)
            (Reject (mkError ("Rendering timeout after " ++
                              numberToString timeoutMs ++ " ms")%string)) in
        (call (EngineRender target) ;;;
         let renderPromise := render target in
         tryFinally
           (await (Promise_race [timeoutPromise; renderPromise]))
           (fun st' => setTimers (clearTimeout timeoutId (timers st')) st'))
          (setTimers tm st)
  | None =>
      let view := ISRHandlerConfig.indexHtml isrConfig in
      call (ResRender view (Request.url req)) ;;;
      await (Response.render res view req)
  end.

End RenderUrlInline.

(** ** [nameToStrategy] ([ngrx-component-experiments], [cd-aware/nameToStrategy.ts])

    An observable is taken as the sequence of values it emits;
    [StrategySelection<U>] is an object from names to strategies, and
    [DEFAULT_STRATEGY_NAME] comes from [./strategy], which is not among the
    sources. *)
Section NameToStrategy.

Variable U : Type.

(** [distinctUntilChanged()], after [previous] was let through. *)
Fixpoint distinctAfter (previous : string) (names : list string) : list string :=
  match names with
  | [] => []
  | name :: rest =>
      if (name =? previous)%string then distinctAfter previous rest
      else name :: distinctAfter name rest
  end.

Definition distinctUntilChanged (names : list string) : list string :=
  match names with
  | [] => []
  | name :: rest => name :: distinctAfter name rest
  end.

(** [strategies[strategy] ? strategies[strategy] : strategies[DEFAULT_STRATEGY_NAME]]
    on a plain object [strategies] whose own properties hold strategies
    (objects, so truthy); [None] is [undefined].  The read is the one of any
    plain object: a name the object does not own is answered by
    [Object.prototype] when it defines that name. *)
Definition pickStrategy (strategies : list (string * U))
    (DEFAULT_STRATEGY_NAME : string) (strategy : string) : option (Member U) :=
  match readMember strategy strategies with
  | Some s => Some s
  | None => readMember DEFAULT_STRATEGY_NAME strategies
  end.

Definition nameToStrategy (strategies : list (string * U))
    (DEFAULT_STRATEGY_NAME : string) (names : list string)
    : list (option (Member U)) :=
  map (pickStrategy strategies DEFAULT_STRATEGY_NAME) (distinctUntilChanged names).

End NameToStrategy.

(** ** Reading the answers among the calls *)

(** The bodies handed to [res.send], in order. *)
Fixpoint sentBodies (l : list Effect) : list Html :=
  match l with
  | [] => []
  | ResSend html :: rest => html :: sentBodies rest
  | _ :: rest => sentBodies rest
  end.

(** How often [next()] was called. *)
Fixpoint nextCalls (l : list Effect) : nat :=
  match l with
  | [] => O
  | Next :: rest => S (nextCalls rest)
  | _ :: rest => nextCalls rest
  end.

(** The keys [cache.get] was asked for, in order. *)
Fixpoint getCalls (l : list Effect) : list string :=
  match l with
  | [] => []
  | CacheGet cacheKey :: rest => cacheKey :: getCalls rest
  | _ :: rest => getCalls rest
  end.

(** ** More of the example site *)
Module ExampleMore.

(** The example site with background revalidation switched on. *)
Definition background : ISRHandlerConfig.t :=
  let c := Example.config in
  ISRHandlerConfig.mk (ISRHandlerConfig.cacheKeyGenerator c)
    (ISRHandlerConfig.allowedQueryParams c) (ISRHandlerConfig.variants c)
    (ISRHandlerConfig.indexHtml c) (ISRHandlerConfig.commonEngine c)
    (ISRHandlerConfig.renderingTimeoutMs c) (ISRHandlerConfig.modifyGeneratedHtml c)
    (ISRHandlerConfig.compressHtml c) (ISRHandlerConfig.skipCachingOnHttpError c)
    (ISRHandlerConfig.defaultRevalidate c) (ISRHandlerConfig.buildId c)
    (ISRHandlerConfig.nonBlockingRender c) true
    (ISRHandlerConfig.cacheTimeoutMs c) (ISRHandlerConfig.invalidateSecretToken c).

(** A stale entry for ["/five"]: revalidate 5, created at 0. *)
Definition staleFive : CacheData.t := Example.entry "old" (value 5) 0.

(** An entry stamped by an earlier build. *)
Definition fromBuildOne : CacheData.t :=
  CacheData.mk (HtmlString "old")
    (CacheISRConfig.mk (value 5) (value "build-1") None) 0.

(** The example site without variants, rendering with [engine]. *)
Definition withoutVariants (engine : string -> Promise string) : ISRHandlerConfig.t :=
  let c := Example.config in
  ISRHandlerConfig.mk (ISRHandlerConfig.cacheKeyGenerator c)
    (ISRHandlerConfig.allowedQueryParams c) None
    (ISRHandlerConfig.indexHtml c) (Some engine)
    (ISRHandlerConfig.renderingTimeoutMs c) (ISRHandlerConfig.modifyGeneratedHtml c)
    (ISRHandlerConfig.compressHtml c) (ISRHandlerConfig.skipCachingOnHttpError c)
    (ISRHandlerConfig.defaultRevalidate c) (ISRHandlerConfig.buildId c)
    (ISRHandlerConfig.nonBlockingRender c) (ISRHandlerConfig.backgroundRevalidation c)
    (ISRHandlerConfig.cacheTimeoutMs c) (ISRHandlerConfig.invalidateSecretToken c).

(** An engine whose page [__proto__] reports an error. *)
Definition protoEngine (target : string) : Promise string :=
  if (target =? "http://localhost__proto__")%string
  then SettlesAt 20 (Resolve "revalidate:5;error")
  else Example.engine target.

(** Strategies by name, for [nameToStrategy]. *)
Definition strategies : list (string * nat) := [("native", 1%nat); ("noop", 2%nat)].

End ExampleMore.

(** * Properties *)

(** ** Lists and JavaScript values *)

Lemma includes_In (l : list string) (x : string) :
  includes l x = true <-> In x l.
Proof.
  unfold includes. rewrite existsb_exists. split.
  - intros [y [Hy Heq]]. apply String.eqb_eq in Heq. now subst.
  - intros Hin. exists x. split; [assumption | apply String.eqb_refl].
Qed.

Lemma includes_not_In (l : list string) (x : string) :
  includes l x = false <-> ~ In x l.
Proof.
  rewrite <- includes_In. destruct (includes l x); split; congruence.
Qed.

Lemma releaseUrl_not_In (mode : Mode) (k : string) (l : list string) :
  mode = Regenerate -> ~ In k (releaseUrl mode k l).
Proof.
  intros -> Hin. simpl in Hin. apply filter_In in Hin as [_ Hneq].
  now rewrite String.eqb_refl in Hneq.
Qed.

Lemma releaseUrl_other (mode : Mode) (k k' : string) (l : list string) :
  k' <> k -> (In k' (releaseUrl mode k l) <-> In k' l).
Proof.
  intros Hneq. destruct mode; simpl; [| tauto].
  rewrite filter_In. apply String.eqb_neq in Hneq. rewrite Hneq. simpl. tauto.
Qed.

Lemma orNumber_zero_only (a b : Nullable Z) :
  orNumber a b = value 0 -> b = value 0.
Proof.
  unfold orNumber. destruct a as [| | n]; simpl; try tauto.
  destruct (Z.eqb_spec n 0); simpl; [tauto | congruence].
Qed.

(** ** The timeout executor *)

Section TimeoutFacts.

Context {C T : Type}.
Variables (promise : Promise T) (timeoutMs : Z) (message : string).
Variable st : State C.

Let raced : Promise T :=
  Promise_race [promise; timeoutPromise timeoutMs message].

Lemma raced_settles : raced <> NeverSettles.
Proof.
  unfold raced. simpl. destruct promise as [t s |]; [| discriminate].
  destruct (t <=? timerDelay timeoutMs); discriminate.
Qed.

Lemma executeWithTimeout_outcome :
  outcome (executeWithTimeout promise timeoutMs message st) =
  match raced with
  | SettlesAt _ (Resolve v) => Fulfilled v
  | SettlesAt _ (Reject e) => Rejected e
  | NeverSettles => Pending
  end.
Proof.
  unfold executeWithTimeout, raced, tryFinally, await. simpl.
  destruct promise as [t [v | e] |]; simpl;
    try destruct (t <=? timerDelay timeoutMs); reflexivity.
Qed.

Lemma executeWithTimeout_after :
  after (executeWithTimeout promise timeoutMs message st) =
  setTimers
    (clearTimeout (nextTimeoutId (timers st))
       (snd (setTimeout timeoutMs (timers st))))
    st.
Proof.
  unfold executeWithTimeout, tryFinally, await. simpl.
  destruct promise as [t [v | e] |]; simpl;
    try destruct (t <=? timerDelay timeoutMs); reflexivity.
Qed.

Lemma executeWithTimeout_calls :
  calls (executeWithTimeout promise timeoutMs message st) = [].
Proof.
  unfold executeWithTimeout, tryFinally, await. simpl.
  destruct promise as [t [v | e] |]; simpl;
    try destruct (t <=? timerDelay timeoutMs); reflexivity.
Qed.

Lemma executeWithTimeout_not_pending :
  outcome (executeWithTimeout promise timeoutMs message st) <> Pending.
Proof.
  rewrite executeWithTimeout_outcome. pose proof raced_settles as Hs.
  destruct raced as [t [v | e] |]; congruence.
Qed.

Lemma executeWithTimeout_urlsOnHold :
  urlsOnHold (after (executeWithTimeout promise timeoutMs message st)) =
  urlsOnHold st.
Proof. now rewrite executeWithTimeout_after. Qed.

Lemma executeWithTimeout_cache :
  cache (after (executeWithTimeout promise timeoutMs message st)) = cache st.
Proof. now rewrite executeWithTimeout_after. Qed.

End TimeoutFacts.

Lemma clear_fresh_timer (ms : Z) (tm : Timers) :
  timersWf tm ->
  scheduled (clearTimeout (nextTimeoutId tm) (snd (setTimeout ms tm))) =
  scheduled tm.
Proof.
  unfold timersWf, clearTimeout, setTimeout. simpl. intros Hwf.
  rewrite filter_app. simpl. rewrite Nat.eqb_refl. simpl. rewrite app_nil_r.
  induction (scheduled tm) as [| [id d] rest IH]; simpl; [reflexivity |].
  inversion Hwf as [| x l Hlt Hrest]; subst. simpl in Hlt.
  destruct (Nat.eqb_spec id (nextTimeoutId tm)); [lia |].
  simpl. f_equal. now apply IH.
Qed.

Lemma cleared_timer_gone (id : nat) (tm : Timers) :
  ~ In id (map fst (scheduled (clearTimeout id tm))).
Proof.
  unfold clearTimeout. simpl. intros Hin. apply in_map_iff in Hin as [[i d] [Hi Hf]].
  simpl in Hi. subst i. apply filter_In in Hf as [_ Hneq]. simpl in Hneq.
  now rewrite Nat.eqb_refl in Hneq.
Qed.

(** The delay of a timer: the given one inside the runtime's range, one
    millisecond outside of it. *)
Lemma timerDelay_in_range (ms : Z) :
  1 <= ms <= TIMEOUT_MAX -> timerDelay ms = ms.
Proof.
  unfold timerDelay. intros [Hlo Hhi].
  destruct (Z.leb_spec 1 ms); [| lia]. destruct (Z.leb_spec ms TIMEOUT_MAX); [| lia].
  reflexivity.
Qed.

Lemma timerDelay_out_of_range (ms : Z) :
  ms < 1 \/ TIMEOUT_MAX < ms -> timerDelay ms = 1.
Proof.
  unfold timerDelay. intros Hout.
  destruct (Z.leb_spec 1 ms); destruct (Z.leb_spec ms TIMEOUT_MAX); cbn; lia.
Qed.

(** C9. [executeWithTimeout(promise, timeoutMs, message)], the deadline being
    the delay the timer set for [timeoutMs] waits: [timeoutMs] itself from 1
    to [2^31 - 1] milliseconds, one millisecond for any other [timeoutMs].
    When the promise has not settled by the deadline (it settles later, or
    never) the call is rejected with an error carrying exactly [message], the
    race being decided by the timer; when the promise settles by the deadline
    the call ends as the promise does (its value, or its own rejection); the
    call is never left pending; and on each of these paths the timer it
    scheduled is cleared, the timer table being as it was before the call. *)
Theorem executeWithTimeout_contract :
  forall (C T : Type) (promise : Promise T) (timeoutMs : Z) (message : string)
         (st : State C),
    let r := executeWithTimeout promise timeoutMs message st in
    let deadline : Promise T := timeoutPromise timeoutMs message in
    ((promise = NeverSettles \/
      exists t s, promise = SettlesAt t s /\ timerDelay timeoutMs < t) ->
     outcome r = Rejected (mkError message) /\
     Promise_race [promise; deadline] = deadline)
    /\ (forall t v, promise = SettlesAt t (Resolve v) -> t <= timerDelay timeoutMs ->
        outcome r = Fulfilled v)
    /\ (forall t e, promise = SettlesAt t (Reject e) -> t <= timerDelay timeoutMs ->
        outcome r = Rejected e)
    /\ (1 <= timeoutMs <= TIMEOUT_MAX -> timerDelay timeoutMs = timeoutMs)
    /\ (timeoutMs < 1 \/ TIMEOUT_MAX < timeoutMs -> timerDelay timeoutMs = 1)
    /\ outcome r <> Pending
    /\ ~ In (nextTimeoutId (timers st)) (map fst (scheduled (timers (after r))))
    /\ (timersWf (timers st) ->
        scheduled (timers (after r)) = scheduled (timers st)).
Proof.
  intros C T promise timeoutMs message st r deadline. subst r deadline.
  repeat split.
  - rewrite executeWithTimeout_outcome. unfold timeoutPromise. simpl.
    destruct H as [-> | [t [s [-> Hlt]]]]; [reflexivity |].
    destruct (Z.leb_spec t (timerDelay timeoutMs)); [lia | reflexivity].
  - unfold timeoutPromise. simpl. destruct H as [-> | [t [s [-> Hlt]]]]; [reflexivity |].
    destruct (Z.leb_spec t (timerDelay timeoutMs)); [lia | reflexivity].
  - intros t v -> Hle. rewrite executeWithTimeout_outcome. unfold timeoutPromise. simpl.
    destruct (Z.leb_spec t (timerDelay timeoutMs)); [reflexivity | lia].
  - intros t e -> Hle. rewrite executeWithTimeout_outcome. unfold timeoutPromise. simpl.
    destruct (Z.leb_spec t (timerDelay timeoutMs)); [reflexivity | lia].
  - apply timerDelay_in_range.
  - apply timerDelay_out_of_range.
  - apply executeWithTimeout_not_pending.
  - rewrite executeWithTimeout_after. unfold setTimers. cbn [timers].
    apply cleared_timer_gone.
  - intros Hwf. rewrite executeWithTimeout_after. unfold setTimers. cbn [timers].
    now apply clear_fresh_timer.
Qed.

(** A renderer call that never resolves, under a deadline of one second. *)
Lemma executeWithTimeout_contract_witness :
  outcome (executeWithTimeout (NeverSettles : Promise string) 1000
             "Timeout error" (Example.start [])) =
  Rejected (mkError "Timeout error").
Proof.
  pose proof (@executeWithTimeout_contract Example.ListCache string NeverSettles
                1000 "Timeout error" (Example.start [])) as Hc.
  cbv zeta in Hc. destruct Hc as [Htimeout _].
  apply Htimeout. left. reflexivity.
Defined.

(** Read with [timeoutMs] itself as the deadline, the contract fails outside
    the range of the runtime's timers.  Under [timeoutMs = 2^31] a promise
    that settles after 20 ms has settled within [timeoutMs], and the call is
    rejected with the timeout all the same: the timer fired after one
    millisecond. *)
Lemma executeWithTimeout_contract_counterexample :
  20 <= 2147483648 /\
  outcome (executeWithTimeout (SettlesAt 20 (Resolve "ok")) 2147483648
             "Timeout error" (Example.start [])) =
  Rejected (mkError "Timeout error") /\
  outcome (executeWithTimeout (SettlesAt 20 (Resolve "ok")) 2147483648
             "Timeout error" (Example.start [])) <>
  Fulfilled "ok".
Proof.
  split; [lia |]. split; [reflexivity | discriminate].
Qed.

(** ** The regeneration coordinator *)

Section CoordinatorFacts.

Context {C : Type} `{CacheHandler C}.
Variable imports : Imports.
Variable isrConfig : ISRHandlerConfig.t.

Lemma renderUrl_urlsOnHold req res url (st : State C) :
  urlsOnHold (after (renderUrl imports isrConfig req res url st)) = urlsOnHold st.
Proof.
  unfold renderUrl. destruct (ISRHandlerConfig.commonEngine isrConfig) as [render |];
    unfold bind, call; cbn [outcome after calls].
  - apply executeWithTimeout_urlsOnHold.
  - destruct (Response.render res _ _) as [t [v | e] |]; reflexivity.
Qed.

Lemma renderUrl_calls req res url (st : State C) :
  exists e, calls (renderUrl imports isrConfig req res url st) = [e] /\
            isRender e = true.
Proof.
  unfold renderUrl. destruct (ISRHandlerConfig.commonEngine isrConfig) as [render |];
    unfold bind, call; cbn [outcome after calls].
  - rewrite executeWithTimeout_calls. eexists. split; reflexivity.
  - destruct (Response.render res _ _) as [t [v | e] |]; eexists; split; reflexivity.
Qed.

Lemma addToCache_outcome k html rv (st : State C) :
  outcome (addToCache imports isrConfig k html rv st) = Fulfilled tt.
Proof.
  unfold addToCache, tryCatch. destruct (add k html _ (cache st)) as [p c'].
  unfold bind, call. cbn [outcome after calls].
  pose proof (executeWithTimeout_not_pending p (cacheTimeoutMs imports isrConfig)
    ("Timeout while adding to cache for cacheKey: " ++ k)%string (setCache c' st)) as Hp.
  destruct (outcome (executeWithTimeout p _ _ _)) as [[] | e |]; try reflexivity.
  congruence.
Qed.

Lemma addToCache_urlsOnHold k html rv (st : State C) :
  urlsOnHold (after (addToCache imports isrConfig k html rv st)) = urlsOnHold st.
Proof.
  unfold addToCache, tryCatch. destruct (add k html _ (cache st)) as [p c'].
  unfold bind, call. cbn [outcome after calls].
  pose proof (executeWithTimeout_urlsOnHold p (cacheTimeoutMs imports isrConfig)
    ("Timeout while adding to cache for cacheKey: " ++ k)%string (setCache c' st)) as Hu.
  destruct (executeWithTimeout p _ _ _) as [[[] | e |] s c]; cbn in *; exact Hu.
Qed.

Lemma addToCache_calls k html rv (st : State C) :
  calls (addToCache imports isrConfig k html rv st) =
  [CacheAdd k html
     (CacheISRConfig.mk rv (ISRHandlerConfig.buildId isrConfig) None)].
Proof.
  unfold addToCache, tryCatch. destruct (add k html _ (cache st)) as [p c'].
  unfold bind, call. cbn [outcome after calls].
  pose proof (executeWithTimeout_calls p (cacheTimeoutMs imports isrConfig)
    ("Timeout while adding to cache for cacheKey: " ++ k)%string (setCache c' st)) as Hc.
  destruct (executeWithTimeout p _ _ _) as [[[] | e |] s c]; cbn in *; subst;
    reflexivity.
Qed.

Lemma postProcess_frame req html rv (st : State C) :
  after (postProcess imports isrConfig req html rv st) = st /\
  calls (postProcess imports isrConfig req html rv st) = [].
Proof.
  unfold postProcess. destruct (ISRHandlerConfig.compressHtml isrConfig) as [f |].
  - destruct (f _) as [t [v | e] |]; split; reflexivity.
  - split; reflexivity.
Qed.

Variables (req : Request.t) (res : Response.t) (cacheKey : string) (mode : Mode).

Lemma addToCacheMaybeWaiting_run k html rv (st : State C) :
  let r := addToCacheMaybeWaiting imports isrConfig k html rv st in
  outcome r = Fulfilled tt /\
  urlsOnHold (after r) = urlsOnHold st /\
  calls r = [CacheAdd k html (CacheISRConfig.mk rv (ISRHandlerConfig.buildId isrConfig) None)].
Proof.
  cbv zeta. unfold addToCacheMaybeWaiting, tryCatch, detach.
  pose proof (addToCache_outcome k html rv st) as Ho.
  pose proof (addToCache_urlsOnHold k html rv st) as Hu.
  pose proof (addToCache_calls k html rv st) as Hc.
  destruct (ISRHandlerConfig.nonBlockingRender isrConfig); cbn [outcome after calls];
    [| rewrite Ho]; repeat split; assumption.
Qed.

Local Ltac ends_side Hev ev :=
  first [ reflexivity | assumption
        | cbn; destruct ev; cbn in Hev |- *; congruence ].

Lemma renderAndCache_ends (st : State C) :
  let r := renderAndCache imports isrConfig req res cacheKey mode st in
  exists path,
    Ends imports isrConfig req res cacheKey st r path /\
    (forall p, path = Some p ->
       urlsOnHold (after r) =
       Interleaving.exitRegistry p mode cacheKey (urlsOnHold st)) /\
    Forall (fun e => isRender e || isCacheAdd e = true) (calls r).
Proof.
  cbv zeta.
  pose proof (renderUrl_urlsOnHold req res (Request.url req) st) as HRu.
  destruct (renderUrl_calls req res (Request.url req) st) as [ev [HRc Hev]].
  assert (Hrt : forall html finalHtml, 
    outcome (renderUrl imports isrConfig req res (Request.url req) st) = Fulfilled html ->
    outcome (postProcess imports isrConfig req html
             (RouteISRData.revalidate (getRouteISRDataFromHTML imports html))
             (after (renderUrl imports isrConfig req res (Request.url req) st))) = Fulfilled finalHtml ->
    rendersTo imports isrConfig req res st html finalHtml) by (intros; split; assumption).
  unfold renderAndCache, tryCatch, bind. cbv zeta.
  destruct (renderUrl imports isrConfig req res (Request.url req) st) as [oR sR cR].
  cbn [outcome after calls] in *. subst cR.
  destruct oR as [html | e |]; cbn [outcome after calls].
  - specialize (Hrt html).
    destruct (postProcess_frame req html
      (RouteISRData.revalidate (getRouteISRDataFromHTML imports html)) sR) as [HPa HPc].
    destruct (postProcess imports isrConfig req html _ sR) as [oP sP cP].
    cbn [outcome after calls] in *. subst sP cP.
    destruct oP as [finalHtml | e |]; cbn [outcome after calls].
    + specialize (Hrt finalHtml eq_refl eq_refl).
      fold (skipsOnError imports isrConfig html). 
      destruct (skipsOnError imports isrConfig html) eqn:Hskip.
      * exists (Some Interleaving.SkippedOnError). unfold modify, ret. cbn. repeat split.
        -- eapply ends_skippedOnError; eauto; ends_side Hev ev.
        -- intros p [= <-]. cbn. now rewrite HRu.
        -- repeat constructor. now rewrite Hev.
      * fold (resolvedRevalidate imports isrConfig html).
        destruct (strictEqNumber (resolvedRevalidate imports isrConfig html) (value (-1))) eqn:Hm1;
        [| destruct (isNullish (resolvedRevalidate imports isrConfig html)) eqn:Hnull].
        -- exists (Some Interleaving.NotCached). cbn. repeat split.
           ++ eapply ends_notCached; eauto; try ends_side Hev ev.
              unfold notCacheable. now rewrite Hm1.
           ++ intros p [= <-]. cbn. exact HRu.
           ++ repeat constructor. now rewrite Hev.
        -- exists (Some Interleaving.NotCached). cbn. repeat split.
           ++ eapply ends_notCached; eauto; try ends_side Hev ev.
              unfold notCacheable. now rewrite Hm1, Hnull.
           ++ intros p [= <-]. cbn. exact HRu.
           ++ repeat constructor. now rewrite Hev.
        -- destruct (addToCacheMaybeWaiting_run cacheKey finalHtml
                      (resolvedRevalidate imports isrConfig html) sR) as [Ao [Au Ac]].
           destruct (addToCacheMaybeWaiting imports isrConfig cacheKey finalHtml _ sR) as [oA sA cA].
           cbn [outcome after calls] in *. subst oA cA.
           exists (Some Interleaving.Cached). unfold modify, ret. cbn. repeat split.
           ++ eapply ends_cached; eauto; try ends_side Hev ev.
              unfold notCacheable. now rewrite Hm1, Hnull.
           ++ intros p [= <-]. cbn. now rewrite Au, HRu.
           ++ repeat constructor. now rewrite Hev.
    + exists (Some Interleaving.Thrown). unfold modify, throw. cbn. repeat split.
      * eapply ends_thrown; ends_side Hev ev.
      * intros p [= <-]. cbn. now rewrite HRu.
      * repeat constructor. now rewrite Hev.
    + exists None. cbn. repeat split.
      * apply ends_pending; ends_side Hev ev.
      * discriminate.
      * repeat constructor. now rewrite Hev.
  - exists (Some Interleaving.Thrown). unfold modify, throw. cbn. repeat split.
    + eapply ends_thrown; ends_side Hev ev.
    + intros p [= <-]. cbn. now rewrite HRu.
    + repeat constructor. now rewrite Hev.
  - exists None. cbn. repeat split.
    + apply ends_pending; ends_side Hev ev.
    + discriminate.
    + repeat constructor. now rewrite Hev.
Qed.

(** A run whose render and post-processing succeed ends on one of the three
    returning paths, chosen by the error policy and the resolved revalidate. *)
Lemma renderAndCache_rendered (st : State C) (html : string) (finalHtml : Html) :
  rendersTo imports isrConfig req res st html finalHtml ->
  let rendered := renderUrl imports isrConfig req res (Request.url req) st in
  let r := renderAndCache imports isrConfig req res cacheKey mode st in
  if skipsOnError imports isrConfig html then
    outcome r =
      Fulfilled (Some (IGeneratedResult.mk finalHtml
                         (RouteISRData.errors (getRouteISRDataFromHTML imports html)))) /\
    calls r = calls rendered /\
    urlsOnHold (after r) = releaseUrl mode cacheKey (urlsOnHold st)
  else if notCacheable (resolvedRevalidate imports isrConfig html) then
    outcome r = Fulfilled (Some (IGeneratedResult.mk finalHtml None)) /\
    calls r = calls rendered /\
    urlsOnHold (after r) = urlsOnHold st
  else
    outcome r = Fulfilled (Some (IGeneratedResult.mk finalHtml None)) /\
    calls r =
      calls rendered ++
      [CacheAdd cacheKey finalHtml
         (CacheISRConfig.mk (resolvedRevalidate imports isrConfig html)
            (ISRHandlerConfig.buildId isrConfig) None)] /\
    urlsOnHold (after r) = releaseUrl mode cacheKey (urlsOnHold st).
Proof.
  intros [HR HP]. cbv zeta in HR, HP |- *.
  pose proof (renderUrl_urlsOnHold req res (Request.url req) st) as HRu.
  unfold renderAndCache, tryCatch, bind. cbv zeta.
  destruct (renderUrl imports isrConfig req res (Request.url req) st) as [oR sR cR].
  cbn [outcome after calls] in *. subst oR. cbn [outcome after calls].
  destruct (postProcess_frame req html
    (RouteISRData.revalidate (getRouteISRDataFromHTML imports html)) sR) as [HPa HPc].
  destruct (postProcess imports isrConfig req html _ sR) as [oP sP cP].
  cbn [outcome after calls] in *. subst oP sP cP. cbn [outcome after calls].
  fold (skipsOnError imports isrConfig html).
  destruct (skipsOnError imports isrConfig html).
  - unfold modify, ret. cbn. rewrite HRu, !app_nil_r. repeat split.
  - fold (resolvedRevalidate imports isrConfig html). unfold notCacheable.
    destruct (strictEqNumber (resolvedRevalidate imports isrConfig html) (value (-1)));
      [| destruct (isNullish (resolvedRevalidate imports isrConfig html))]; cbn.
    + rewrite !app_nil_r. repeat split. exact HRu.
    + rewrite !app_nil_r. repeat split. exact HRu.
    + destruct (addToCacheMaybeWaiting_run cacheKey finalHtml
                  (resolvedRevalidate imports isrConfig html) sR) as [Ao [Au Ac]].
      destruct (addToCacheMaybeWaiting imports isrConfig cacheKey finalHtml _ sR)
        as [oA sA cA].
      cbn [outcome after calls] in *. subst oA cA. unfold modify, ret. cbn.
      rewrite Au, HRu. repeat split.
Qed.

Lemma generateWithCacheKey_skip (st : State C) :
  holdUrl mode cacheKey (urlsOnHold st) = None ->
  generateWithCacheKey imports isrConfig req res cacheKey mode st =
  mkRun (Fulfilled None) st [GenerateWithCacheKey cacheKey mode].
Proof.
  intros Hhold. unfold generateWithCacheKey, bind, call. cbn [outcome after calls].
  now rewrite Hhold.
Qed.

Lemma generateWithCacheKey_enter (st : State C) (held : list string) :
  holdUrl mode cacheKey (urlsOnHold st) = Some held ->
  let r := renderAndCache imports isrConfig req res cacheKey mode
             (setUrlsOnHold held st) in
  generateWithCacheKey imports isrConfig req res cacheKey mode st =
  mkRun (outcome r) (after r) (GenerateWithCacheKey cacheKey mode :: calls r).
Proof.
  intros Hhold. unfold generateWithCacheKey, bind, call. cbn [outcome after calls].
  now rewrite Hhold.
Qed.

(** The registry after a run of [generateWithCacheKey] is the one a [Call]
    and, unless the run stays pending, a [Return] of the interleaved system
    lead to. *)
Lemma generateWithCacheKey_registry (st : State C) :
  let r := generateWithCacheKey imports isrConfig req res cacheKey mode st in
  match holdUrl mode cacheKey (urlsOnHold st) with
  | None => after r = st
  | Some held =>
      (outcome r = Pending /\ urlsOnHold (after r) = held) \/
      exists path,
        urlsOnHold (after r) = Interleaving.exitRegistry path mode cacheKey held
  end.
Proof.
  cbv zeta. destruct (holdUrl mode cacheKey (urlsOnHold st)) as [held |] eqn:Hhold.
  - rewrite (generateWithCacheKey_enter st Hhold). cbn [outcome after calls].
    destruct (renderAndCache_ends (setUrlsOnHold held st)) as [path [Hends [Hreg _]]].
    destruct path as [p |].
    + right. exists p. now apply Hreg.
    + left. inversion Hends; subst. split; assumption.
  - now rewrite (generateWithCacheKey_skip st Hhold).
Qed.

End CoordinatorFacts.

(** ** Interleaved regenerations *)

Section InterleavingFacts.

Import Interleaving.

Lemma removeNth_In {A} (n : nat) (l : list A) (x : A) :
  In x (removeNth n l) -> In x l.
Proof.
  revert n. induction l as [| a l IH]; intros [| n]; simpl; auto.
  intros [-> | Hin]; eauto.
Qed.

Lemma filter_removeNth_length {A} (f : A -> bool) (n : nat) (l : list A) :
  (List.length (filter f (removeNth n l)) <= List.length (filter f l))%nat.
Proof.
  revert n. induction l as [| a l IH]; intros [| n]; simpl; try lia.
  - destruct (f a); simpl; lia.
  - specialize (IH n). destruct (f a); simpl; lia.
Qed.

(** Two distinct positions satisfying [f] give at least two matches. *)
Lemma two_in_flight {A} (f : A -> bool) (n : nat) (l : list A) (t t' : A) :
  nth_error l n = Some t -> f t = true ->
  In t' (removeNth n l) -> f t' = true ->
  (2 <= List.length (filter f l))%nat.
Proof.
  revert n. induction l as [| a l IH]; intros [| n]; simpl; try discriminate.
  - intros [= ->] Ht Hin Ht'. rewrite Ht. simpl.
    assert (Hf : In t' (filter f l)) by (apply filter_In; auto).
    destruct (filter f l); simpl in *; [tauto | lia].
  - intros Hnth Ht [-> | Hin] Ht'.
    + rewrite Ht'. simpl.
      assert (Hf : In t (filter f l)).
      { apply filter_In. split; [eapply nth_error_In; eauto | assumption]. }
      destruct (filter f l); simpl in *; [tauto | lia].
    + specialize (IH n Hnth Ht Hin Ht'). destruct (f a); simpl; lia.
Qed.

Lemma step_singleFlight (s : System) (e : Event) :
  singleFlight s -> singleFlight (step s e).
Proof.
  intros [Hone Hreg]. destruct e as [k mode | n path]; simpl.
  - destruct mode; simpl.
    + destruct (includes (registry s) k) eqn:Hinc; [split; assumption |].
      apply includes_not_In in Hinc. split.
      * intros k'. unfold regenerating. simpl. rewrite filter_app. simpl.
        destruct (String.eqb_spec k k') as [<- | Hneq]; simpl.
        -- assert (Hnone : regenerating k s = []).
           { destruct (regenerating k s) as [| t rest] eqn:E; [reflexivity |].
             exfalso. assert (Hin : In t (regenerating k s)) by (rewrite E; now left).
             apply filter_In in Hin as [Hin Hf].
             apply andb_true_iff in Hf as [Hk Hm]. apply String.eqb_eq in Hk.
             apply Hinc. rewrite <- Hk. apply Hreg; [assumption |].
             destruct (taskMode t); [reflexivity | discriminate]. }
           unfold regenerating in Hnone. rewrite Hnone. simpl. lia.
        -- rewrite app_nil_r. apply Hone.
      * simpl. intros t Hin Hmode.
        apply in_app_iff in Hin as [Hin | [<- | []]]; apply in_or_app.
        -- left. now apply Hreg.
        -- right. simpl. now left.
    + split.
      * intros k'. unfold regenerating. simpl. rewrite filter_app. simpl.
        rewrite andb_false_r, app_nil_r. apply Hone.
      * simpl. intros t Hin Hmode.
        apply in_app_iff in Hin as [Hin | [<- | []]]; [now apply Hreg | discriminate].
  - destruct (nth_error (inFlight s) n) as [t |] eqn:Hnth; [| split; assumption].
    split.
    + intros k. unfold regenerating. simpl.
      etransitivity; [apply filter_removeNth_length | apply Hone].
    + simpl. intros t' Hin Hmode.
      pose proof (removeNth_In _ _ _ Hin) as Hin'.
      pose proof (Hreg t' Hin' Hmode) as Hk.
      destruct path; simpl; try assumption;
        destruct (taskMode t) eqn:Hm; simpl; try assumption;
        (apply filter_In; split; [assumption |]);
        apply negb_true_iff, String.eqb_neq; intros Heq;
        pose proof (two_in_flight
          (fun x => (taskKey x =? taskKey t)%string && isRegenerate (taskMode x))
          n (inFlight s) t' Hnth) as Htwo;
        specialize (Hone (taskKey t)); unfold regenerating in Hone;
        assert (2 <= List.length
                  (filter (fun x => (taskKey x =? taskKey t)%string &&
                                    isRegenerate (taskMode x)) (inFlight s)))%nat
          by (apply Htwo;
              [ now rewrite String.eqb_refl, Hm
              | assumption
              | now rewrite Heq, String.eqb_refl, Hmode ]);
        lia.
Qed.

Lemma run_singleFlight (events : list Event) : singleFlight (run events).
Proof.
  unfold run. assert (Hinit : singleFlight initial).
  { split; [intros k; simpl; lia | intros t []]. }
  revert Hinit. generalize initial as s.
  induction events as [| e events IH]; intros s Hs; simpl; [assumption |].
  apply IH. now apply step_singleFlight.
Qed.

End InterleavingFacts.

(** C1. Single-flight regeneration.  When [generateWithCacheKey] is called in
    regenerate mode for a key that is already in [urlsOnHold], it returns at
    once with no result, leaves the state as it is and calls nothing (in
    particular not the renderer).  Otherwise the key is pushed onto
    [urlsOnHold] first, and rendering starts from the state that holds it.
    Whatever calls and returns interleave, at most one run in regenerate mode
    is suspended per key, and its key is in the registry meanwhile. *)
Theorem single_flight_regeneration :
  forall (C : Type) (handler : CacheHandler C) (imports : Imports)
         (isrConfig : ISRHandlerConfig.t) (req : Request.t) (res : Response.t)
         (cacheKey : string) (st : State C),
    (In cacheKey (urlsOnHold st) ->
     generateWithCacheKey imports isrConfig req res cacheKey Regenerate st =
     mkRun (Fulfilled None) st [GenerateWithCacheKey cacheKey Regenerate])
    /\ (~ In cacheKey (urlsOnHold st) ->
        let held := setUrlsOnHold (urlsOnHold st ++ [cacheKey]) st in
        let r := renderAndCache imports isrConfig req res cacheKey Regenerate held in
        In cacheKey (urlsOnHold held) /\
        generateWithCacheKey imports isrConfig req res cacheKey Regenerate st =
        mkRun (outcome r) (after r)
              (GenerateWithCacheKey cacheKey Regenerate :: calls r))
    /\ (forall (events : list Interleaving.Event) (k : string),
          let s := Interleaving.run events in
          (List.length (Interleaving.regenerating k s) <= 1)%nat /\
          (Interleaving.regenerating k s <> [] -> In k (Interleaving.registry s))).
Proof.
  intros C handler imports isrConfig req res cacheKey st. repeat split.
  - intros Hin. apply generateWithCacheKey_skip. simpl.
    apply includes_In in Hin. now rewrite Hin.
  - simpl. apply in_or_app. right. now left.
  - apply generateWithCacheKey_enter. simpl.
    apply includes_not_In in H. now rewrite H.
  - apply (run_singleFlight events).
  - intros Hne. destruct (run_singleFlight events) as [_ Hreg].
    destruct (Interleaving.regenerating k (Interleaving.run events)) as [| t rest] eqn:E;
      [congruence |].
    assert (Hin : In t (Interleaving.regenerating k (Interleaving.run events)))
      by (rewrite E; now left).
    apply filter_In in Hin as [Hin Hf]. apply andb_true_iff in Hf as [Hk Hm].
    apply String.eqb_eq in Hk. rewrite <- Hk. apply Hreg; [assumption |].
    destruct (Interleaving.taskMode t); [reflexivity | discriminate].
Qed.

(** A second request for ["/five"] while its regeneration is on hold. *)
Lemma single_flight_regeneration_witness :
  generateWithCacheKey Example.imports Example.config (Example.request "/five")
    Example.response "/five" Regenerate
    (mkState ["/five"] ([] : Example.ListCache) Example.noTimers) =
  mkRun (Fulfilled None)
    (mkState ["/five"] ([] : Example.ListCache) Example.noTimers)
    [GenerateWithCacheKey "/five" Regenerate].
Proof.
  apply (proj1 (single_flight_regeneration Example.listCacheHandler Example.imports
                  Example.config (Example.request "/five") Example.response "/five"
                  (mkState ["/five"] ([] : Example.ListCache) Example.noTimers))).
  simpl. now left.
Defined.

(** ** What [generateWithCacheKey] writes *)

Section CachingFacts.

Context {C : Type} `{CacheHandler C}.
Variable imports : Imports.
Variable isrConfig : ISRHandlerConfig.t.
Variables (req : Request.t) (res : Response.t) (cacheKey : string) (mode : Mode).

Lemma notCacheable_iff (revalidate : Nullable Z) :
  notCacheable revalidate = true <->
  revalidate = value (-1) \/ revalidate = null \/ revalidate = undefined.
Proof.
  unfold notCacheable. destruct revalidate as [| | n]; simpl.
  - split; auto.
  - split; auto.
  - rewrite orb_false_r. split.
    + intros Heq. apply Z.eqb_eq in Heq. left. now subst.
    + intros [[= ->] | [Hn | Hu]]; [reflexivity | discriminate | discriminate].
Qed.

(** A run writes at most once, and only a cacheable resolved value. *)
Lemma generateWithCacheKey_adds (st : State C) :
  let r := generateWithCacheKey imports isrConfig req res cacheKey mode st in
  filter isCacheAdd (calls r) = [] \/
  exists html finalHtml,
    notCacheable (resolvedRevalidate imports isrConfig html) = false /\
    filter isCacheAdd (calls r) =
      [CacheAdd cacheKey finalHtml
         (CacheISRConfig.mk (resolvedRevalidate imports isrConfig html)
            (ISRHandlerConfig.buildId isrConfig) None)].
Proof.
  cbv zeta. destruct (holdUrl mode cacheKey (urlsOnHold st)) as [held |] eqn:Hhold.
  - rewrite (generateWithCacheKey_enter imports isrConfig req res cacheKey mode st Hhold).
    cbn [outcome after calls]. cbn [filter isCacheAdd].
    destruct (renderAndCache_ends imports isrConfig req res cacheKey mode
                (setUrlsOnHold held st)) as [path [Hends _]].
    inversion Hends; subst; try (left; assumption).
    right. exists html, finalHtml. split; assumption.
  - rewrite (generateWithCacheKey_skip imports isrConfig req res cacheKey mode st Hhold).
    left. reflexivity.
Qed.

(** The writes of a run whose render succeeded. *)
Lemma generateWithCacheKey_rendered_adds (st : State C) (held : list string)
    (html : string) (finalHtml : Html) :
  holdUrl mode cacheKey (urlsOnHold st) = Some held ->
  rendersTo imports isrConfig req res (setUrlsOnHold held st) html finalHtml ->
  filter isCacheAdd
    (calls (generateWithCacheKey imports isrConfig req res cacheKey mode st)) =
  if skipsOnError imports isrConfig html ||
     notCacheable (resolvedRevalidate imports isrConfig html)
  then []
  else [CacheAdd cacheKey finalHtml
          (CacheISRConfig.mk (resolvedRevalidate imports isrConfig html)
             (ISRHandlerConfig.buildId isrConfig) None)].
Proof.
  intros Hhold Hrenders.
  rewrite (generateWithCacheKey_enter imports isrConfig req res cacheKey mode st Hhold).
  cbn [outcome after calls]. cbn [filter isCacheAdd].
  pose proof (renderAndCache_rendered cacheKey mode Hrenders) as Hrun.
  cbv zeta in Hrun.
  destruct (renderUrl_calls imports isrConfig req res (Request.url req)
              (setUrlsOnHold held st)) as [ev [Hev Hrender]].
  assert (Hnone : filter isCacheAdd [ev] = [])
    by (destruct ev; cbn in Hrender |- *; congruence).
  rewrite Hev in Hrun.
  destruct (skipsOnError imports isrConfig html);
    [| destruct (notCacheable (resolvedRevalidate imports isrConfig html))];
    destruct Hrun as [_ [Hcalls _]]; rewrite Hcalls; cbn [orb];
    try exact Hnone.
  rewrite filter_app, Hnone. reflexivity.
Qed.

Lemma generateWithCacheKey_rendered_outcome (st : State C) (held : list string)
    (html : string) (finalHtml : Html) :
  holdUrl mode cacheKey (urlsOnHold st) = Some held ->
  rendersTo imports isrConfig req res (setUrlsOnHold held st) html finalHtml ->
  skipsOnError imports isrConfig html = false ->
  outcome (generateWithCacheKey imports isrConfig req res cacheKey mode st) =
  Fulfilled (Some (IGeneratedResult.mk finalHtml None)).
Proof.
  intros Hhold Hrenders Hskip.
  rewrite (generateWithCacheKey_enter imports isrConfig req res cacheKey mode st Hhold).
  cbn [outcome after calls].
  pose proof (renderAndCache_rendered cacheKey mode Hrenders) as Hrun.
  cbv zeta in Hrun. rewrite Hskip in Hrun.
  destruct (notCacheable (resolvedRevalidate imports isrConfig html));
    now destruct Hrun as [Hout _].
Qed.

End CachingFacts.

(** C2 (the code at the failing input).  A page that reports revalidate -1 is
    regenerated in regenerate mode: the call returns the content, and the key
    is still in [urlsOnHold] afterwards, so the next regeneration of the same
    key is skipped although none is running. *)
Theorem not_cached_leaves_key_on_hold :
  let r := generateWithCacheKey Example.imports Example.config
             (Example.request "/never") Example.response "/never" Regenerate
             (Example.start []) in
  outcome r = Fulfilled (Some (IGeneratedResult.mk (HtmlString "revalidate:-1") None)) /\
  urlsOnHold (after r) = ["/never"] /\
  generateWithCacheKey Example.imports Example.config
    (Example.request "/never") Example.response "/never" Regenerate (after r) =
  mkRun (Fulfilled None) (after r) [GenerateWithCacheKey "/never" Regenerate].
Proof.
  cbv zeta. repeat split; vm_compute; reflexivity.
Qed.

(** C4. For a call of [generateWithCacheKey] that is not skipped as a
    duplicate and whose render succeeds (the renderer and the post-processing
    give [finalHtml]): if the resolved revalidate value, the value read from
    the markup coalesced with [defaultRevalidate], is -1, null or undefined,
    [cache.add] is not called; and when the page is not held back by the
    error policy, the call returns [{ html: finalHtml }] alone, and for any
    other resolved value [cache.add] is called exactly once, with
    [cacheKey], [finalHtml] and [{ revalidate, buildId }]. *)
Theorem caching_decision :
  forall (C : Type) (handler : CacheHandler C) (imports : Imports)
         (isrConfig : ISRHandlerConfig.t) (req : Request.t) (res : Response.t)
         (cacheKey : string) (mode : Mode) (st : State C) (held : list string)
         (html : string) (finalHtml : Html),
    let r := generateWithCacheKey imports isrConfig req res cacheKey mode st in
    let revalidate := resolvedRevalidate imports isrConfig html in
    let negativeOrAbsent :=
      revalidate = value (-1) \/ revalidate = null \/ revalidate = undefined in
    holdUrl mode cacheKey (urlsOnHold st) = Some held ->
    rendersTo imports isrConfig req res (setUrlsOnHold held st) html finalHtml ->
    (negativeOrAbsent -> filter isCacheAdd (calls r) = [])
    /\ (skipsOnError imports isrConfig html = false ->
        outcome r = Fulfilled (Some (IGeneratedResult.mk finalHtml None)) /\
        (~ negativeOrAbsent ->
         filter isCacheAdd (calls r) =
           [CacheAdd cacheKey finalHtml
              (CacheISRConfig.mk revalidate
                 (ISRHandlerConfig.buildId isrConfig) None)])).
Proof.
  intros C handler imports isrConfig req res cacheKey mode st held html finalHtml
         r revalidate negativeOrAbsent Hhold Hrenders.
  subst r revalidate negativeOrAbsent.
  erewrite generateWithCacheKey_rendered_adds by eassumption.
  split.
  - intros Hneg. apply notCacheable_iff in Hneg. rewrite Hneg.
    now rewrite orb_true_r.
  - intros Hskip. split.
    + now apply generateWithCacheKey_rendered_outcome with (held := held) (html := html).
    + intros Hnot. rewrite Hskip. cbn [orb].
      destruct (notCacheable (resolvedRevalidate imports isrConfig html)) eqn:Hnc;
        [| reflexivity].
      apply notCacheable_iff in Hnc. contradiction.
Qed.

(** The page ["/five"] reports revalidate 5: it is written once. *)
Lemma caching_decision_witness :
  filter isCacheAdd
    (calls (generateWithCacheKey Example.imports Example.config
              (Example.request "/five") Example.response "/five" Generate
              (Example.start []))) =
  [CacheAdd "/five" (HtmlString "revalidate:5")
     (CacheISRConfig.mk (value 5) null None)].
Proof.
  assert (Hhold : holdUrl Generate "/five" (urlsOnHold (Example.start [])) = Some [])
    by reflexivity.
  assert (Hrenders : rendersTo Example.imports Example.config
                       (Example.request "/five") Example.response
                       (setUrlsOnHold [] (Example.start []))
                       "revalidate:5" (HtmlString "revalidate:5"))
    by (split; reflexivity).
  pose proof (@caching_decision _ Example.listCacheHandler Example.imports
                Example.config (Example.request "/five") Example.response
                "/five" Generate (Example.start []) [] "revalidate:5"
                (HtmlString "revalidate:5") Hhold Hrenders) as Hc.
  cbv zeta in Hc. destruct Hc as [_ Hwritten].
  destruct (Hwritten eq_refl) as [_ Hadd].
  apply Hadd. intros [Hm | [Hn | Hu]]; discriminate.
Defined.

(** C10. An entry is stored with revalidate 0 only when the configured
    [defaultRevalidate] is 0.  When the page itself reports 0, the resolved
    value is the configured default: whatever is written carries the default,
    and with no default (null or undefined) nothing is written. *)
Theorem zero_revalidate_needs_zero_default :
  forall (C : Type) (handler : CacheHandler C) (imports : Imports)
         (isrConfig : ISRHandlerConfig.t) (req : Request.t) (res : Response.t)
         (cacheKey : string) (mode : Mode) (st : State C),
    let r := generateWithCacheKey imports isrConfig req res cacheKey mode st in
    let defaultRevalidate := ISRHandlerConfig.defaultRevalidate isrConfig in
    (forall key content config,
        In (CacheAdd key content config) (calls r) ->
        CacheISRConfig.revalidate config = value 0 ->
        defaultRevalidate = value 0)
    /\ (forall held html finalHtml,
          holdUrl mode cacheKey (urlsOnHold st) = Some held ->
          rendersTo imports isrConfig req res (setUrlsOnHold held st) html finalHtml ->
          RouteISRData.revalidate (getRouteISRDataFromHTML imports html) = value 0 ->
          resolvedRevalidate imports isrConfig html = defaultRevalidate /\
          (forall key content config,
              In (CacheAdd key content config) (calls r) ->
              CacheISRConfig.revalidate config = defaultRevalidate) /\
          (isNullish defaultRevalidate = true -> filter isCacheAdd (calls r) = [])).
Proof.
  intros C handler imports isrConfig req res cacheKey mode st r defaultRevalidate.
  subst r defaultRevalidate. split.
  - intros key content config Hin Hzero.
    assert (Hf : In (CacheAdd key content config)
                   (filter isCacheAdd
                      (calls (generateWithCacheKey imports isrConfig req res
                                cacheKey mode st))))
      by (apply filter_In; split; [assumption | reflexivity]).
    destruct (generateWithCacheKey_adds imports isrConfig req res cacheKey mode st)
      as [Hnone | [html [finalHtml [_ Hone]]]].
    + rewrite Hnone in Hf. destruct Hf.
    + rewrite Hone in Hf. destruct Hf as [[= <- <- <-] | []].
      cbn in Hzero. unfold resolvedRevalidate in Hzero.
      now apply orNumber_zero_only in Hzero.
  - intros held html finalHtml Hhold Hrenders Hreported.
    assert (Hres : resolvedRevalidate imports isrConfig html =
                   ISRHandlerConfig.defaultRevalidate isrConfig)
      by (unfold resolvedRevalidate; rewrite Hreported; reflexivity).
    split; [exact Hres |].
    erewrite generateWithCacheKey_rendered_adds by eassumption.
    rewrite Hres. split.
    + intros key content config Hin.
      assert (Hf : In (CacheAdd key content config)
                     (filter isCacheAdd
                        (calls (generateWithCacheKey imports isrConfig req res
                                  cacheKey mode st))))
        by (apply filter_In; split; [assumption | reflexivity]).
      erewrite generateWithCacheKey_rendered_adds in Hf by eassumption.
      rewrite Hres in Hf.
      destruct (skipsOnError imports isrConfig html ||
                notCacheable (ISRHandlerConfig.defaultRevalidate isrConfig));
        [destruct Hf |].
      destruct Hf as [[= <- <- <-] | []]. reflexivity.
    + intros Hnull. unfold notCacheable. rewrite Hnull.
      now rewrite !orb_true_r.
Qed.

(** The page ["/zero"] reports revalidate 0 and no default is configured:
    nothing is written. *)
Lemma zero_revalidate_needs_zero_default_witness :
  filter isCacheAdd
    (calls (generateWithCacheKey Example.imports Example.config
              (Example.request "/zero") Example.response "/zero" Generate
              (Example.start []))) = [].
Proof.
  assert (Hhold : holdUrl Generate "/zero" (urlsOnHold (Example.start [])) = Some [])
    by reflexivity.
  assert (Hrenders : rendersTo Example.imports Example.config
                       (Example.request "/zero") Example.response
                       (setUrlsOnHold [] (Example.start []))
                       "revalidate:0" (HtmlString "revalidate:0"))
    by (split; reflexivity).
  pose proof (@zero_revalidate_needs_zero_default _ Example.listCacheHandler
                Example.imports Example.config (Example.request "/zero")
                Example.response "/zero" Generate (Example.start [])) as Hz.
  cbv zeta in Hz. destruct Hz as [_ Hreported].
  destruct (Hreported [] "revalidate:0" (HtmlString "revalidate:0") Hhold Hrenders
              eq_refl) as [_ [_ Hnothing]].
  apply Hnothing. reflexivity.
Defined.

(** ** Serving from the cache *)

Section ServeFacts.

Context {C : Type} `{CacheHandler C}.
Variable imports : Imports.
Variable isrConfig : ISRHandlerConfig.t.
Variables (req : Request.t) (res : Response.t).

Lemma expired_false_iff (now createdAt revalidate : Z) :
  expired now createdAt revalidate = false <->
  (inject_Z (now - createdAt) / inject_Z 1000 <= inject_Z revalidate)%Q.
Proof.
  unfold expired. rewrite negb_false_iff. apply Qle_bool_iff.
Qed.

Lemma readCache_found (cacheKey : string) (st : State C) (t : Z)
    (cacheData : CacheData.t) (cache' : C) :
  get cacheKey (cache st) = (SettlesAt t (Resolve cacheData), cache') ->
  t <= timerDelay (cacheTimeoutMs imports isrConfig) ->
  let r := readCache imports isrConfig cacheKey st in
  outcome r = Fulfilled (Some cacheData) /\
  calls r = [CacheGet cacheKey] /\
  urlsOnHold (after r) = urlsOnHold st.
Proof.
  intros Hget Hle. cbv zeta. unfold readCache, tryCatch. rewrite Hget.
  unfold bind, call. cbn [outcome after calls].
  pose proof (executeWithTimeout_outcome (SettlesAt t (Resolve cacheData))
                (cacheTimeoutMs imports isrConfig)
                ("Failed to get cache data for cacheKey: " ++ cacheKey)%string
                (setCache cache' st)) as Ho.
  pose proof (executeWithTimeout_calls (SettlesAt t (Resolve cacheData))
                (cacheTimeoutMs imports isrConfig)
                ("Failed to get cache data for cacheKey: " ++ cacheKey)%string
                (setCache cache' st)) as Hc.
  pose proof (executeWithTimeout_urlsOnHold (SettlesAt t (Resolve cacheData))
                (cacheTimeoutMs imports isrConfig)
                ("Failed to get cache data for cacheKey: " ++ cacheKey)%string
                (setCache cache' st)) as Hu.
  unfold timeoutPromise in Ho. simpl Promise_race in Ho.
  destruct (Z.leb_spec t (timerDelay (cacheTimeoutMs imports isrConfig))); [| lia].
  destruct (executeWithTimeout _ _ _ _) as [o s c].
  cbn [outcome after calls] in *. subst o c. cbn. repeat split. exact Hu.
Qed.

Lemma sendCached_run (totalTime : string) (config : option ServeFromCacheConfig.t)
    (finalHtml : Html) (st st' : State C) :
  outcome (sendCached isrConfig req totalTime config finalHtml st) = Fulfilled tt /\
  calls (sendCached isrConfig req totalTime config finalHtml st) =
  calls (sendCached isrConfig req totalTime config finalHtml st') /\
  filter isGenerateCall (calls (sendCached isrConfig req totalTime config finalHtml st)) = [].
Proof.
  unfold sendCached.
  destruct (ISRHandlerConfig.compressHtml isrConfig); [repeat split |].
  destruct config as [[[f |]] |]; repeat split.
Qed.

Lemma generateWithCacheKey_announced (cacheKey : string) (mode : Mode) (st : State C) :
  In (GenerateWithCacheKey cacheKey mode)
     (calls (generateWithCacheKey imports isrConfig req res cacheKey mode st)).
Proof.
  destruct (holdUrl mode cacheKey (urlsOnHold st)) as [held |] eqn:Hhold.
  - rewrite (generateWithCacheKey_enter imports isrConfig req res cacheKey mode st Hhold).
    now left.
  - rewrite (generateWithCacheKey_skip imports isrConfig req res cacheKey mode st Hhold).
    now left.
Qed.

Lemma revalidateIfExpired_fresh (cacheKey : string) (cacheConfig : CacheISRConfig.t)
    (createdAt now n : Z) (finalHtml : Html) (st : State C) :
  CacheISRConfig.revalidate cacheConfig = value n ->
  n = 0 \/ expired now createdAt n = false ->
  revalidateIfExpired imports isrConfig req res cacheKey cacheConfig createdAt now
    finalHtml st =
  mkRun (Fulfilled finalHtml) st [].
Proof.
  intros Hn Hfresh. unfold revalidateIfExpired. rewrite Hn.
  destruct Hfresh as [-> | Hfresh]; [reflexivity |].
  rewrite Hfresh. destruct (negb (n =? 0) && (0 <? n)); reflexivity.
Qed.

Lemma revalidateIfExpired_stale (cacheKey : string) (cacheConfig : CacheISRConfig.t)
    (createdAt now n : Z) (finalHtml : Html) (st : State C) :
  CacheISRConfig.revalidate cacheConfig = value n ->
  0 < n -> expired now createdAt n = true ->
  In (GenerateWithCacheKey cacheKey Regenerate)
     (calls (revalidateIfExpired imports isrConfig req res cacheKey cacheConfig
               createdAt now finalHtml st)).
Proof.
  intros Hn Hpos Hexp. unfold revalidateIfExpired. rewrite Hn, Hexp.
  assert (Hcond : negb (n =? 0) && (0 <? n) = true).
  { apply andb_true_iff. split.
    - apply negb_true_iff, Z.eqb_neq. lia.
    - apply Z.ltb_lt. lia. }
  rewrite Hcond.
  pose proof (generateWithCacheKey_announced cacheKey Regenerate st) as Hin.
  unfold tryCatch, bind, detach.
  destruct (ISRHandlerConfig.backgroundRevalidation isrConfig); cbn [outcome after calls].
  - cbn. rewrite app_nil_r. exact Hin.
  - destruct (generateWithCacheKey imports isrConfig req res cacheKey Regenerate st)
      as [[result | e |] s c]; cbn [outcome after calls] in *; cbn;
      try rewrite app_nil_r; try (apply in_or_app; left); exact Hin.
Qed.

End ServeFacts.

Lemma bind_calls_first {C A B} (m : Async C A) (k : A -> Async C B)
    (st : State C) (e : Effect) :
  In e (calls (m st)) -> In e (calls (bind m k st)).
Proof.
  intros Hin. unfold bind. destruct (m st) as [[a | err |] s c];
    cbn [outcome after calls] in *; try assumption.
  apply in_or_app. now left.
Qed.

Section ServeTheorems.

Context {C : Type} `{CacheHandler C}.
Variable imports : Imports.
Variable isrConfig : ISRHandlerConfig.t.
Variables (req : Request.t) (res : Response.t).
Variables (now : Z) (totalTime : string) (config : option ServeFromCacheConfig.t).
Variable st : State C.
Variables (t : Z) (cacheData : CacheData.t) (cache' : C).

Let cacheKey : string :=
  getCacheKey imports isrConfig (Request.url req)
    (ISRHandlerConfig.allowedQueryParams isrConfig)
    (getVariant imports req (ISRHandlerConfig.variants isrConfig)).

Hypothesis Hget :
  get cacheKey (cache st) = (SettlesAt t (Resolve cacheData), cache').
Hypothesis Hintime : t <= timerDelay (cacheTimeoutMs imports isrConfig).
Hypothesis Hbuild : fromOtherBuild isrConfig (CacheData.options cacheData) = false.

(** A usable entry is handed to the freshness check and then sent. *)
Lemma serveFromCache_found :
  let r := serveFromCache imports isrConfig req res now totalTime config st in
  let found := readCache imports isrConfig cacheKey st in
  let checked :=
    bind (revalidateIfExpired imports isrConfig req res cacheKey
            (CacheData.options cacheData) (CacheData.createdAt cacheData) now
            (cachedHtml imports isrConfig (CacheData.html cacheData)))
         (sendCached isrConfig req totalTime config) (after found) in
  calls r = CacheGet cacheKey :: calls checked ++
            match outcome checked with Rejected _ => [Next] | _ => [] end /\
  (outcome checked = Fulfilled tt -> outcome r = Fulfilled tt).
Proof.
  cbv zeta. destruct (readCache_found imports isrConfig cacheKey st Hget Hintime)
    as [Ho [Hc _]].
  unfold serveFromCache. fold cacheKey. unfold tryCatch, bind.
  destruct (readCache imports isrConfig cacheKey st) as [o s c].
  cbn [outcome after calls] in *. subst o c. cbn [outcome after calls].
  rewrite Hbuild.
  destruct (revalidateIfExpired imports isrConfig req res cacheKey
              (CacheData.options cacheData) (CacheData.createdAt cacheData) now
              (cachedHtml imports isrConfig (CacheData.html cacheData)) s)
    as [[finalHtml | e |] s1 c1]; cbn [outcome after calls].
  - destruct (sendCached isrConfig req totalTime config finalHtml s1)
      as [[[] | e |] s2 c2]; cbn; rewrite ?app_nil_r;
      (split; [reflexivity | intros Hx; first [reflexivity | discriminate Hx]]).
  - cbn. split; [reflexivity | discriminate].
  - cbn. rewrite ?app_nil_r. split; [reflexivity | discriminate].
Qed.

Lemma serveFromCache_fresh (n : Z) :
  CacheISRConfig.revalidate (CacheData.options cacheData) = value n ->
  n = 0 \/ expired now (CacheData.createdAt cacheData) n = false ->
  let r := serveFromCache imports isrConfig req res now totalTime config st in
  outcome r = Fulfilled tt /\
  filter isGenerateCall (calls r) = [] /\
  calls r =
    CacheGet cacheKey ::
    calls (sendCached isrConfig req totalTime config
             (cachedHtml imports isrConfig (CacheData.html cacheData)) st).
Proof.
  intros Hn Hfresh. cbv zeta.
  destruct serveFromCache_found as [Hcalls Hout]. cbv zeta in Hcalls, Hout.
  unfold bind in Hcalls, Hout.
  rewrite (revalidateIfExpired_fresh imports isrConfig req res cacheKey
             (CacheData.options cacheData) (CacheData.createdAt cacheData) now
             (cachedHtml imports isrConfig (CacheData.html cacheData))
             (after (readCache imports isrConfig cacheKey st)) Hn Hfresh)
    in Hcalls, Hout.
  cbn [outcome after calls] in Hcalls, Hout.
  destruct (sendCached_run isrConfig req totalTime config
              (cachedHtml imports isrConfig (CacheData.html cacheData))
              (after (readCache imports isrConfig cacheKey st)) st)
    as [Hso [Hsc Hsg]].
  rewrite Hso in Hcalls, Hout. cbn [app] in Hcalls. rewrite app_nil_r in Hcalls.
  rewrite Hcalls. repeat split.
  - now apply Hout.
  - cbn [filter isGenerateCall]. exact Hsg.
  - now rewrite Hsc.
Qed.

Lemma serveFromCache_stale (n : Z) :
  CacheISRConfig.revalidate (CacheData.options cacheData) = value n ->
  0 < n -> expired now (CacheData.createdAt cacheData) n = true ->
  In (GenerateWithCacheKey cacheKey Regenerate)
     (calls (serveFromCache imports isrConfig req res now totalTime config st)).
Proof.
  intros Hn Hpos Hexp.
  destruct serveFromCache_found as [Hcalls _]. cbv zeta in Hcalls.
  rewrite Hcalls. right. apply in_or_app. left. apply bind_calls_first.
  now apply revalidateIfExpired_stale with (n := n).
Qed.

End ServeTheorems.

(** C3. Freshness policy of [serveFromCache], for an entry the cache hands
    over within its deadline and whose build id does not rule it out.  With
    [revalidate = n > 0] and [(now - createdAt) / 1000 <= n] the stored markup
    goes to [res.send] as it is (through the buffer conversion when
    compression is configured, and through [modifyCachedHtml] when the caller
    gave one; with neither, the very markup stored) and
    [generateWithCacheKey] is not called.  Once [(now - createdAt) / 1000]
    exceeds [n], serving calls [generateWithCacheKey] in regenerate mode.
    With [revalidate = 0] the entry is served in the same way whatever [now]
    is, and [generateWithCacheKey] is never called. *)
Theorem freshness_policy :
  forall (C : Type) (handler : CacheHandler C) (imports : Imports)
         (isrConfig : ISRHandlerConfig.t) (req : Request.t) (res : Response.t)
         (now : Z) (totalTime : string) (config : option ServeFromCacheConfig.t)
         (st : State C) (t : Z) (cacheData : CacheData.t) (cache' : C) (n : Z),
    let cacheKey :=
      getCacheKey imports isrConfig (Request.url req)
        (ISRHandlerConfig.allowedQueryParams isrConfig)
        (getVariant imports req (ISRHandlerConfig.variants isrConfig)) in
    let r := serveFromCache imports isrConfig req res now totalTime config st in
    let stored := CacheData.html cacheData in
    let age := (inject_Z (now - CacheData.createdAt cacheData) / inject_Z 1000)%Q in
    let servedAsStored :=
      outcome r = Fulfilled tt /\
      filter isGenerateCall (calls r) = [] /\
      calls r =
        CacheGet cacheKey ::
        calls (sendCached isrConfig req totalTime config
                 (cachedHtml imports isrConfig stored) st) /\
      (ISRHandlerConfig.compressHtml isrConfig = None ->
       (forall c, config = Some c -> ServeFromCacheConfig.modifyCachedHtml c = None) ->
       calls r = [CacheGet cacheKey; ResSend stored]) in
    get cacheKey (cache st) = (SettlesAt t (Resolve cacheData), cache') ->
    t <= timerDelay (cacheTimeoutMs imports isrConfig) ->
    fromOtherBuild isrConfig (CacheData.options cacheData) = false ->
    CacheISRConfig.revalidate (CacheData.options cacheData) = value n ->
    (0 < n -> (age <= inject_Z n)%Q -> servedAsStored)
    /\ (0 < n -> ~ (age <= inject_Z n)%Q ->
        In (GenerateWithCacheKey cacheKey Regenerate) (calls r))
    /\ (n = 0 -> servedAsStored).
Proof.
  intros C handler imports isrConfig req res now totalTime config st t cacheData
         cache' n cacheKey r stored age servedAsStored Hget Hintime Hbuild Hn.
  assert (Hfresh : n = 0 \/ expired now (CacheData.createdAt cacheData) n = false ->
                   servedAsStored).
  { intros Hf.
    destruct (serveFromCache_fresh imports isrConfig req res now totalTime config
                st Hget Hintime Hbuild Hn Hf) as [Ho [Hg Hc]].
    subst servedAsStored r stored cacheKey. repeat split; try assumption.
    intros Hnone Hplain. rewrite Hc. unfold sendCached, cachedHtml. rewrite Hnone.
    destruct config as [c |]; [| reflexivity].
    rewrite (Hplain c eq_refl). reflexivity. }
  repeat split.
  1-4: apply Hfresh; right; now apply expired_false_iff.
  - intros Hpos Hold. subst r cacheKey.
    apply serveFromCache_stale with (t := t) (cacheData := cacheData)
                                    (cache' := cache') (n := n); try assumption.
    destruct (expired now (CacheData.createdAt cacheData) n) eqn:Hexp;
      [reflexivity |].
    apply expired_false_iff in Hexp. contradiction.
  - apply Hfresh. now left.
  - apply Hfresh. now left.
  - apply Hfresh. now left.
  - apply Hfresh. now left.
Qed.

(** An entry for ["/five"] with revalidate 5, created at 0 and served at
    5000 ms: it is exactly five seconds old and goes out as stored. *)
Lemma freshness_policy_witness :
  calls (serveFromCache Example.imports Example.config (Example.request "/five")
           Example.response 5000 "0.10" None
           (Example.start [("/five", Example.entry "old" (value 5) 0)])) =
  [CacheGet "/five"; ResSend (HtmlString "old")].
Proof.
  pose proof (@freshness_policy _ Example.listCacheHandler Example.imports
                Example.config (Example.request "/five") Example.response
                5000 "0.10" None
                (Example.start [("/five", Example.entry "old" (value 5) 0)])
                1 (Example.entry "old" (value 5) 0)
                [("/five", Example.entry "old" (value 5) 0)] 5) as Hf.
  cbv zeta in Hf.
  assert (Hget : get "/five" [("/five", Example.entry "old" (value 5) 0)] =
                 (SettlesAt 1 (Resolve (Example.entry "old" (value 5) 0)),
                  [("/five", Example.entry "old" (value 5) 0)]))
    by reflexivity.
  assert (Hintime : 1 <= timerDelay (cacheTimeoutMs Example.imports Example.config))
    by (vm_compute; discriminate).
  destruct (Hf Hget Hintime eq_refl eq_refl) as [Hfresh _].
  assert (Hpos : 0 < 5) by lia.
  assert (Hage : (inject_Z (5000 - 0) / inject_Z 1000 <= inject_Z 5)%Q)
    by (apply Qle_bool_iff; reflexivity).
  destruct (Hfresh Hpos Hage) as [_ [_ [_ Hplain]]].
  apply Hplain; [reflexivity | discriminate].
Defined.

(** C5 (the code at the failing input).  The entry for ["/broken"] is stale,
    background revalidation is off and the regeneration fails: [next()] is
    called and the stale markup is sent as well. *)
Theorem failed_revalidation_also_sends_stale :
  let r := serveFromCache Example.imports Example.config
             (Example.request "/broken") Example.response 10000 "0.10" None
             (Example.start [("/broken", Example.entry "old" (value 5) 0)]) in
  ISRHandlerConfig.backgroundRevalidation Example.config = false /\
  outcome (generateWithCacheKey Example.imports Example.config
             (Example.request "/broken") Example.response "/broken" Regenerate
             (Example.start [("/broken", Example.entry "old" (value 5) 0)])) =
    Rejected (mkError "render failed") /\
  calls r =
    [CacheGet "/broken"; GenerateWithCacheKey "/broken" Regenerate;
     EngineRender "http://localhost/broken"; Next; ResSend (HtmlString "old")].
Proof.
  cbv zeta. repeat split; vm_compute; reflexivity.
Qed.

(** ** Invalidation *)

Lemma strictEqString_eq (a b : Nullable string) :
  strictEqString a b = true <-> a = b.
Proof.
  destruct a as [| | s], b as [| | s']; simpl; split; try congruence; try tauto.
  - intros Heq. apply String.eqb_eq in Heq. now subst.
  - intros [= ->]. apply String.eqb_refl.
Qed.

(** C6 (the code at the failing input).  With a caller-supplied key generator
    that prefixes every key, the default item of ["/five"] carries the raw URL
    while the generator gives ["isr:/five"] for it; the page cached under the
    generator's key by [generate] is then reported as not in cache by
    [invalidate] and is not rebuilt. *)
Theorem default_item_bypasses_generator :
  let isrConfig := Example.withGenerator Example.prefixedKey Example.config in
  let items := getVariantUrlsToInvalidate Example.imports isrConfig ["/five"] in
  let cached :=
    after (generate Example.imports isrConfig (Example.request "/five")
             Example.response Generate (Example.start [])) in
  map VariantRebuildItem.cacheKey items =
    ["/five"; "isr:/five<variantId:mobile>"; "isr:/five<variantId:dark>"] /\
  getCacheKey Example.imports isrConfig "/five"
    (ISRHandlerConfig.allowedQueryParams isrConfig) None = "isr:/five" /\
  map fst (cache cached) = ["isr:/five"] /\
  calls (invalidate Example.imports isrConfig
           (Example.invalidation (value "s3cret") (value ["/five"]))
           Example.response cached) =
    [CacheHas "/five" (SettlesAt 1 (Resolve false));
     CacheHas "isr:/five<variantId:mobile>" (SettlesAt 1 (Resolve false));
     CacheHas "isr:/five<variantId:dark>" (SettlesAt 1 (Resolve false));
     ResJson (SuccessResponse
                ["/five"; "isr:/five<variantId:mobile>"; "isr:/five<variantId:dark>"]
                emptyObject [])].
Proof.
  cbv zeta. repeat split; vm_compute; reflexivity.
Qed.

(** C7. [invalidate] fails closed.  When the token of the request differs
    from the configured secret, the answer is the authorization error, the
    state of the handler is untouched and nothing else is called: no cache
    operation, no regeneration.  With the right token and a missing or empty
    [urlsToInvalidate], the answer is the validation error, again with
    nothing else called; so a missing or empty list never leads to a cache
    operation. *)
Theorem invalidation_fails_closed :
  forall (C : Type) (handler : CacheHandler C) (imports : Imports)
         (isrConfig : ISRHandlerConfig.t) (req : Request.t) (res : Response.t)
         (st : State C),
    let r := invalidate imports isrConfig req res st in
    let secret := ISRHandlerConfig.invalidateSecretToken isrConfig in
    let noUrls :=
      Request.urlsToInvalidate req = undefined \/
      Request.urlsToInvalidate req = null \/
      Request.urlsToInvalidate req = value [] in
    (Request.token req <> secret ->
     r = mkRun (Fulfilled tt) st
           [ResJson (ErrorResponse "Your secret token is wrong!!!")])
    /\ (Request.token req = secret -> noUrls ->
        r = mkRun (Fulfilled tt) st
              [ResJson (ErrorResponse "Please add `urlsToInvalidate` in the payload!")])
    /\ (noUrls ->
        exists message,
          r = mkRun (Fulfilled tt) st [ResJson (ErrorResponse message)]).
Proof.
  intros C handler imports isrConfig req res st r secret noUrls.
  subst r secret noUrls.
  assert (Hwrong : Request.token req <> ISRHandlerConfig.invalidateSecretToken isrConfig ->
                   invalidate imports isrConfig req res st =
                   mkRun (Fulfilled tt) st
                     [ResJson (ErrorResponse "Your secret token is wrong!!!")]).
  { intros Hneq. unfold invalidate.
    destruct (strictEqString (Request.token req)
                (ISRHandlerConfig.invalidateSecretToken isrConfig)) eqn:Heq.
    - apply strictEqString_eq in Heq. contradiction.
    - reflexivity. }
  assert (Hempty : Request.token req = ISRHandlerConfig.invalidateSecretToken isrConfig ->
                   Request.urlsToInvalidate req = undefined \/
                   Request.urlsToInvalidate req = null \/
                   Request.urlsToInvalidate req = value [] ->
                   invalidate imports isrConfig req res st =
                   mkRun (Fulfilled tt) st
                     [ResJson (ErrorResponse
                                 "Please add `urlsToInvalidate` in the payload!")]).
  { intros Heq Hno. unfold invalidate.
    apply strictEqString_eq in Heq. rewrite Heq. cbn [negb].
    destruct Hno as [-> | [-> | ->]]; reflexivity. }
  repeat split; try assumption.
  intros Hno.
  destruct (strictEqString (Request.token req)
              (ISRHandlerConfig.invalidateSecretToken isrConfig)) eqn:Heq.
  - apply strictEqString_eq in Heq. eexists. now apply Hempty.
  - eexists. apply Hwrong. intros Habs. apply strictEqString_eq in Habs. congruence.
Qed.

(** A request with the wrong token, against a cache that holds the page. *)
Lemma invalidation_fails_closed_witness :
  invalidate Example.imports Example.config
    (Example.invalidation (value "guess") (value ["/five"])) Example.response
    (Example.start [("/five", Example.entry "old" (value 5) 0)]) =
  mkRun (Fulfilled tt)
    (Example.start [("/five", Example.entry "old" (value 5) 0)])
    [ResJson (ErrorResponse "Your secret token is wrong!!!")].
Proof.
  pose proof (@invalidation_fails_closed _ Example.listCacheHandler
                Example.imports Example.config
                (Example.invalidation (value "guess") (value ["/five"]))
                Example.response
                (Example.start [("/five", Example.entry "old" (value 5) 0)])) as Hi.
  cbv zeta in Hi. destruct Hi as [Hwrong _].
  apply Hwrong. discriminate.
Defined.

Lemma fold_left_push {A B} (h : A -> B) (l : list A) (acc : list B) :
  fold_left (fun result x => result ++ [h x]) l acc = acc ++ map h l.
Proof.
  revert acc. induction l as [| x l IH]; intros acc; simpl.
  - now rewrite app_nil_r.
  - rewrite IH, <- app_assoc. reflexivity.
Qed.

Lemma hasChecks_app (a b : list Effect) :
  hasChecks (a ++ b) = hasChecks a ++ hasChecks b.
Proof.
  induction a as [| e a IH]; simpl; [reflexivity |].
  destruct e; simpl; now rewrite ?IH.
Qed.

Lemma generateCalls_app (a b : list Effect) :
  generateCalls (a ++ b) = generateCalls a ++ generateCalls b.
Proof.
  induction a as [| e a IH]; simpl; [reflexivity |].
  destruct e; simpl; now rewrite ?IH.
Qed.

Lemma absentKeys_app (timeoutMs : Z) (a b : list Effect) :
  absentKeys timeoutMs (a ++ b) = absentKeys timeoutMs a ++ absentKeys timeoutMs b.
Proof. unfold absentKeys. now rewrite hasChecks_app, filter_app, map_app. Qed.

Lemma presentKeys_app (timeoutMs : Z) (a b : list Effect) :
  presentKeys timeoutMs (a ++ b) = presentKeys timeoutMs a ++ presentKeys timeoutMs b.
Proof. unfold presentKeys. now rewrite hasChecks_app, filter_app, map_app. Qed.

Lemma render_and_add_calls (l : list Effect) :
  Forall (fun e => isRender e || isCacheAdd e = true) l ->
  hasChecks l = [] /\ generateCalls l = [].
Proof.
  induction 1 as [| e l He _ [IHh IHg]]; [split; reflexivity |].
  destruct e; simpl in He |- *; try discriminate; split; assumption.
Qed.

Section InvalidateFacts.

Context {C : Type} `{CacheHandler C}.
Variable imports : Imports.
Variable isrConfig : ISRHandlerConfig.t.
Variable res : Response.t.

Let timeoutMs : Z := cacheTimeoutMs imports isrConfig.

Lemma getVariantUrlsToInvalidate_itemsOf (urls : list string) :
  getVariantUrlsToInvalidate imports isrConfig urls =
  flat_map
    (itemsOf imports isrConfig
       (match ISRHandlerConfig.variants isrConfig with
        | Some vs => vs
        | None => []
        end))
    urls.
Proof.
  unfold getVariantUrlsToInvalidate.
  set (variants := match ISRHandlerConfig.variants isrConfig with
                   | Some vs => vs
                   | None => []
                   end).
  match goal with
  | |- fold_left ?F urls [] = _ =>
      assert (Haux : forall acc,
                 fold_left F urls acc =
                 acc ++ flat_map (itemsOf imports isrConfig variants) urls)
  end.
  { induction urls as [| url urls IH]; intros acc; simpl.
    - now rewrite app_nil_r.
    - rewrite (fold_left_push
                 (fun variant =>
                    VariantRebuildItem.mk url
                      (getCacheKey imports isrConfig url
                         (ISRHandlerConfig.allowedQueryParams isrConfig) (Some variant))
                      (match RenderVariant.simulateVariant variant with
                       | Some simulateVariant => simulateVariant
                       | None => fun req => req
                       end))).
      rewrite IH. unfold itemsOf at 2. rewrite <- !app_assoc. reflexivity. }
  apply Haux.
Qed.

Lemma generateWithCacheKey_quiet (req : Request.t) (cacheKey : string)
    (mode : Mode) (st : State C) :
  let r := generateWithCacheKey imports isrConfig req res cacheKey mode st in
  hasChecks (calls r) = [] /\ generateCalls (calls r) = [(cacheKey, mode)].
Proof.
  cbv zeta. destruct (holdUrl mode cacheKey (urlsOnHold st)) as [held |] eqn:Hhold.
  - rewrite (generateWithCacheKey_enter imports isrConfig req res cacheKey mode st Hhold).
    cbn [outcome after calls hasChecks generateCalls].
    destruct (renderAndCache_ends imports isrConfig req res cacheKey mode
                (setUrlsOnHold held st)) as [path [_ [_ Hall]]].
    destruct (render_and_add_calls Hall) as [Hh Hg]. now rewrite Hh, Hg.
  - rewrite (generateWithCacheKey_skip imports isrConfig req res cacheKey mode st Hhold).
    split; reflexivity.
Qed.

Lemma urlExists_run (cacheKey : string) (st : State C) :
  let answer := fst (has cacheKey (cache st)) in
  let r := urlExists imports isrConfig cacheKey st in
  outcome r = Fulfilled (answeredTrue timeoutMs answer) /\
  calls r = [CacheHas cacheKey answer].
Proof.
  cbv zeta. unfold urlExists. destruct (has cacheKey (cache st)) as [p c'].
  cbn [fst]. unfold bind, call, tryCatch. cbn [outcome after calls].
  pose proof (executeWithTimeout_outcome p (cacheTimeoutMs imports isrConfig)
                ("Timeout while checking cache for cacheKey: " ++ cacheKey)%string
                (setCache c' st)) as Ho.
  pose proof (executeWithTimeout_calls p (cacheTimeoutMs imports isrConfig)
                ("Timeout while checking cache for cacheKey: " ++ cacheKey)%string
                (setCache c' st)) as Hc.
  destruct (executeWithTimeout p _ _ _) as [o s c].
  cbn [outcome after calls] in *. subst c. subst timeoutMs.
  unfold timeoutPromise in Ho. simpl Promise_race in Ho.
  destruct p as [t [[|] | e] |]; cbn [answeredTrue];
    try destruct (t <=? timerDelay (cacheTimeoutMs imports isrConfig)); subst o;
    cbn; split; reflexivity.
Qed.

End InvalidateFacts.

Section InvalidateLoopFacts.

Context {C : Type} `{CacheHandler C}.
Variable imports : Imports.
Variable isrConfig : ISRHandlerConfig.t.
Variable res : Response.t.

Let timeoutMs : Z := cacheTimeoutMs imports isrConfig.

(** One turn of the loop: one existence check, then either the key is put
    under [notInCache] or one regeneration in generate mode is started. *)
Lemma invalidateItem_run (req : Request.t) (notInCache : list string)
    (urlWithErrors : UrlWithErrors.t)
    (item : VariantRebuildItem.t) (st : State C) :
  let r := invalidateItem imports isrConfig res
             (req, notInCache, urlWithErrors) item st in
  let cacheKey := VariantRebuildItem.cacheKey item in
  exists answer,
    hasChecks (calls r) = [(cacheKey, answer)] /\
    generateCalls (calls r) =
      (if answeredTrue timeoutMs answer then [(cacheKey, Generate)] else []) /\
    (outcome r = Pending \/
     exists req' urlWithErrors',
       outcome r =
       Fulfilled (req',
                  notInCache ++
                  (if answeredTrue timeoutMs answer then [] else [cacheKey]),
                  urlWithErrors')).
Proof.
  cbv zeta. exists (fst (has (VariantRebuildItem.cacheKey item) (cache st))).
  destruct (urlExists_run imports isrConfig (VariantRebuildItem.cacheKey item) st)
    as [Ho Hc].
  fold timeoutMs in Ho.
  set (answer := fst (has (VariantRebuildItem.cacheKey item) (cache st))) in *.
  unfold invalidateItem. cbv zeta. unfold bind, tryCatch.
  destruct (urlExists imports isrConfig (VariantRebuildItem.cacheKey item) st)
    as [o s c].
  cbn [outcome after calls] in *. subst o c.
  destruct (answeredTrue timeoutMs answer); cbn [negb].
  - set (simulated := VariantRebuildItem.reqSimulator item
                        (Request.setUrl (VariantRebuildItem.url item) req)).
    destruct (generateWithCacheKey_quiet imports isrConfig res simulated
                (VariantRebuildItem.cacheKey item) Generate s) as [Hh Hg].
    destruct (generateWithCacheKey imports isrConfig simulated res
                (VariantRebuildItem.cacheKey item) Generate s)
      as [[result | e |] s1 c1];
      cbn [outcome after calls] in *; cbn [outcome after calls ret];
      rewrite ?hasChecks_app, ?generateCalls_app, ?Hh, ?Hg, ?app_nil_r;
      cbn [hasChecks generateCalls app];
      (split; [reflexivity | split; [reflexivity |]]).
    + right. eexists. eexists. reflexivity.
    + right. eexists. eexists. reflexivity.
    + left. reflexivity.
  - cbn. rewrite ?app_nil_r. repeat split. right. eexists. eexists. reflexivity.
Qed.

(** The whole loop, when it comes to its end. *)
Lemma invalidate_loop (items : list VariantRebuildItem.t) :
  forall (req : Request.t) (notInCache : list string)
         (urlWithErrors : UrlWithErrors.t) (st : State C),
    let r := forOf items (invalidateItem imports isrConfig res)
               (req, notInCache, urlWithErrors) st in
    outcome r = Pending \/
    (map fst (hasChecks (calls r)) = map VariantRebuildItem.cacheKey items /\
     generateCalls (calls r) =
       map (fun k => (k, Generate)) (presentKeys timeoutMs (calls r)) /\
     exists req' urlWithErrors',
       outcome r =
       Fulfilled (req', notInCache ++ absentKeys timeoutMs (calls r), urlWithErrors')).
Proof.
  induction items as [| item items IH]; intros req notInCache urlWithErrors st; cbv zeta.
  - right. cbn. rewrite app_nil_r. repeat split. eexists. eexists. reflexivity.
  - cbn [forOf]. unfold bind.
    destruct (invalidateItem_run req notInCache urlWithErrors item st)
      as [answer [Hh [Hg Hout]]].
    destruct (invalidateItem imports isrConfig res (req, notInCache, urlWithErrors)
                item st) as [o s c].
    cbn [outcome after calls] in *.
    destruct Hout as [-> | [req' [uwe' ->]]]; [left; reflexivity |].
    specialize (IH req'
                   (notInCache ++
                    (if answeredTrue timeoutMs answer then []
                     else [VariantRebuildItem.cacheKey item]))
                   uwe' s).
    cbv zeta in IH. cbn [outcome after calls].
    destruct IH as [Hpending | [Hchecks [Hgen [req'' [uwe'' Hdone]]]]];
      [left; assumption |].
    assert (Hpresent : presentKeys timeoutMs c =
                       if answeredTrue timeoutMs answer
                       then [VariantRebuildItem.cacheKey item] else [])
      by (unfold presentKeys; rewrite Hh; cbn;
          destruct (answeredTrue timeoutMs answer); reflexivity).
    assert (Habsent : absentKeys timeoutMs c =
                      if answeredTrue timeoutMs answer
                      then [] else [VariantRebuildItem.cacheKey item])
      by (unfold absentKeys; rewrite Hh; cbn;
          destruct (answeredTrue timeoutMs answer); reflexivity).
    right. rewrite hasChecks_app, generateCalls_app, absentKeys_app, presentKeys_app.
    rewrite Hh, Hg, Hgen, Hdone, Hpresent, Habsent, map_app, map_app.
    repeat split.
    + cbn. now rewrite Hchecks.
    + destruct (answeredTrue timeoutMs answer); reflexivity.
    + exists req'', uwe''. now rewrite <- app_assoc.
Qed.

End InvalidateLoopFacts.

Lemma itemsOf_flat_map_length (imports : Imports) (isrConfig : ISRHandlerConfig.t)
    (variants : list RenderVariant.t) (urls : list string) :
  List.length (flat_map (itemsOf imports isrConfig variants) urls) =
  (List.length urls * (1 + List.length variants))%nat.
Proof.
  induction urls as [| url urls IH]; [reflexivity |].
  cbn [flat_map]. rewrite length_app, IH. unfold itemsOf.
  cbn [List.length]. rewrite length_map. lia.
Qed.

(** C8. [getVariantUrlsToInvalidate] lists, for each URL in turn, the default
    item followed by one item per configured variant in declaration order:
    [|urls| * (1 + |variants|)] items.  When [invalidate] is given the right
    token and a non-empty list and comes to its end, it has made exactly one
    existence check per item, in the order of the items; it has called
    [generateWithCacheKey] in generate mode once for each key whose check
    came back [true] in time; and the keys of the other checks are what the
    answer reports as [notInCache]. *)
Theorem variant_expansion :
  forall (C : Type) (handler : CacheHandler C) (imports : Imports)
         (isrConfig : ISRHandlerConfig.t) (req : Request.t) (res : Response.t)
         (st : State C) (urls : list string),
    let variants :=
      match ISRHandlerConfig.variants isrConfig with
      | Some vs => vs
      | None => []
      end in
    let items := getVariantUrlsToInvalidate imports isrConfig urls in
    let timeoutMs := cacheTimeoutMs imports isrConfig in
    let r := invalidate imports isrConfig req res st in
    items = flat_map (itemsOf imports isrConfig variants) urls
    /\ List.length items = (List.length urls * (1 + List.length variants))%nat
    /\ (Request.token req = ISRHandlerConfig.invalidateSecretToken isrConfig ->
        Request.urlsToInvalidate req = value urls ->
        urls <> [] ->
        outcome r <> Pending ->
        map fst (hasChecks (calls r)) = map VariantRebuildItem.cacheKey items /\
        generateCalls (calls r) =
          map (fun k => (k, Generate)) (presentKeys timeoutMs (calls r)) /\
        exists before urlWithErrors invalidatedUrls,
          calls r =
          before ++
          [ResJson (SuccessResponse (absentKeys timeoutMs (calls r))
                      urlWithErrors invalidatedUrls)]).
Proof.
  intros C handler imports isrConfig req res st urls variants items timeoutMs r.
  subst variants items timeoutMs r.
  split; [apply getVariantUrlsToInvalidate_itemsOf |].
  split; [rewrite getVariantUrlsToInvalidate_itemsOf; apply itemsOf_flat_map_length |].
  intros Htoken Hurls Hne. unfold invalidate.
  apply strictEqString_eq in Htoken. rewrite Htoken, Hurls. cbn [negb].
  destruct urls as [| u us]; [congruence |].
  unfold bind.
  pose proof (invalidate_loop imports isrConfig res
                (getVariantUrlsToInvalidate imports isrConfig (u :: us))
                req [] emptyObject st) as Hloop.
  cbv zeta in Hloop.
  destruct (forOf (getVariantUrlsToInvalidate imports isrConfig (u :: us))
              (invalidateItem imports isrConfig res) (req, [], emptyObject) st)
    as [o s c].
  cbn [outcome after calls] in *.
  destruct Hloop as [-> | [Hchecks [Hgen [req' [uwe' ->]]]]];
    [intros Hp; now contradiction Hp |].
  intros _. cbn [outcome after calls call app].
  rewrite hasChecks_app, generateCalls_app, presentKeys_app, absentKeys_app.
  cbn [hasChecks generateCalls]. unfold presentKeys at 2, absentKeys at 3.
  cbn [hasChecks filter map]. rewrite !app_nil_r.
  repeat split; try assumption.
  eexists. eexists. eexists. reflexivity.
Qed.

(** Two URLs against the two variants of the example site, with an empty
    cache: six checks, in order. *)
Lemma variant_expansion_witness :
  map fst
    (hasChecks
       (calls (invalidate Example.imports Example.config
                 (Example.invalidation (value "s3cret") (value ["/a"; "/b"]))
                 Example.response (Example.start [])))) =
  ["/a"; "/a<variantId:mobile>"; "/a<variantId:dark>";
   "/b"; "/b<variantId:mobile>"; "/b<variantId:dark>"].
Proof.
  pose proof (@variant_expansion _ Example.listCacheHandler Example.imports
                Example.config
                (Example.invalidation (value "s3cret") (value ["/a"; "/b"]))
                Example.response (Example.start []) ["/a"; "/b"]) as Hv.
  cbv zeta in Hv. destruct Hv as [_ [_ Hrun]].
  assert (Hne : ["/a"; "/b"] <> @nil string) by discriminate.
  assert (Hends : outcome (invalidate Example.imports Example.config
                             (Example.invalidation (value "s3cret") (value ["/a"; "/b"]))
                             Example.response (Example.start [])) <> Pending)
    by (vm_compute; discriminate).
  exact (proj1 (Hrun eq_refl eq_refl Hne Hends)).
Defined.

(** ** The model on the example site *)

(** A backend that never answers: the read times out and the request falls
    through to live rendering. *)
Example silent_cache_falls_through :
  let r := @serveFromCache _ Example.silentCacheHandler Example.imports
             Example.config (Example.request "/five") Example.response 10000
             "0.10" None (mkState [] tt Example.noTimers) in
  outcome r = Fulfilled tt /\ calls r = [CacheGet "/five"; Next].
Proof. cbv zeta. split; vm_compute; reflexivity. Qed.

(** A stale entry with synchronous revalidation: the page is rendered again,
    written back and the new markup is sent. *)
Example stale_entry_is_regenerated :
  calls (serveFromCache Example.imports Example.config (Example.request "/five")
           Example.response 5001 "0.10" None
           (Example.start [("/five", Example.entry "old" (value 5) 0)])) =
  [CacheGet "/five"; GenerateWithCacheKey "/five" Regenerate;
   EngineRender "http://localhost/five";
   CacheAdd "/five" (HtmlString "revalidate:5")
     (CacheISRConfig.mk (value 5) null None);
   ResSend (HtmlString "revalidate:5")].
Proof. vm_compute. reflexivity. Qed.

(** An entry from another build is not served. *)
Example other_build_falls_through :
  calls (serveFromCache Example.imports Example.config (Example.request "/five")
           Example.response 1000 "0.10" None
           (Example.start
              [("/five",
                CacheData.mk (HtmlString "old")
                  (CacheISRConfig.mk (value 5) (value "build-1") None) 0)])) =
  [CacheGet "/five"; Next].
Proof. vm_compute. reflexivity. Qed.

(** A page reporting revalidate 0 is stored with the configured default. *)
Example reported_zero_takes_default :
  filter isCacheAdd
    (calls (generateWithCacheKey Example.imports
              (Example.withDefaultRevalidate (value 7) Example.config)
              (Example.request "/zero") Example.response "/zero" Generate
              (Example.start []))) =
  [CacheAdd "/zero" (HtmlString "revalidate:0")
     (CacheISRConfig.mk (value 7) null None)].
Proof. vm_compute. reflexivity. Qed.

(** A render that never finishes is cut off at the rendering deadline, and
    the key is released. *)
Example slow_render_times_out :
  let r := generateWithCacheKey Example.imports Example.config
             (Example.request "/slow") Example.response "/slow" Regenerate
             (Example.start []) in
  outcome r = Rejected (mkError "Rendering timeout after 10000 ms") /\
  urlsOnHold (after r) = [].
Proof. cbv zeta. split; vm_compute; reflexivity. Qed.

(** A page with reported errors: returned with its errors, not written, and
    the key released. *)
Example error_page_is_not_cached :
  let r := generateWithCacheKey Example.imports Example.config
             (Example.request "/error") Example.response "/error" Regenerate
             (Example.start []) in
  outcome r =
    Fulfilled (Some (IGeneratedResult.mk (HtmlString "revalidate:5;error")
                       (Some ["500 Internal Server Error"]))) /\
  filter isCacheAdd (calls r) = [] /\
  urlsOnHold (after r) = [].
Proof. cbv zeta. repeat split; vm_compute; reflexivity. Qed.

(** Two overlapping regenerations of one key, then both returns: the second
    call is skipped, one run is in flight, and the registry ends empty. *)
Example interleaved_calls :
  Interleaving.run
    [Interleaving.Call "/five" Regenerate; Interleaving.Call "/five" Regenerate] =
  Interleaving.mkSystem ["/five"] [Interleaving.mkTask "/five" Regenerate] /\
  Interleaving.run
    [Interleaving.Call "/five" Regenerate; Interleaving.Call "/five" Regenerate;
     Interleaving.Return 0 Interleaving.Cached] =
  Interleaving.mkSystem [] [].
Proof. split; reflexivity. Qed.

(** * Further properties of the code *)

(** ** The monad *)

Lemma bind_calls_prefix {C A B} (m : Async C A) (k : A -> Async C B) (st : State C) :
  exists rest, calls (bind m k st) = calls (m st) ++ rest.
Proof.
  unfold bind. destruct (m st) as [[a | e |] s c]; cbn [outcome after calls].
  - eexists. reflexivity.
  - exists []. now rewrite app_nil_r.
  - exists []. now rewrite app_nil_r.
Qed.

Lemma tryCatch_calls_prefix {C A} (m : Async C A) (h : Error -> Async C A)
    (st : State C) :
  exists rest, calls (tryCatch m h st) = calls (m st) ++ rest.
Proof.
  unfold tryCatch. destruct (m st) as [[a | e |] s c]; cbn [outcome after calls].
  - exists []. now rewrite app_nil_r.
  - eexists. reflexivity.
  - exists []. now rewrite app_nil_r.
Qed.

Lemma sentBodies_app (a b : list Effect) :
  sentBodies (a ++ b) = sentBodies a ++ sentBodies b.
Proof.
  induction a as [| e a IH]; simpl; [reflexivity |].
  destruct e; simpl; now rewrite ?IH.
Qed.

Lemma nextCalls_app (a b : list Effect) :
  nextCalls (a ++ b) = (nextCalls a + nextCalls b)%nat.
Proof.
  induction a as [| e a IH]; simpl; [reflexivity |].
  destruct e; simpl; now rewrite ?IH.
Qed.

Lemma getCalls_app (a b : list Effect) :
  getCalls (a ++ b) = getCalls a ++ getCalls b.
Proof.
  induction a as [| e a IH]; simpl; [reflexivity |].
  destruct e; simpl; now rewrite ?IH.
Qed.

(** Calls of the renderer and of [cache.add] are neither answers nor reads. *)
Lemma render_and_add_silent (l : list Effect) :
  Forall (fun e => isRender e || isCacheAdd e = true) l ->
  sentBodies l = [] /\ nextCalls l = O /\ getCalls l = [].
Proof.
  induction 1 as [| e l He _ [IHs [IHn IHg]]]; [repeat split |].
  destruct e; simpl in He |- *; try discriminate; repeat split; assumption.
Qed.

(** ** The regeneration coordinator, beyond the caching decision *)

Section CoordinatorMore.

Context {C : Type} `{CacheHandler C}.
Variable imports : Imports.
Variable isrConfig : ISRHandlerConfig.t.
Variables (req : Request.t) (res : Response.t) (cacheKey : string) (mode : Mode).

(** The first call of a run that is not skipped is the renderer's. *)
Lemma renderAndCache_renders (st : State C) :
  exists e rest,
    calls (renderAndCache imports isrConfig req res cacheKey mode st) = e :: rest /\
    isRender e = true.
Proof.
  unfold renderAndCache.
  match goal with
  | |- context [tryCatch ?m ?h st] =>
      destruct (tryCatch_calls_prefix m h st) as [rest2 Hc2]; rewrite Hc2
  end.
  match goal with
  | |- context [bind ?m ?k st] =>
      destruct (bind_calls_prefix m k st) as [rest1 Hc1]; rewrite Hc1
  end.
  destruct (renderUrl_calls imports isrConfig req res (Request.url req) st)
    as [e [He Hr]].
  rewrite He. exists e. eexists. split; [reflexivity | assumption].
Qed.

Lemma generateWithCacheKey_silent (st : State C) :
  let r := generateWithCacheKey imports isrConfig req res cacheKey mode st in
  sentBodies (calls r) = [] /\ nextCalls (calls r) = O /\ getCalls (calls r) = [].
Proof.
  cbv zeta. destruct (holdUrl mode cacheKey (urlsOnHold st)) as [held |] eqn:Hhold.
  - rewrite (generateWithCacheKey_enter imports isrConfig req res cacheKey mode st Hhold).
    cbn [outcome after calls sentBodies nextCalls getCalls].
    destruct (renderAndCache_ends imports isrConfig req res cacheKey mode
                (setUrlsOnHold held st)) as [path [_ [_ Hall]]].
    now apply render_and_add_silent.
  - rewrite (generateWithCacheKey_skip imports isrConfig req res cacheKey mode st Hhold).
    repeat split.
Qed.

End CoordinatorMore.

Lemma setUrlsOnHold_same {C} (st : State C) : setUrlsOnHold (urlsOnHold st) st = st.
Proof. now destruct st. Qed.

(** In generate mode the registry is not touched, and the first thing a call
    does is to invoke the renderer. *)
Lemma generate_mode_registry {C} `{CacheHandler C} (imports : Imports)
    (isrConfig : ISRHandlerConfig.t) (req : Request.t) (res : Response.t)
    (cacheKey : string) (st : State C) :
  urlsOnHold (after (generateWithCacheKey imports isrConfig req res cacheKey
                       Generate st)) =
  urlsOnHold st.
Proof.
  assert (Hhold : holdUrl Generate cacheKey (urlsOnHold st) = Some (urlsOnHold st))
    by reflexivity.
  rewrite (generateWithCacheKey_enter imports isrConfig req res cacheKey Generate st Hhold).
  rewrite setUrlsOnHold_same. cbn [outcome after calls].
  destruct (renderAndCache_ends imports isrConfig req res cacheKey Generate st)
    as [path [Hends [Hreg _]]].
  destruct path as [p |].
  - rewrite (Hreg p eq_refl). now destruct p.
  - now inversion Hends.
Qed.

Lemma generate_mode_renders {C} `{CacheHandler C} (imports : Imports)
    (isrConfig : ISRHandlerConfig.t) (req : Request.t) (res : Response.t)
    (cacheKey : string) (st : State C) :
  exists e rest,
    calls (generateWithCacheKey imports isrConfig req res cacheKey Generate st) =
      GenerateWithCacheKey cacheKey Generate :: e :: rest /\
    isRender e = true.
Proof.
  assert (Hhold : holdUrl Generate cacheKey (urlsOnHold st) = Some (urlsOnHold st))
    by reflexivity.
  rewrite (generateWithCacheKey_enter imports isrConfig req res cacheKey Generate st Hhold).
  rewrite setUrlsOnHold_same. cbn [outcome after calls].
  destruct (renderAndCache_renders imports isrConfig req res cacheKey Generate st)
    as [e [rest [Hc Hr]]].
  exists e, rest. now rewrite Hc.
Qed.

(** X1. In generate mode [generateWithCacheKey] never deduplicates: whatever
    [urlsOnHold] contains (the key itself included), the renderer is invoked,
    and the registry is left exactly as it was, on every way out. *)
Theorem generate_mode_never_deduplicates :
  forall (C : Type) (handler : CacheHandler C) (imports : Imports)
         (isrConfig : ISRHandlerConfig.t) (req : Request.t) (res : Response.t)
         (cacheKey : string) (st : State C),
    let r := generateWithCacheKey imports isrConfig req res cacheKey Generate st in
    urlsOnHold (after r) = urlsOnHold st /\
    exists e rest,
      calls r = GenerateWithCacheKey cacheKey Generate :: e :: rest /\
      isRender e = true.
Proof.
  intros C handler imports isrConfig req res cacheKey st r. subst r. split.
  - apply generate_mode_registry.
  - destruct (generate_mode_renders imports isrConfig req res cacheKey st)
      as [e [rest [Hc Hr]]].
    exists e, rest. split; assumption.
Qed.

Lemma release_after_hold (k : string) (l : list string) :
  ~ In k l -> releaseUrl Regenerate k (l ++ [k]) = l.
Proof.
  intros Hnot. simpl. rewrite filter_app. simpl. rewrite String.eqb_refl. simpl.
  rewrite app_nil_r. induction l as [| x l IH]; [reflexivity |].
  simpl. destruct (String.eqb_spec x k) as [-> | Hneq].
  - exfalso. apply Hnot. now left.
  - simpl. f_equal. apply IH. intros Hin. apply Hnot. now right.
Qed.

(** X2. In regenerate mode, a call that ends rejected, or returns the page
    together with its reported errors, or has written to the cache, has
    released its key: [urlsOnHold] is back to what it was before the call,
    and the key is not in it. *)
Theorem regenerate_releases_key :
  forall (C : Type) (handler : CacheHandler C) (imports : Imports)
         (isrConfig : ISRHandlerConfig.t) (req : Request.t) (res : Response.t)
         (cacheKey : string) (st : State C),
    let r := generateWithCacheKey imports isrConfig req res cacheKey Regenerate st in
    ((exists e, outcome r = Rejected e) \/
     (exists html errors,
        outcome r = Fulfilled (Some (IGeneratedResult.mk html (Some errors)))) \/
     filter isCacheAdd (calls r) <> []) ->
    urlsOnHold (after r) = urlsOnHold st /\
    ~ In cacheKey (urlsOnHold (after r)).
Proof.
  intros C handler imports isrConfig req res cacheKey st r. subst r.
  destruct (holdUrl Regenerate cacheKey (urlsOnHold st)) as [held |] eqn:Hhold.
  - rewrite (generateWithCacheKey_enter imports isrConfig req res cacheKey
               Regenerate st Hhold).
    cbn [outcome after calls]. cbn [filter isCacheAdd].
    assert (Hreleased : releaseUrl Regenerate cacheKey held = urlsOnHold st).
    { cbn in Hhold. destruct (includes (urlsOnHold st) cacheKey) eqn:Hinc;
        [discriminate |].
      injection Hhold as <-. apply release_after_hold.
      now apply includes_not_In. }
    destruct (renderAndCache_ends imports isrConfig req res cacheKey Regenerate
                (setUrlsOnHold held st)) as [path [Hends [Hreg _]]].
    cbn [urlsOnHold setUrlsOnHold] in Hreg.
    intros Hcase.
    inversion Hends as [Ho Hu Hc | e Ho Hc | html finalHtml Hr Hs Ho Hc
                        | html finalHtml Hr Hs Hn Ho Hc
                        | html finalHtml Hr Hs Hn Ho Hc]; subst path.
    + exfalso. destruct Hcase as [[e He] | [[h [es He]] | Hadd]]; congruence.
    + rewrite (Hreg _ eq_refl). cbn [Interleaving.exitRegistry].
      split; [exact Hreleased | now apply releaseUrl_not_In].
    + rewrite (Hreg _ eq_refl). cbn [Interleaving.exitRegistry].
      split; [exact Hreleased | now apply releaseUrl_not_In].
    + exfalso. destruct Hcase as [[e He] | [[h [es He]] | Hadd]]; congruence.
    + rewrite (Hreg _ eq_refl). cbn [Interleaving.exitRegistry].
      split; [exact Hreleased | now apply releaseUrl_not_In].
  - rewrite (generateWithCacheKey_skip imports isrConfig req res cacheKey
               Regenerate st Hhold).
    cbn. intros [[e He] | [[h [es He]] | Hadd]]; congruence.
Qed.

(** The render of ["/broken"] fails: the key is released. *)
Lemma regenerate_releases_key_witness :
  ~ In "/broken"
      (urlsOnHold
         (after (generateWithCacheKey Example.imports Example.config
                   (Example.request "/broken") Example.response "/broken"
                   Regenerate (Example.start [])))).
Proof.
  apply (@regenerate_releases_key _ Example.listCacheHandler Example.imports
           Example.config (Example.request "/broken") Example.response
           "/broken" (Example.start [])).
  left. eexists. reflexivity.
Defined.

(** X3. A cache write that fails, or never comes back, does not fail the
    caller: whatever the backend's [add] does, [addToCache] calls it exactly
    once, ends fulfilled (never rejected, never pending) and leaves
    [urlsOnHold] alone. *)
Theorem addToCache_swallows_failures :
  forall (C : Type) (handler : CacheHandler C) (imports : Imports)
         (isrConfig : ISRHandlerConfig.t) (cacheKey : string) (finalHtml : Html)
         (revalidate : Nullable Z) (st : State C),
    let r := addToCache imports isrConfig cacheKey finalHtml revalidate st in
    outcome r = Fulfilled tt /\
    calls r =
      [CacheAdd cacheKey finalHtml
         (CacheISRConfig.mk revalidate (ISRHandlerConfig.buildId isrConfig) None)] /\
    urlsOnHold (after r) = urlsOnHold st /\
    cache (after r) = snd (add cacheKey finalHtml
                             (CacheISRConfig.mk revalidate
                                (ISRHandlerConfig.buildId isrConfig) None)
                             (cache st)).
Proof.
  intros C handler imports isrConfig cacheKey finalHtml revalidate st r. subst r.
  split; [apply addToCache_outcome |].
  split; [apply addToCache_calls |].
  split; [apply addToCache_urlsOnHold |].
  unfold addToCache, tryCatch.
  destruct (add cacheKey finalHtml _ (cache st)) as [p c']. cbn [snd].
  unfold bind, call. cbn [outcome after calls].
  pose proof (executeWithTimeout_cache p (cacheTimeoutMs imports isrConfig)
    ("Timeout while adding to cache for cacheKey: " ++ cacheKey)%string
    (setCache c' st)) as Hca.
  destruct (executeWithTimeout p _ _ _) as [[[] | e |] s c]; cbn in *; exact Hca.
Qed.

(** ** The renderer wrapper *)

(** X4. With a rendering engine configured, [renderUrl] asks the engine once
    for [protocol://host + url] and is never left pending.  The deadline is
    the delay the timer waits for [timeoutMs], [timeoutMs] being
    [renderingTimeoutMs] or else [DEFAULT_RENDERING_TIMEOUT]: [timeoutMs]
    itself from 1 to [2^31 - 1] milliseconds, one millisecond otherwise.  An
    engine that settles by the deadline decides the outcome (its markup, or
    its own error), and one that settles later or never gives the rejection
    [Rendering timeout after <timeoutMs> ms]. *)
Theorem renderUrl_engine_deadline :
  forall (C : Type) (handler : CacheHandler C) (imports : Imports)
         (isrConfig : ISRHandlerConfig.t) (req : Request.t) (res : Response.t)
         (url : string) (st : State C) (engine : string -> Promise string),
    let timeoutMs :=
      match ISRHandlerConfig.renderingTimeoutMs isrConfig with
      | Some ms => ms
      | None => DEFAULT_RENDERING_TIMEOUT imports
      end in
    let target := (Request.protocol req ++ "://" ++ Request.host req ++ url)%string in
    let r := renderUrl imports isrConfig req res url st in
    ISRHandlerConfig.commonEngine isrConfig = Some engine ->
    calls r = [EngineRender target] /\
    outcome r <> Pending /\
    (forall t html, engine target = SettlesAt t (Resolve html) ->
                    t <= timerDelay timeoutMs ->
                    outcome r = Fulfilled html) /\
    (forall t e, engine target = SettlesAt t (Reject e) ->
                 t <= timerDelay timeoutMs ->
                 outcome r = Rejected e) /\
    ((engine target = NeverSettles \/
      exists t s, engine target = SettlesAt t s /\ timerDelay timeoutMs < t) ->
     outcome r =
     Rejected (mkError ("Rendering timeout after " ++ numberToString timeoutMs ++
                        " ms")%string)) /\
    (1 <= timeoutMs <= TIMEOUT_MAX -> timerDelay timeoutMs = timeoutMs) /\
    (timeoutMs < 1 \/ TIMEOUT_MAX < timeoutMs -> timerDelay timeoutMs = 1).
Proof.
  intros C handler imports isrConfig req res url st engine timeoutMs target r Hengine.
  subst r. unfold renderUrl. rewrite Hengine. fold timeoutMs.
  unfold bind, call. cbn [outcome after calls Request.setUrl Request.protocol
                          Request.host Request.url]. fold target.
  rewrite executeWithTimeout_calls.
  pose proof (executeWithTimeout_not_pending (engine target) timeoutMs
                ("Rendering timeout after " ++ numberToString timeoutMs ++ " ms")%string
                st) as Hnp.
  pose proof (executeWithTimeout_outcome (engine target) timeoutMs
                ("Rendering timeout after " ++ numberToString timeoutMs ++ " ms")%string
                st) as Ho.
  unfold timeoutPromise in Ho. cbn [Promise_race] in Ho.
  destruct (executeWithTimeout (engine target) timeoutMs _ st) as [o s c].
  cbn [outcome] in *.
  split; [reflexivity |]. split; [destruct o; [discriminate | discriminate | tauto] |].
  split; [| split; [| split; [| split]]].
  - intros t html Het Hle. rewrite Het in Ho.
    destruct (Z.leb_spec t (timerDelay timeoutMs)); [| lia].
    destruct o; congruence.
  - intros t e Het Hle. rewrite Het in Ho.
    destruct (Z.leb_spec t (timerDelay timeoutMs)); [| lia].
    destruct o; congruence.
  - intros [Hnever | [t [s' [Het Hlt]]]].
    + rewrite Hnever in Ho. destruct o; congruence.
    + rewrite Het in Ho. destruct (Z.leb_spec t (timerDelay timeoutMs)); [lia |].
      destruct o; congruence.
  - apply timerDelay_in_range.
  - apply timerDelay_out_of_range.
Qed.

(** The engine of the example site never finishes ["/slow"]. *)
Lemma renderUrl_engine_deadline_witness :
  outcome (renderUrl Example.imports Example.config (Example.request "/slow")
             Example.response "/slow" (Example.start [])) =
  Rejected (mkError "Rendering timeout after 10000 ms").
Proof.
  pose proof (@renderUrl_engine_deadline _ Example.listCacheHandler Example.imports
                Example.config (Example.request "/slow") Example.response "/slow"
                (Example.start []) Example.engine eq_refl) as Hr.
  cbv zeta in Hr. destruct Hr as [_ [_ [_ [_ [Hlate _]]]]].
  apply Hlate. left. reflexivity.
Defined.

(** X5. The two revisions of [renderUrl] against each other, when
    [DEFAULT_RENDERING_TIMEOUT] is the 10000 of the earlier revision.  They
    make the same call and leave the same state (timer table included), and
    they end alike unless the engine is due exactly when the timer is.  There
    they part: the earlier revision set its timer before calling the engine
    and is rejected with the timeout, the later one called the engine first
    and ends as the engine does. *)
Theorem renderUrl_revisions_agree_off_the_tie :
  forall (C : Type) (handler : CacheHandler C) (imports : Imports)
         (isrConfig : ISRHandlerConfig.t) (req : Request.t) (res : Response.t)
         (url : string) (st : State C),
    let timeoutMs :=
      match ISRHandlerConfig.renderingTimeoutMs isrConfig with
      | Some ms => ms
      | None => 10000
      end in
    let target := (Request.protocol req ++ "://" ++ Request.host req ++ url)%string in
    let later := renderUrl imports isrConfig req res url st in
    let earlier := renderUrlInline isrConfig req res url st in
    DEFAULT_RENDERING_TIMEOUT imports = 10000 ->
    calls later = calls earlier /\
    after later = after earlier /\
    ((forall engine s,
         ISRHandlerConfig.commonEngine isrConfig = Some engine ->
         engine target <> SettlesAt (timerDelay timeoutMs) s) ->
     outcome later = outcome earlier) /\
    (forall engine s,
        ISRHandlerConfig.commonEngine isrConfig = Some engine ->
        engine target = SettlesAt (timerDelay timeoutMs) s ->
        outcome earlier =
          Rejected (mkError ("Rendering timeout after " ++
                             numberToString timeoutMs ++ " ms")%string) /\
        outcome later =
          match s with
          | Resolve html => Fulfilled html
          | Reject e => Rejected e
          end).
Proof.
  intros C handler imports isrConfig req res url st timeoutMs target later earlier
         Hdefault.
  subst later earlier. unfold renderUrl, renderUrlInline. rewrite Hdefault.
  fold timeoutMs.
  destruct (ISRHandlerConfig.commonEngine isrConfig) as [engine |].
  - unfold bind, call, executeWithTimeout, tryFinally, timeoutPromise.
    cbn [setTimeout outcome after calls Promise_race Request.setUrl
         Request.protocol Request.host Request.url]. fold target.
    destruct (engine target) as [t s0 |] eqn:Het.
    + destruct (Z.lt_trichotomy t (timerDelay timeoutMs)) as [Hlt | [Heq | Hgt]].
      * replace (t <=? timerDelay timeoutMs) with true by (symmetry; apply Z.leb_le; lia).
        replace (timerDelay timeoutMs <=? t) with false
          by (symmetry; apply Z.leb_gt; lia).
        destruct s0 as [html | e]; cbn;
          (split; [reflexivity |]; split; [reflexivity |]; split; [reflexivity |]);
          intros engine' s Hsome Het'; injection Hsome as <-; rewrite Het in Het';
          injection Het' as Ht _; lia.
      * subst t.
        replace (timerDelay timeoutMs <=? timerDelay timeoutMs) with true
          by (symmetry; apply Z.leb_le; lia).
        destruct s0 as [html | e]; cbn;
          (split; [reflexivity |]; split; [reflexivity |]; split;
           [intros Hoff; exfalso; exact (Hoff engine _ eq_refl Het) |]);
          intros engine' s Hsome Het'; injection Hsome as <-; rewrite Het in Het';
          injection Het' as <-; split; reflexivity.
      * replace (t <=? timerDelay timeoutMs) with false
          by (symmetry; apply Z.leb_gt; lia).
        replace (timerDelay timeoutMs <=? t) with true by (symmetry; apply Z.leb_le; lia).
        destruct s0 as [html | e]; cbn;
          (split; [reflexivity |]; split; [reflexivity |]; split; [reflexivity |]);
          intros engine' s Hsome Het'; injection Hsome as <-; rewrite Het in Het';
          injection Het' as Ht _; lia.
    + cbn. split; [reflexivity |]. split; [reflexivity |]. split; [reflexivity |].
      intros engine' s Hsome Het'. injection Hsome as <-. congruence.
  - split; [reflexivity |]. split; [reflexivity |]. split; [reflexivity |].
    intros engine s Hsome. discriminate.
Qed.

(** On the example site ["/five"] is rendered well before the deadline. *)
Lemma renderUrl_revisions_agree_off_the_tie_witness :
  outcome (renderUrl Example.imports Example.config (Example.request "/five")
             Example.response "/five" (Example.start [])) =
  outcome (renderUrlInline Example.config (Example.request "/five")
             Example.response "/five" (Example.start [])).
Proof.
  pose proof (@renderUrl_revisions_agree_off_the_tie _ Example.listCacheHandler
                Example.imports Example.config (Example.request "/five")
                Example.response "/five" (Example.start []) eq_refl) as Hr.
  cbv zeta in Hr. destruct Hr as [_ [_ [Hoff _]]].
  apply Hoff. intros engine s Heq. injection Heq as <-. discriminate.
Defined.

(** ** Serving, beyond the freshness policy *)

Section ServeMore.

Context {C : Type} `{CacheHandler C}.
Variable imports : Imports.
Variable isrConfig : ISRHandlerConfig.t.
Variables (req : Request.t) (res : Response.t).

(** The read always comes back: with the entry, or with [next()] called. *)
Lemma readCache_run (cacheKey : string) (st : State C) :
  let r := readCache imports isrConfig cacheKey st in
  urlsOnHold (after r) = urlsOnHold st /\
  ((exists cacheData t,
       fst (get cacheKey (cache st)) = SettlesAt t (Resolve cacheData) /\
       t <= timerDelay (cacheTimeoutMs imports isrConfig) /\
       outcome r = Fulfilled (Some cacheData) /\ calls r = [CacheGet cacheKey]) \/
   ((forall cacheData t,
       fst (get cacheKey (cache st)) = SettlesAt t (Resolve cacheData) ->
       timerDelay (cacheTimeoutMs imports isrConfig) < t) /\
    outcome r = Fulfilled None /\ calls r = [CacheGet cacheKey; Next])).
Proof.
  cbv zeta. unfold readCache, tryCatch.
  destruct (get cacheKey (cache st)) as [p c']. cbn [fst].
  unfold bind, call. cbn [outcome after calls].
  pose proof (executeWithTimeout_outcome p (cacheTimeoutMs imports isrConfig)
                ("Failed to get cache data for cacheKey: " ++ cacheKey)%string
                (setCache c' st)) as Ho.
  pose proof (executeWithTimeout_calls p (cacheTimeoutMs imports isrConfig)
                ("Failed to get cache data for cacheKey: " ++ cacheKey)%string
                (setCache c' st)) as Hc.
  pose proof (executeWithTimeout_urlsOnHold p (cacheTimeoutMs imports isrConfig)
                ("Failed to get cache data for cacheKey: " ++ cacheKey)%string
                (setCache c' st)) as Hu.
  unfold timeoutPromise in Ho. simpl Promise_race in Ho.
  destruct (executeWithTimeout p _ _ _) as [o s c].
  cbn [outcome after calls] in *. subst c.
  destruct p as [t [d | e] |].
  - destruct (Z.leb_spec t (timerDelay (cacheTimeoutMs imports isrConfig))); subst o; cbn.
    + split; [exact Hu |]. left. exists d, t. repeat split. assumption.
    + split; [exact Hu |]. right. repeat split.
      intros d' t' [= -> _]. assumption.
  - assert (Ho' : o = Rejected e \/
                  o = Rejected (mkError ("Failed to get cache data for cacheKey: "
                                         ++ cacheKey)%string))
      by (destruct (t <=? timerDelay (cacheTimeoutMs imports isrConfig)); auto).
    destruct Ho' as [-> | ->]; cbn; (split; [exact Hu |]); right;
      repeat split; discriminate.
  - subst o. cbn. split; [exact Hu |]. right. repeat split; discriminate.
Qed.

Lemma sendCached_sends (totalTime : string) (config : option ServeFromCacheConfig.t)
    (finalHtml : Html) (st : State C) :
  let r := sendCached isrConfig req totalTime config finalHtml st in
  outcome r = Fulfilled tt /\
  (exists body, sentBodies (calls r) = [body]) /\
  nextCalls (calls r) = O /\ getCalls (calls r) = [] /\
  generateCalls (calls r) = [].
Proof.
  cbv zeta. unfold sendCached.
  destruct (ISRHandlerConfig.compressHtml isrConfig); [cbn; eauto 10 |].
  destruct config as [[[f |]] |]; cbn; eauto 10.
Qed.

(** The freshness check never throws, answers nothing itself and calls
    [next()] at most once. *)
Lemma revalidateIfExpired_run (cacheKey : string) (cacheConfig : CacheISRConfig.t)
    (createdAt now : Z) (finalHtml : Html) (st : State C) :
  let r := revalidateIfExpired imports isrConfig req res cacheKey cacheConfig
             createdAt now finalHtml st in
  (forall e, outcome r <> Rejected e) /\
  sentBodies (calls r) = [] /\ getCalls (calls r) = [] /\
  (nextCalls (calls r) <= 1)%nat.
Proof.
  cbv zeta. unfold revalidateIfExpired.
  destruct (CacheISRConfig.revalidate cacheConfig) as [| | n];
    try (cbn; repeat split; try discriminate; lia).
  destruct (negb (n =? 0) && (0 <? n));
    [| cbn; repeat split; try discriminate; lia].
  destruct (expired now createdAt n);
    [| cbn; repeat split; try discriminate; lia].
  destruct (generateWithCacheKey_silent imports isrConfig req res cacheKey
              Regenerate st) as [Hs [Hn Hg]].
  unfold tryCatch, bind, detach. cbv zeta.
  destruct (ISRHandlerConfig.backgroundRevalidation isrConfig); cbv beta;
    destruct (generateWithCacheKey imports isrConfig req res cacheKey Regenerate st)
      as [[result | e |] s c]; cbn [outcome after calls] in *;
    cbn [outcome after calls ret call];
    rewrite ?sentBodies_app, ?getCalls_app, ?nextCalls_app, ?Hs, ?Hn, ?Hg;
    cbn; repeat split; try discriminate; lia.
Qed.

(** The one read of [serveFromCache] is under the key of the request. *)
Lemma serveFromCache_reads_once (now : Z) (totalTime : string)
    (config : option ServeFromCacheConfig.t) (st : State C) :
  getCalls (calls (serveFromCache imports isrConfig req res now totalTime config st)) =
  [getCacheKey imports isrConfig (Request.url req)
     (ISRHandlerConfig.allowedQueryParams isrConfig)
     (getVariant imports req (ISRHandlerConfig.variants isrConfig))].
Proof.
  unfold serveFromCache.
  set (cacheKey := getCacheKey imports isrConfig (Request.url req)
                     (ISRHandlerConfig.allowedQueryParams isrConfig)
                     (getVariant imports req (ISRHandlerConfig.variants isrConfig))).
  unfold tryCatch, bind.
  destruct (readCache_run cacheKey st) as [_ Hread].
  destruct (readCache imports isrConfig cacheKey st) as [o s c].
  cbn [outcome after calls] in *.
  destruct Hread as [[d [t [_ [_ [-> ->]]]]] | [_ [-> ->]]]; cbn [outcome after calls];
    [| reflexivity].
  destruct (fromOtherBuild isrConfig (CacheData.options d)); [reflexivity |].
  destruct (revalidateIfExpired_run cacheKey (CacheData.options d)
              (CacheData.createdAt d) now
              (cachedHtml imports isrConfig (CacheData.html d)) s)
    as [Hnr [_ [Hg _]]].
  destruct (revalidateIfExpired imports isrConfig req res cacheKey
              (CacheData.options d) (CacheData.createdAt d) now
              (cachedHtml imports isrConfig (CacheData.html d)) s)
    as [[finalHtml | e |] s1 c1]; cbn [outcome after calls] in *.
  - destruct (sendCached_sends totalTime config finalHtml s1) as [So [_ [_ [Sg _]]]].
    destruct (sendCached isrConfig req totalTime config finalHtml s1)
      as [o2 s2 c2]; cbn [outcome after calls] in *. subst o2.
    cbn [outcome after calls app getCalls].
    now rewrite !getCalls_app, Hg, Sg.
  - now contradiction (Hnr e).
  - cbn [outcome after calls app getCalls]. now rewrite Hg.
Qed.

(** X6. [serveFromCache] never rejects; it reads the cache exactly once, under
    the key the generator gives for the request; it calls [res.send] at most
    once and [next()] at most once; and whenever it comes to its end, it has
    called one of the two, so no request is left without an answer. *)
Theorem serveFromCache_always_answers :
  forall (now : Z) (totalTime : string) (config : option ServeFromCacheConfig.t)
         (st : State C),
    let cacheKey :=
      getCacheKey imports isrConfig (Request.url req)
        (ISRHandlerConfig.allowedQueryParams isrConfig)
        (getVariant imports req (ISRHandlerConfig.variants isrConfig)) in
    let r := serveFromCache imports isrConfig req res now totalTime config st in
    (forall e, outcome r <> Rejected e) /\
    getCalls (calls r) = [cacheKey] /\
    (List.length (sentBodies (calls r)) <= 1)%nat /\
    (nextCalls (calls r) <= 1)%nat /\
    (outcome r = Fulfilled tt ->
     (1 <= nextCalls (calls r) + List.length (sentBodies (calls r)))%nat).
Proof.
  intros now totalTime config st cacheKey r. subst r.
  unfold serveFromCache. fold cacheKey. unfold tryCatch, bind.
  destruct (readCache_run cacheKey st) as [_ Hread].
  destruct (readCache imports isrConfig cacheKey st) as [o s c].
  cbn [outcome after calls] in *.
  destruct Hread as [[d [t [_ [_ [-> ->]]]]] | [_ [-> ->]]]; cbn [outcome after calls].
  - destruct (fromOtherBuild isrConfig (CacheData.options d)).
    + cbn. repeat split; try discriminate; lia.
    + destruct (revalidateIfExpired_run cacheKey (CacheData.options d)
                  (CacheData.createdAt d) now
                  (cachedHtml imports isrConfig (CacheData.html d)) s)
        as [Hnr [Hs [Hg Hn]]].
      destruct (revalidateIfExpired imports isrConfig req res cacheKey
                  (CacheData.options d) (CacheData.createdAt d) now
                  (cachedHtml imports isrConfig (CacheData.html d)) s)
        as [[finalHtml | e |] s1 c1]; cbn [outcome after calls] in *.
      * destruct (sendCached_sends totalTime config finalHtml s1)
          as [So [[body Sb] [Sn [Sg _]]]].
        destruct (sendCached isrConfig req totalTime config finalHtml s1)
          as [o2 s2 c2]; cbn [outcome after calls] in *. subst o2.
        cbn [outcome after calls app getCalls sentBodies nextCalls].
        rewrite !sentBodies_app, !getCalls_app, !nextCalls_app, Hs, Hg, Sb, Sn, Sg.
        cbn. repeat split; try discriminate; lia.
      * now contradiction (Hnr e).
      * cbn [outcome after calls app getCalls sentBodies nextCalls].
        rewrite Hs, Hg. cbn. repeat split; try discriminate; lia.
  - cbn. repeat split; try discriminate; lia.
Qed.

(** X7. A read that fails, or does not come back with an entry within the
    cache deadline, is a miss: [serveFromCache] calls [next()] and nothing
    else, sending nothing and starting no regeneration. *)
Theorem serveFromCache_miss :
  forall (now : Z) (totalTime : string) (config : option ServeFromCacheConfig.t)
         (st : State C),
    let cacheKey :=
      getCacheKey imports isrConfig (Request.url req)
        (ISRHandlerConfig.allowedQueryParams isrConfig)
        (getVariant imports req (ISRHandlerConfig.variants isrConfig)) in
    let r := serveFromCache imports isrConfig req res now totalTime config st in
    (forall cacheData t,
        fst (get cacheKey (cache st)) = SettlesAt t (Resolve cacheData) ->
        timerDelay (cacheTimeoutMs imports isrConfig) < t) ->
    outcome r = Fulfilled tt /\ calls r = [CacheGet cacheKey; Next] /\
    urlsOnHold (after r) = urlsOnHold st.
Proof.
  intros now totalTime config st cacheKey r Hmiss. subst r.
  unfold serveFromCache. fold cacheKey. unfold tryCatch, bind.
  destruct (readCache_run cacheKey st) as [Hu Hread].
  destruct (readCache imports isrConfig cacheKey st) as [o s c].
  cbn [outcome after calls] in *.
  destruct Hread as [[d [t [Hget [Hle _]]]] | [_ [-> ->]]].
  - specialize (Hmiss d t Hget). lia.
  - cbn. repeat split. exact Hu.
Qed.

End ServeMore.

(** The silent backend never answers the read. *)
Lemma serveFromCache_miss_witness :
  calls (@serveFromCache _ Example.silentCacheHandler Example.imports
           Example.config (Example.request "/five") Example.response 10000
           "0.10" None (mkState [] tt Example.noTimers)) =
  [CacheGet "/five"; Next].
Proof.
  pose proof (@serveFromCache_miss _ Example.silentCacheHandler Example.imports
                Example.config (Example.request "/five") Example.response
                10000 "0.10" None (mkState [] tt Example.noTimers)) as Hm.
  cbv zeta in Hm.
  assert (Hnever : forall (cacheData : CacheData.t) (t : Z),
             fst (@get _ Example.silentCacheHandler "/five" tt) =
             SettlesAt t (Resolve cacheData) ->
             timerDelay (cacheTimeoutMs Example.imports Example.config) < t)
    by (intros d t Habs; discriminate Habs).
  exact (proj1 (proj2 (Hm Hnever))).
Defined.

Section UsableOrNot.

Context {C : Type} `{CacheHandler C}.
Variable imports : Imports.
Variable isrConfig : ISRHandlerConfig.t.
Variables (req : Request.t) (res : Response.t).
Variables (now : Z) (totalTime : string) (config : option ServeFromCacheConfig.t).
Variable st : State C.
Variables (t : Z) (cacheData : CacheData.t) (cache' : C).

Let cacheKey : string :=
  getCacheKey imports isrConfig (Request.url req)
    (ISRHandlerConfig.allowedQueryParams isrConfig)
    (getVariant imports req (ISRHandlerConfig.variants isrConfig)).

Let r : Run C unit := serveFromCache imports isrConfig req res now totalTime config st.

Hypothesis Hget :
  get cacheKey (cache st) = (SettlesAt t (Resolve cacheData), cache').
Hypothesis Hintime : t <= timerDelay (cacheTimeoutMs imports isrConfig).

(** X8. An entry stamped with a build id other than the running one is never
    served, however fresh it is: [serveFromCache] calls [next()] and nothing
    else.  An entry without a build id passes this check. *)
Theorem serveFromCache_other_build :
  (forall stamp,
      CacheISRConfig.buildId (CacheData.options cacheData) = value stamp ->
      ISRHandlerConfig.buildId isrConfig <> value stamp ->
      outcome r = Fulfilled tt /\ calls r = [CacheGet cacheKey; Next]) /\
  (isNullish (CacheISRConfig.buildId (CacheData.options cacheData)) = true ->
   fromOtherBuild isrConfig (CacheData.options cacheData) = false).
Proof.
  split.
  - intros stamp Hstamp Hother.
    assert (Hbuild : fromOtherBuild isrConfig (CacheData.options cacheData) = true).
    { unfold fromOtherBuild. rewrite Hstamp. cbn [isNullish negb andb].
      destruct (strictEqString (value stamp) (ISRHandlerConfig.buildId isrConfig))
        eqn:Heq; [| reflexivity].
      apply strictEqString_eq in Heq. congruence. }
    subst r. unfold serveFromCache. fold cacheKey. unfold tryCatch, bind.
    destruct (readCache_found imports isrConfig cacheKey st Hget Hintime)
      as [Ho [Hc _]].
    destruct (readCache imports isrConfig cacheKey st) as [o s c].
    cbn [outcome after calls] in *. subst o c. cbn [outcome after calls].
    rewrite Hbuild. cbn. split; reflexivity.
  - intros Hnull. unfold fromOtherBuild. now rewrite Hnull.
Qed.

Hypothesis Hbuild : fromOtherBuild isrConfig (CacheData.options cacheData) = false.

Variable n : Z.
Hypothesis Hrevalidate :
  CacheISRConfig.revalidate (CacheData.options cacheData) = value n.
Hypothesis Hpositive : 0 < n.
Hypothesis Hstale : expired now (CacheData.createdAt cacheData) n = true.

Let stale : Html := cachedHtml imports isrConfig (CacheData.html cacheData).

Lemma stale_condition : negb (n =? 0) && (0 <? n) = true.
Proof.
  apply andb_true_iff. split.
  - apply negb_true_iff, Z.eqb_neq. lia.
  - now apply Z.ltb_lt.
Qed.

(** X9. Stale-while-revalidate: with [backgroundRevalidation] set, a stale
    entry is answered with the cached markup whatever becomes of the
    regeneration it starts (new content, failure, or no end at all), and
    [next()] is not called. *)
Theorem stale_served_in_background :
  ISRHandlerConfig.backgroundRevalidation isrConfig = true ->
  outcome r = Fulfilled tt /\
  In (GenerateWithCacheKey cacheKey Regenerate) (calls r) /\
  sentBodies (calls r) =
    sentBodies (calls (sendCached isrConfig req totalTime config stale st)) /\
  nextCalls (calls r) = O.
Proof.
  intros Hbackground.
  destruct (serveFromCache_found imports isrConfig req res now totalTime config
              st Hget Hintime Hbuild) as [Hcalls Hout].
  cbv zeta in Hcalls, Hout. fold cacheKey r stale in Hcalls, Hout.
  set (st1 := after (readCache imports isrConfig cacheKey st)) in *.
  assert (Hcheck :
    let g := generateWithCacheKey imports isrConfig req res cacheKey Regenerate st1 in
    revalidateIfExpired imports isrConfig req res cacheKey
      (CacheData.options cacheData) (CacheData.createdAt cacheData) now stale st1 =
    mkRun (Fulfilled stale) (after g) (calls g)).
  { cbv zeta. unfold revalidateIfExpired.
    rewrite Hrevalidate, stale_condition, Hstale, Hbackground.
    unfold tryCatch, bind, detach. cbn. now rewrite app_nil_r. }
  cbv zeta in Hcheck. unfold bind in Hcalls, Hout. rewrite Hcheck in Hcalls, Hout.
  cbn [outcome after calls] in Hcalls, Hout.
  set (g := generateWithCacheKey imports isrConfig req res cacheKey Regenerate st1) in *.
  destruct (sendCached_sends isrConfig req totalTime config stale (after g))
    as [So [_ [Sn _]]].
  destruct (sendCached_run isrConfig req totalTime config stale (after g) st)
    as [_ [Sc _]].
  rewrite So in Hcalls, Hout. cbn [outcome after calls] in Hcalls.
  rewrite app_nil_r in Hcalls.
  destruct (generateWithCacheKey_silent imports isrConfig req res cacheKey
              Regenerate st1) as [Gs [Gn _]].
  fold g in Gs, Gn.
  rewrite Hcalls. cbn [sentBodies nextCalls].
  rewrite sentBodies_app, nextCalls_app, Gs, Gn, Sn, Sc. repeat split.
  - now apply Hout.
  - right. apply in_or_app. left.
    apply (generateWithCacheKey_announced imports isrConfig req res cacheKey
             Regenerate st1).
Qed.

(** X10. While a regeneration of the key is on hold, a stale entry is
    answered with the cached markup: the regeneration asked for is skipped,
    the renderer is not invoked and [next()] is not called, with or without
    background revalidation. *)
Theorem stale_served_while_on_hold :
  In cacheKey (urlsOnHold st) ->
  outcome r = Fulfilled tt /\
  calls r =
    CacheGet cacheKey :: GenerateWithCacheKey cacheKey Regenerate ::
    calls (sendCached isrConfig req totalTime config stale st).
Proof.
  intros Hheld.
  destruct (serveFromCache_found imports isrConfig req res now totalTime config
              st Hget Hintime Hbuild) as [Hcalls Hout].
  cbv zeta in Hcalls, Hout. fold cacheKey r stale in Hcalls, Hout.
  destruct (readCache_found imports isrConfig cacheKey st Hget Hintime)
    as [_ [_ Hu]]. cbv zeta in Hu.
  set (st1 := after (readCache imports isrConfig cacheKey st)) in *.
  assert (Hskip : generateWithCacheKey imports isrConfig req res cacheKey
                    Regenerate st1 =
                  mkRun (Fulfilled None) st1 [GenerateWithCacheKey cacheKey Regenerate]).
  { apply generateWithCacheKey_skip. cbn. rewrite Hu.
    apply includes_In in Hheld. now rewrite Hheld. }
  assert (Hcheck :
    revalidateIfExpired imports isrConfig req res cacheKey
      (CacheData.options cacheData) (CacheData.createdAt cacheData) now stale st1 =
    mkRun (Fulfilled stale) st1 [GenerateWithCacheKey cacheKey Regenerate]).
  { unfold revalidateIfExpired.
    rewrite Hrevalidate, stale_condition, Hstale.
    unfold tryCatch, bind, detach.
    destruct (ISRHandlerConfig.backgroundRevalidation isrConfig); cbv beta;
      rewrite Hskip; reflexivity. }
  unfold bind in Hcalls, Hout. rewrite Hcheck in Hcalls, Hout.
  cbn [outcome after calls] in Hcalls, Hout.
  destruct (sendCached_sends isrConfig req totalTime config stale st1)
    as [So _].
  destruct (sendCached_run isrConfig req totalTime config stale st1 st)
    as [_ [Sc _]].
  rewrite So in Hcalls, Hout. rewrite app_nil_r in Hcalls.
  rewrite Hcalls, Sc. split; [now apply Hout | reflexivity].
Qed.

(** X11. Without background revalidation, when the regeneration of a stale
    entry comes back with markup that is not empty, that markup is what goes
    to [res.send], not the cached one, and [next()] is not called. *)
Theorem stale_replaced_by_regenerated :
  forall result : IGeneratedResult.t,
    ISRHandlerConfig.backgroundRevalidation isrConfig = false ->
    outcome (generateWithCacheKey imports isrConfig req res cacheKey Regenerate
               (after (readCache imports isrConfig cacheKey st))) =
      Fulfilled (Some result) ->
    truthyHtml (IGeneratedResult.html result) = true ->
    outcome r = Fulfilled tt /\
    sentBodies (calls r) =
      sentBodies (calls (sendCached isrConfig req totalTime config
                           (IGeneratedResult.html result) st)) /\
    nextCalls (calls r) = O.
Proof.
  intros result Hsync Hgen Htruthy.
  destruct (serveFromCache_found imports isrConfig req res now totalTime config
              st Hget Hintime Hbuild) as [Hcalls Hout].
  cbv zeta in Hcalls, Hout. fold cacheKey r stale in Hcalls, Hout.
  set (st1 := after (readCache imports isrConfig cacheKey st)) in *.
  destruct (generateWithCacheKey_silent imports isrConfig req res cacheKey
              Regenerate st1) as [Gs [Gn _]].
  assert (Hcheck :
    let g := generateWithCacheKey imports isrConfig req res cacheKey Regenerate st1 in
    revalidateIfExpired imports isrConfig req res cacheKey
      (CacheData.options cacheData) (CacheData.createdAt cacheData) now stale st1 =
    mkRun (Fulfilled (IGeneratedResult.html result)) (after g) (calls g)).
  { cbv zeta. unfold revalidateIfExpired.
    rewrite Hrevalidate, stale_condition, Hstale, Hsync.
    unfold tryCatch, bind.
    destruct (generateWithCacheKey imports isrConfig req res cacheKey Regenerate st1)
      as [o s c]. cbn [outcome after calls] in *. subst o.
    cbn. rewrite Htruthy, app_nil_r. reflexivity. }
  cbv zeta in Hcheck. unfold bind in Hcalls, Hout. rewrite Hcheck in Hcalls, Hout.
  cbn [outcome after calls] in Hcalls, Hout.
  set (g := generateWithCacheKey imports isrConfig req res cacheKey Regenerate st1) in *.
  destruct (sendCached_sends isrConfig req totalTime config
              (IGeneratedResult.html result) (after g)) as [So [_ [Sn _]]].
  destruct (sendCached_run isrConfig req totalTime config
              (IGeneratedResult.html result) (after g) st) as [_ [Sc _]].
  rewrite So in Hcalls, Hout. rewrite app_nil_r in Hcalls.
  rewrite Hcalls. cbn [sentBodies nextCalls].
  rewrite sentBodies_app, nextCalls_app, Gs, Gn, Sn, Sc.
  repeat split. now apply Hout.
Qed.

End UsableOrNot.

Lemma serveFromCache_other_build_witness :
  calls (serveFromCache Example.imports Example.config (Example.request "/five")
           Example.response 1000 "0.10" None
           (Example.start [("/five", ExampleMore.fromBuildOne)])) =
  [CacheGet "/five"; Next].
Proof.
  assert (Hget : get "/five" [("/five", ExampleMore.fromBuildOne)] =
                 (SettlesAt 1 (Resolve ExampleMore.fromBuildOne),
                  [("/five", ExampleMore.fromBuildOne)])) by reflexivity.
  assert (Hintime : 1 <= timerDelay (cacheTimeoutMs Example.imports Example.config))
    by (vm_compute; discriminate).
  pose proof (@serveFromCache_other_build _ Example.listCacheHandler
                Example.imports Example.config (Example.request "/five")
                Example.response 1000 "0.10" None
                (Example.start [("/five", ExampleMore.fromBuildOne)])
                1 ExampleMore.fromBuildOne [("/five", ExampleMore.fromBuildOne)]
                Hget Hintime) as [Hother _].
  assert (Hdiffers : ISRHandlerConfig.buildId Example.config <> value "build-1")
    by discriminate.
  exact (proj2 (Hother "build-1" eq_refl Hdiffers)).
Defined.

Lemma stale_served_in_background_witness :
  sentBodies
    (calls (serveFromCache Example.imports ExampleMore.background
              (Example.request "/broken") Example.response 10000 "0.10" None
              (Example.start [("/broken", ExampleMore.staleFive)]))) =
  sentBodies
    (calls (sendCached ExampleMore.background (Example.request "/broken") "0.10"
              None (cachedHtml Example.imports ExampleMore.background
                      (CacheData.html ExampleMore.staleFive))
              (Example.start [("/broken", ExampleMore.staleFive)]))).
Proof.
  assert (Hget : get "/broken" [("/broken", ExampleMore.staleFive)] =
                 (SettlesAt 1 (Resolve ExampleMore.staleFive),
                  [("/broken", ExampleMore.staleFive)])) by reflexivity.
  assert (Hintime : 1 <= timerDelay (cacheTimeoutMs Example.imports ExampleMore.background))
    by (vm_compute; discriminate).
  assert (Hpositive : 0 < 5) by lia.
  pose proof (@stale_served_in_background _ Example.listCacheHandler
                Example.imports ExampleMore.background (Example.request "/broken")
                Example.response 10000 "0.10" None
                (Example.start [("/broken", ExampleMore.staleFive)])
                1 ExampleMore.staleFive [("/broken", ExampleMore.staleFive)]
                Hget Hintime eq_refl 5 eq_refl Hpositive eq_refl eq_refl) as Hb.
  exact (proj1 (proj2 (proj2 Hb))).
Defined.

Lemma stale_served_while_on_hold_witness :
  calls (serveFromCache Example.imports Example.config (Example.request "/five")
           Example.response 10000 "0.10" None
           (mkState ["/five"] [("/five", ExampleMore.staleFive)] Example.noTimers)) =
  CacheGet "/five" :: GenerateWithCacheKey "/five" Regenerate ::
  calls (sendCached Example.config (Example.request "/five") "0.10" None
           (cachedHtml Example.imports Example.config
              (CacheData.html ExampleMore.staleFive))
           (mkState ["/five"] [("/five", ExampleMore.staleFive)] Example.noTimers)).
Proof.
  assert (Hget : get "/five" [("/five", ExampleMore.staleFive)] =
                 (SettlesAt 1 (Resolve ExampleMore.staleFive),
                  [("/five", ExampleMore.staleFive)])) by reflexivity.
  assert (Hintime : 1 <= timerDelay (cacheTimeoutMs Example.imports Example.config))
    by (vm_compute; discriminate).
  assert (Hpositive : 0 < 5) by lia.
  assert (Hheld : In "/five" ["/five"]) by (now left).
  pose proof (@stale_served_while_on_hold _ Example.listCacheHandler
                Example.imports Example.config (Example.request "/five")
                Example.response 10000 "0.10" None
                (mkState ["/five"] [("/five", ExampleMore.staleFive)] Example.noTimers)
                1 ExampleMore.staleFive [("/five", ExampleMore.staleFive)]
                Hget Hintime eq_refl 5 eq_refl Hpositive eq_refl Hheld) as Hh.
  exact (proj2 Hh).
Defined.

Lemma stale_replaced_by_regenerated_witness :
  sentBodies
    (calls (serveFromCache Example.imports Example.config (Example.request "/five")
              Example.response 10000 "0.10" None
              (Example.start [("/five", ExampleMore.staleFive)]))) =
  sentBodies
    (calls (sendCached Example.config (Example.request "/five") "0.10" None
              (HtmlString "revalidate:5")
              (Example.start [("/five", ExampleMore.staleFive)]))).
Proof.
  assert (Hget : get "/five" [("/five", ExampleMore.staleFive)] =
                 (SettlesAt 1 (Resolve ExampleMore.staleFive),
                  [("/five", ExampleMore.staleFive)])) by reflexivity.
  assert (Hintime : 1 <= timerDelay (cacheTimeoutMs Example.imports Example.config))
    by (vm_compute; discriminate).
  assert (Hpositive : 0 < 5) by lia.
  pose proof (@stale_replaced_by_regenerated _ Example.listCacheHandler
                Example.imports Example.config (Example.request "/five")
                Example.response 10000 "0.10" None
                (Example.start [("/five", ExampleMore.staleFive)])
                1 ExampleMore.staleFive [("/five", ExampleMore.staleFive)]
                Hget Hintime eq_refl 5 eq_refl Hpositive eq_refl
                (IGeneratedResult.mk (HtmlString "revalidate:5") None)
                eq_refl eq_refl eq_refl) as Hr.
  exact (proj1 (proj2 Hr)).
Defined.

(** ** Invalidation, beyond the expansion *)

Section InvalidateMore.

Context {C : Type} `{CacheHandler C}.
Variable imports : Imports.
Variable isrConfig : ISRHandlerConfig.t.
Variable res : Response.t.

Lemma urlExists_urlsOnHold (cacheKey : string) (st : State C) :
  urlsOnHold (after (urlExists imports isrConfig cacheKey st)) = urlsOnHold st.
Proof.
  unfold urlExists. destruct (has cacheKey (cache st)) as [p c'].
  unfold bind, call, tryCatch. cbn [outcome after calls].
  pose proof (executeWithTimeout_urlsOnHold p (cacheTimeoutMs imports isrConfig)
                ("Timeout while checking cache for cacheKey: " ++ cacheKey)%string
                (setCache c' st)) as Hu.
  destruct (executeWithTimeout p _ _ _) as [[b | e |] s c]; cbn in *; exact Hu.
Qed.

Lemma invalidateItem_urlsOnHold (acc : InvalidateLoop) (item : VariantRebuildItem.t)
    (st : State C) :
  urlsOnHold (after (invalidateItem imports isrConfig res acc item st)) =
  urlsOnHold st.
Proof.
  destruct acc as [[req notInCache] urlWithErrors].
  unfold invalidateItem. cbv zeta. unfold bind, tryCatch.
  pose proof (urlExists_urlsOnHold (VariantRebuildItem.cacheKey item) st) as Hu.
  destruct (urlExists imports isrConfig (VariantRebuildItem.cacheKey item) st)
    as [[[|] | e |] s c]; cbn [outcome after calls negb] in *; try exact Hu.
  set (simulated := VariantRebuildItem.reqSimulator item
                      (Request.setUrl (VariantRebuildItem.url item) req)).
  pose proof (generate_mode_registry imports isrConfig simulated res
                (VariantRebuildItem.cacheKey item) s) as Hg.
  destruct (generateWithCacheKey imports isrConfig simulated res
              (VariantRebuildItem.cacheKey item) Generate s)
    as [[result | e |] s1 c1]; cbn [outcome after calls] in *; cbn; congruence.
Qed.

Lemma forOf_urlsOnHold (items : list VariantRebuildItem.t) :
  forall (acc : InvalidateLoop) (st : State C),
    urlsOnHold (after (forOf items (invalidateItem imports isrConfig res) acc st)) =
    urlsOnHold st.
Proof.
  induction items as [| item items IH]; intros acc st; [reflexivity |].
  cbn [forOf]. unfold bind.
  pose proof (invalidateItem_urlsOnHold acc item st) as Hi.
  destruct (invalidateItem imports isrConfig res acc item st) as [[acc' | e |] s c];
    cbn [outcome after calls] in *; try exact Hi.
  now rewrite IH.
Qed.

(** X12. [invalidate] never touches the in-flight registry: whatever the
    request and however the rebuilds end, [urlsOnHold] is afterwards what it
    was before, so an invalidation neither waits for nor blocks a
    regeneration of the same key. *)
Theorem invalidate_leaves_registry :
  forall (req : Request.t) (st : State C),
    urlsOnHold (after (invalidate imports isrConfig req res st)) = urlsOnHold st.
Proof.
  intros req st. unfold invalidate.
  destruct (negb (strictEqString (Request.token req)
                    (ISRHandlerConfig.invalidateSecretToken isrConfig)));
    [reflexivity |].
  destruct (Request.urlsToInvalidate req) as [| | [| u us]]; try reflexivity.
  unfold bind.
  pose proof (forOf_urlsOnHold (getVariantUrlsToInvalidate imports isrConfig (u :: us))
                (req, [], emptyObject) st) as Hl.
  destruct (forOf _ _ _ st) as [[[[req' nic] uwe] | e |] s c];
    cbn [outcome after calls] in *; exact Hl.
Qed.

(** As long as no key is [__proto__], the prototype of [urlWithErrors] is the
    one it started with. *)
Lemma assignProperty_prototype (k : string) (v : RebuildErrors) (o : UrlWithErrors.t) :
  k <> "__proto__"%string ->
  UrlWithErrors.prototype (assignProperty k v o) = UrlWithErrors.prototype o.
Proof.
  intros Hneq. unfold assignProperty.
  destruct (String.eqb_spec k "__proto__"); [contradiction | reflexivity].
Qed.

Lemma invalidateItem_prototype (acc : InvalidateLoop) (item : VariantRebuildItem.t)
    (st : State C) (acc' : InvalidateLoop) :
  VariantRebuildItem.cacheKey item <> "__proto__"%string ->
  outcome (invalidateItem imports isrConfig res acc item st) = Fulfilled acc' ->
  UrlWithErrors.prototype (snd acc') = UrlWithErrors.prototype (snd acc).
Proof.
  intros Hkey. destruct acc as [[req notInCache] urlWithErrors].
  unfold invalidateItem. cbv zeta. unfold bind, tryCatch.
  destruct (urlExists imports isrConfig (VariantRebuildItem.cacheKey item) st)
    as [[[|] | e |] s c]; cbn [outcome after calls negb]; try discriminate.
  - set (simulated := VariantRebuildItem.reqSimulator item
                        (Request.setUrl (VariantRebuildItem.url item) req)).
    destruct (generateWithCacheKey imports isrConfig simulated res
                (VariantRebuildItem.cacheKey item) Generate s)
      as [[result | e |] s1 c1]; cbn [outcome after calls ret]; try discriminate.
    + intros [= <-]. cbn [snd].
      destruct result as [r |]; [| reflexivity].
      destruct (IGeneratedResult.errors r) as [[| e es] |]; try reflexivity.
      now apply assignProperty_prototype.
    + intros [= <-]. cbn [snd]. now apply assignProperty_prototype.
  - intros [= <-]. reflexivity.
Qed.

Lemma forOf_prototype (items : list VariantRebuildItem.t) :
  forall (acc : InvalidateLoop) (st : State C) (acc' : InvalidateLoop),
    ~ In "__proto__"%string (map VariantRebuildItem.cacheKey items) ->
    outcome (forOf items (invalidateItem imports isrConfig res) acc st) =
      Fulfilled acc' ->
    UrlWithErrors.prototype (snd acc') = UrlWithErrors.prototype (snd acc).
Proof.
  induction items as [| item items IH]; intros acc st acc' Hkeys.
  - cbn. intros [= <-]. reflexivity.
  - cbn [forOf]. unfold bind.
    pose proof (@invalidateItem_prototype acc item st) as Hitem.
    destruct (invalidateItem imports isrConfig res acc item st) as [[acc1 | e |] s c];
      cbn [outcome after calls] in *; try discriminate.
    intros Hrest.
    rewrite (IH acc1 s acc'); [| intros Hin; apply Hkeys; right; exact Hin |].
    + apply Hitem; [intros Heq; apply Hkeys; left; exact Heq | reflexivity].
    + destruct (forOf items (invalidateItem imports isrConfig res) acc1 s)
        as [o2 s2 c2]; cbn [outcome] in *. exact Hrest.
Qed.

(** Without a prototype put in its place, a read that finds no own property
    is answered by [Object.prototype] alone. *)
Lemma truthyProperty_plain (k : string) (o : UrlWithErrors.t) :
  UrlWithErrors.prototype o = None ->
  objectPrototypeMember k = false ->
  truthyProperty k o =
  match getProperty k (UrlWithErrors.entries o) with
  | Some _ => true
  | None => false
  end.
Proof.
  intros Hproto Hk. unfold truthyProperty. rewrite Hproto, Hk.
  now destruct (getProperty k (UrlWithErrors.entries o)).
Qed.

(** The answer of a run that comes to its end. *)
Lemma invalidate_answer (req : Request.t) (st : State C) (u : string)
    (us : list string) :
  Request.token req = ISRHandlerConfig.invalidateSecretToken isrConfig ->
  Request.urlsToInvalidate req = value (u :: us) ->
  let r := invalidate imports isrConfig req res st in
  let keys :=
    map VariantRebuildItem.cacheKey
        (getVariantUrlsToInvalidate imports isrConfig (u :: us)) in
  outcome r <> Pending ->
  exists before notInCache urlWithErrors,
    calls r =
      before ++
      [ResJson (SuccessResponse notInCache urlWithErrors
                  (filter
                     (fun cacheKey =>
                        negb (includes notInCache cacheKey) &&
                        negb (truthyProperty cacheKey urlWithErrors))
                     keys))] /\
    incl notInCache keys /\
    (~ In "__proto__"%string keys -> UrlWithErrors.prototype urlWithErrors = None).
Proof.
  intros Htoken Hurls. cbv zeta. unfold invalidate.
  apply strictEqString_eq in Htoken. rewrite Htoken, Hurls. cbn [negb].
  unfold bind.
  pose proof (invalidate_loop imports isrConfig res
                (getVariantUrlsToInvalidate imports isrConfig (u :: us))
                req [] emptyObject st) as Hloop.
  pose proof (@forOf_prototype
                (getVariantUrlsToInvalidate imports isrConfig (u :: us))
                (req, [], emptyObject) st) as Hproto.
  cbv zeta in Hloop.
  destruct (forOf (getVariantUrlsToInvalidate imports isrConfig (u :: us))
              (invalidateItem imports isrConfig res) (req, [], emptyObject) st)
    as [o s c].
  cbn [outcome after calls] in *.
  destruct Hloop as [-> | [Hchecks [_ [req' [uwe' ->]]]]];
    [intros Hp; now contradiction Hp |].
  intros _. cbn [outcome after calls call app].
  exists c, (absentKeys (cacheTimeoutMs imports isrConfig) c), uwe'.
  split; [reflexivity |]. split.
  - rewrite <- Hchecks. unfold absentKeys. intros k Hin.
    apply in_map_iff in Hin as [[k' p] [<- Hf]]. apply filter_In in Hf as [Hf _].
    apply in_map_iff. exists (k', p). split; [reflexivity | assumption].
  - intros Hkeys. exact (Hproto _ Hkeys eq_refl).
Qed.

(** X13. The report of [invalidate] classifies every rebuild key, when no key
    is the name of a member of [Object.prototype] (such as [toString] or
    [__proto__]): each key of the expansion is under [notInCache], or has an
    entry of its own in [urlWithErrors], or is among [invalidatedUrls]; a key
    among [invalidatedUrls] is a key of the expansion that is in neither of
    the other two; and [notInCache] holds keys of the expansion only. *)
Theorem invalidate_report_classifies :
  forall (req : Request.t) (st : State C) (urls : list string),
    let r := invalidate imports isrConfig req res st in
    let keys :=
      map VariantRebuildItem.cacheKey
          (getVariantUrlsToInvalidate imports isrConfig urls) in
    Request.token req = ISRHandlerConfig.invalidateSecretToken isrConfig ->
    Request.urlsToInvalidate req = value urls ->
    urls <> [] ->
    outcome r <> Pending ->
    (forall k, In k keys -> objectPrototypeMember k = false) ->
    exists before notInCache urlWithErrors invalidatedUrls,
      calls r =
        before ++
        [ResJson (SuccessResponse notInCache urlWithErrors invalidatedUrls)] /\
      (forall k, In k keys ->
                 In k notInCache \/
                 (exists errors,
                     getProperty k (UrlWithErrors.entries urlWithErrors) =
                     Some errors) \/
                 In k invalidatedUrls) /\
      (forall k, In k invalidatedUrls ->
                 In k keys /\ ~ In k notInCache /\
                 getProperty k (UrlWithErrors.entries urlWithErrors) = None) /\
      incl notInCache keys.
Proof.
  intros req st urls r keys Htoken Hurls Hne Hends Hnames. subst r keys.
  destruct urls as [| u us]; [congruence |].
  destruct (invalidate_answer req st Htoken Hurls Hends)
    as [before [nic [uwe [Hcalls [Hincl Hproto]]]]].
  assert (Hplain : UrlWithErrors.prototype uwe = None).
  { apply Hproto. intros Hin. apply Hnames in Hin. discriminate. }
  eexists before, nic, uwe, _. split; [exact Hcalls |].
  split; [| split; [| exact Hincl]].
  - intros k Hin.
    destruct (includes nic k) eqn:Hn; [left; now apply includes_In |].
    destruct (getProperty k (UrlWithErrors.entries uwe)) as [errors |] eqn:Hp;
      [right; left; eauto |].
    right. right. apply filter_In. split; [assumption |].
    rewrite Hn, (truthyProperty_plain k uwe Hplain (Hnames k Hin)), Hp. reflexivity.
  - intros k Hin. apply filter_In in Hin as [Hin Hf].
    apply andb_true_iff in Hf as [Hn Hp].
    apply negb_true_iff in Hn. apply negb_true_iff in Hp.
    repeat split; try assumption.
    + now apply includes_not_In.
    + unfold truthyProperty in Hp.
      destruct (getProperty k (UrlWithErrors.entries uwe)); [discriminate | reflexivity].
Qed.

End InvalidateMore.

Lemma invalidate_report_classifies_witness :
  exists before notInCache urlWithErrors invalidatedUrls,
    calls (invalidate Example.imports Example.config
             (Example.invalidation (value "s3cret") (value ["/five"; "/error"]))
             Example.response
             (Example.start [("/five", ExampleMore.staleFive);
                             ("/error", ExampleMore.staleFive)])) =
    before ++ [ResJson (SuccessResponse notInCache urlWithErrors invalidatedUrls)] /\
    incl notInCache
      (map VariantRebuildItem.cacheKey
         (getVariantUrlsToInvalidate Example.imports Example.config
            ["/five"; "/error"])).
Proof.
  assert (Hne : ["/five"; "/error"] <> @nil string) by discriminate.
  assert (Hends : outcome (invalidate Example.imports Example.config
                             (Example.invalidation (value "s3cret")
                                (value ["/five"; "/error"]))
                             Example.response
                             (Example.start [("/five", ExampleMore.staleFive);
                                             ("/error", ExampleMore.staleFive)]))
                  <> Pending)
    by (vm_compute; discriminate).
  assert (Hnames : forall k,
             In k (map VariantRebuildItem.cacheKey
                     (getVariantUrlsToInvalidate Example.imports Example.config
                        ["/five"; "/error"])) ->
             objectPrototypeMember k = false).
  { intros k Hin. vm_compute in Hin.
    repeat (destruct Hin as [<- | Hin]; [reflexivity |]). destruct Hin. }
  destruct (@invalidate_report_classifies _ Example.listCacheHandler
              Example.imports Example.config Example.response
              (Example.invalidation (value "s3cret") (value ["/five"; "/error"]))
              (Example.start [("/five", ExampleMore.staleFive);
                              ("/error", ExampleMore.staleFive)])
              ["/five"; "/error"] eq_refl eq_refl Hne Hends Hnames)
    as [before [nic [uwe [inv [Hcalls [_ [_ Hincl]]]]]]].
  exists before, nic, uwe, inv. split; assumption.
Defined.

(** The report on the example site: ["/five"] is rebuilt, ["/error"] comes
    back with its errors, the variants of both are not in the cache. *)
Example invalidate_report_on_site :
  calls (invalidate Example.imports Example.config
           (Example.invalidation (value "s3cret") (value ["/five"; "/error"]))
           Example.response
           (Example.start [("/five", ExampleMore.staleFive);
                           ("/error", ExampleMore.staleFive)])) =
  [CacheHas "/five" (SettlesAt 1 (Resolve true));
   GenerateWithCacheKey "/five" Generate;
   EngineRender "http://localhost/five";
   CacheAdd "/five" (HtmlString "revalidate:5")
     (CacheISRConfig.mk (value 5) null None);
   CacheHas "/five<variantId:mobile>" (SettlesAt 1 (Resolve false));
   CacheHas "/five<variantId:dark>" (SettlesAt 1 (Resolve false));
   CacheHas "/error" (SettlesAt 1 (Resolve true));
   GenerateWithCacheKey "/error" Generate;
   EngineRender "http://localhost/error";
   CacheHas "/error<variantId:mobile>" (SettlesAt 1 (Resolve false));
   CacheHas "/error<variantId:dark>" (SettlesAt 1 (Resolve false));
   ResJson
     (SuccessResponse
        ["/five<variantId:mobile>"; "/five<variantId:dark>";
         "/error<variantId:mobile>"; "/error<variantId:dark>"]
        (UrlWithErrors.mk [("/error", inl ["500 Internal Server Error"])] None)
        ["/five"])].
Proof. vm_compute. reflexivity. Qed.

(** A key that is the name of a member of [Object.prototype]: the page cached
    under [toString] is rebuilt without errors, and the read
    [urlWithErrors["toString"]] finds the inherited function all the same, so
    the key is in none of the three lists. *)
Example inherited_name_is_not_reported :
  calls (invalidate Example.imports (ExampleMore.withoutVariants Example.engine)
           (Example.invalidation (value "s3cret") (value ["toString"]))
           Example.response
           (Example.start [("toString", ExampleMore.staleFive)])) =
  [CacheHas "toString" (SettlesAt 1 (Resolve true));
   GenerateWithCacheKey "toString" Generate;
   EngineRender "http://localhosttoString";
   ResJson (SuccessResponse [] emptyObject [])].
Proof. vm_compute. reflexivity. Qed.

(** A page with errors cached under [__proto__]: the assignment makes the
    array of errors the prototype of [urlWithErrors] and adds no entry to it;
    after that the key [length], rebuilt without errors, is read through that
    array and is not reported as invalidated, while ["/five"] is. *)
Example proto_key_replaces_the_prototype :
  calls (invalidate Example.imports (ExampleMore.withoutVariants ExampleMore.protoEngine)
           (Example.invalidation (value "s3cret")
              (value ["__proto__"; "length"; "/five"]))
           Example.response
           (Example.start [("__proto__", ExampleMore.staleFive);
                           ("length", ExampleMore.staleFive);
                           ("/five", ExampleMore.staleFive)])) =
  [CacheHas "__proto__" (SettlesAt 1 (Resolve true));
   GenerateWithCacheKey "__proto__" Generate;
   EngineRender "http://localhost__proto__";
   CacheHas "length" (SettlesAt 1 (Resolve true));
   GenerateWithCacheKey "length" Generate;
   EngineRender "http://localhostlength";
   CacheHas "/five" (SettlesAt 1 (Resolve true));
   GenerateWithCacheKey "/five" Generate;
   EngineRender "http://localhost/five";
   CacheAdd "/five" (HtmlString "revalidate:5")
     (CacheISRConfig.mk (value 5) null None);
   ResJson
     (SuccessResponse []
        (UrlWithErrors.mk [] (Some (inl ["500 Internal Server Error"])))
        ["/five"])].
Proof. vm_compute. reflexivity. Qed.

(** X14. Without variants ([variants] missing or empty)
    [getVariantUrlsToInvalidate] gives one item per URL, in order, keyed by
    the URL itself; in general every item carries the URL it was expanded
    from, [1 + |variants|] items in a row per URL; and no URL gives no
    item. *)
Theorem expansion_without_variants :
  forall (imports : Imports) (isrConfig : ISRHandlerConfig.t) (urls : list string),
    let variants :=
      match ISRHandlerConfig.variants isrConfig with
      | Some vs => vs
      | None => []
      end in
    let items := getVariantUrlsToInvalidate imports isrConfig urls in
    map VariantRebuildItem.url items =
      flat_map (fun url => repeat url (1 + List.length variants)) urls /\
    (variants = [] ->
     map VariantRebuildItem.cacheKey items = urls /\
     map VariantRebuildItem.url items = urls) /\
    (urls = [] -> items = []).
Proof.
  intros imports isrConfig urls variants items. subst items.
  rewrite getVariantUrlsToInvalidate_itemsOf. fold variants.
  assert (Hurl : map VariantRebuildItem.url
                   (flat_map (itemsOf imports isrConfig variants) urls) =
                 flat_map (fun url => repeat url (1 + List.length variants)) urls).
  { induction urls as [| url urls IH]; [reflexivity |].
    cbn [flat_map]. rewrite map_app, IH. f_equal.
    unfold itemsOf. cbn [map VariantRebuildItem.url Nat.add repeat]. f_equal.
    rewrite map_map. cbn [VariantRebuildItem.url].
    clear. induction variants as [| v vs IHv]; [reflexivity |].
    cbn. now rewrite IHv. }
  split; [exact Hurl |]. split.
  - intros Hnone. rewrite Hurl, Hnone. cbn [List.length Nat.add repeat].
    split.
    + clear. induction urls as [| url urls IH]; [reflexivity |].
      cbn. now rewrite IH.
    + clear. induction urls as [| url urls IH]; [reflexivity |].
      cbn. now rewrite IH.
  - intros ->. reflexivity.
Qed.

(** ** The registry holds each key at most once *)

Lemma NoDup_push (k : string) (l : list string) :
  NoDup l -> ~ In k l -> NoDup (l ++ [k]).
Proof.
  intros Hl Hk. induction Hl as [| x l Hx Hl IH]; cbn.
  - constructor; [intros [] | constructor].
  - constructor.
    + intros Hin. apply in_app_iff in Hin as [Hin | [-> | []]].
      * contradiction.
      * apply Hk. now left.
    + apply IH. intros Hin. apply Hk. now right.
Qed.

Lemma NoDup_holdUrl (mode : Mode) (k : string) (l held : list string) :
  NoDup l -> holdUrl mode k l = Some held -> NoDup held.
Proof.
  intros Hl Hhold. destruct mode; cbn in Hhold.
  - destruct (includes l k) eqn:Hinc; [discriminate |].
    injection Hhold as <-. apply NoDup_push; [assumption |].
    now apply includes_not_In.
  - now injection Hhold as <-.
Qed.

Lemma NoDup_exitRegistry (path : Interleaving.ExitPath) (mode : Mode) (k : string)
    (l : list string) :
  NoDup l -> NoDup (Interleaving.exitRegistry path mode k l).
Proof.
  intros Hl. destruct path, mode; cbn; try assumption; now apply NoDup_filter.
Qed.

(** X15. [urlsOnHold] never holds a key twice.  A call of
    [generateWithCacheKey], in either mode and however it ends (a run left
    pending included), takes a registry without repetition to a registry
    without repetition; and so does every interleaving of calls and returns,
    starting from the empty registry. *)
Theorem registry_without_repetition :
  forall (C : Type) (handler : CacheHandler C) (imports : Imports)
         (isrConfig : ISRHandlerConfig.t) (req : Request.t) (res : Response.t)
         (cacheKey : string) (mode : Mode) (st : State C)
         (events : list Interleaving.Event),
    (NoDup (urlsOnHold st) ->
     NoDup (urlsOnHold
              (after (generateWithCacheKey imports isrConfig req res cacheKey
                        mode st)))) /\
    NoDup (Interleaving.registry (Interleaving.run events)).
Proof.
  intros C handler imports isrConfig req res cacheKey mode st events. split.
  - intros Hnd.
    pose proof (generateWithCacheKey_registry imports isrConfig req res cacheKey
                  mode st) as Hreg.
    cbv zeta in Hreg.
    destruct (holdUrl mode cacheKey (urlsOnHold st)) as [held |] eqn:Hhold.
    + pose proof (NoDup_holdUrl mode cacheKey Hnd Hhold) as Hheld.
      destruct Hreg as [[_ ->] | [path ->]]; [assumption |].
      now apply NoDup_exitRegistry.
    + now rewrite Hreg.
  - unfold Interleaving.run.
    assert (Hinit : NoDup (Interleaving.registry Interleaving.initial))
      by constructor.
    revert Hinit. generalize Interleaving.initial as s.
    induction events as [| e events IH]; intros s Hs; [assumption |].
    cbn [fold_left]. apply IH.
    destruct e as [k m | n path]; cbn.
    + destruct (holdUrl m k (Interleaving.registry s)) as [held |] eqn:Hhold;
        [| assumption].
      cbn. now apply (NoDup_holdUrl m k Hs).
    + destruct (nth_error (Interleaving.inFlight s) n) as [task |]; [| assumption].
      cbn. now apply NoDup_exitRegistry.
Qed.

Lemma registry_without_repetition_witness :
  NoDup (urlsOnHold
           (after (generateWithCacheKey Example.imports Example.config
                     (Example.request "/never") Example.response "/never"
                     Regenerate
                     (mkState ["/five"] ([] : Example.ListCache) Example.noTimers)))).
Proof.
  apply (proj1 (@registry_without_repetition _ Example.listCacheHandler
                  Example.imports Example.config (Example.request "/never")
                  Example.response "/never" Regenerate
                  (mkState ["/five"] ([] : Example.ListCache) Example.noTimers) [])).
  cbn. repeat constructor. intros [].
Defined.

(** ** Writing and reading under one key *)

(** X16. [generate] and [serveFromCache] address the cache under the same key
    for the same request: whatever [generate] writes goes under the key the
    configured generator gives for the request's URL and detected variant,
    and that key is the one, and the only one, [serveFromCache] reads. *)
Theorem generate_and_serve_share_the_key :
  forall (C : Type) (handler : CacheHandler C) (imports : Imports)
         (isrConfig : ISRHandlerConfig.t) (req : Request.t) (res : Response.t)
         (mode : Mode) (now : Z) (totalTime : string)
         (config : option ServeFromCacheConfig.t) (st st' : State C),
    let cacheKey :=
      getCacheKey imports isrConfig (Request.url req)
        (ISRHandlerConfig.allowedQueryParams isrConfig)
        (getVariant imports req (ISRHandlerConfig.variants isrConfig)) in
    (forall key content options,
        In (CacheAdd key content options)
           (calls (generate imports isrConfig req res mode st)) ->
        key = cacheKey) /\
    getCalls (calls (serveFromCache imports isrConfig req res now totalTime
                       config st')) = [cacheKey].
Proof.
  intros C handler imports isrConfig req res mode now totalTime config st st' cacheKey.
  split.
  - intros key content options Hin. unfold generate in Hin. fold cacheKey in Hin.
    assert (Hf : In (CacheAdd key content options)
                   (filter isCacheAdd
                      (calls (generateWithCacheKey imports isrConfig req res
                                cacheKey mode st))))
      by (apply filter_In; split; [assumption | reflexivity]).
    destruct (generateWithCacheKey_adds imports isrConfig req res cacheKey mode st)
      as [Hnone | [html [finalHtml [_ Hone]]]].
    + rewrite Hnone in Hf. destruct Hf.
    + rewrite Hone in Hf. destruct Hf as [[= <- _ _] | []]. reflexivity.
  - apply serveFromCache_reads_once.
Qed.

(** ** The [render] method *)

(** X17. [render] always invokes the renderer (it regenerates in generate
    mode, whatever is on hold), never rejects and leaves [urlsOnHold] as it
    was.  When it comes to its end it has answered exactly once: with
    [res.send] of the generated markup when the generation gave markup that
    is not empty, and with [next()], sending nothing, when the generation
    failed or gave empty markup. *)
Theorem render_answers_once :
  forall (C : Type) (handler : CacheHandler C) (imports : Imports)
         (isrConfig : ISRHandlerConfig.t) (req : Request.t) (res : Response.t)
         (config : option RenderConfig.t) (st : State C),
    let g := generate imports (patchedConfig isrConfig config) req res Generate st in
    let r := render imports isrConfig req res config st in
    (forall e, outcome r <> Rejected e) /\
    urlsOnHold (after r) = urlsOnHold st /\
    (exists e, In e (calls r) /\ isRender e = true) /\
    (outcome r = Fulfilled tt ->
     (nextCalls (calls r) + List.length (sentBodies (calls r)) = 1)%nat) /\
    (forall result,
        outcome g = Fulfilled (Some result) ->
        truthyHtml (IGeneratedResult.html result) = true ->
        sentBodies (calls r) = [IGeneratedResult.html result] /\
        nextCalls (calls r) = O) /\
    ((exists e, outcome g = Rejected e) \/
     (exists result, outcome g = Fulfilled (Some result) /\
                     truthyHtml (IGeneratedResult.html result) = false) ->
     sentBodies (calls r) = [] /\ nextCalls (calls r) = 1%nat).
Proof.
  intros C handler imports isrConfig req res config st g r. subst g r.
  unfold render. cbv zeta. unfold generate.
  set (patched := patchedConfig isrConfig config).
  set (cacheKey := getCacheKey imports patched (Request.url req)
                     (ISRHandlerConfig.allowedQueryParams patched)
                     (getVariant imports req (ISRHandlerConfig.variants patched))).
  pose proof (generate_mode_registry imports patched req res cacheKey st) as Hu.
  destruct (generate_mode_renders imports patched req res cacheKey st)
    as [e [rest [Hc He]]].
  destruct (generateWithCacheKey_silent imports patched req res cacheKey Generate st)
    as [Hs [Hn _]].
  unfold tryCatch, bind.
  destruct (generateWithCacheKey imports patched req res cacheKey Generate st)
    as [[[result |] | err |] s c]; cbn [outcome after calls] in *.
  - destruct (truthyHtml (IGeneratedResult.html result)) eqn:Htruthy.
    + destruct (ISRHandlerConfig.compressHtml patched);
        cbn [outcome after calls call ret throw app];
        rewrite ?sentBodies_app, ?nextCalls_app, ?Hs, ?Hn; cbn;
        (split; [discriminate |]); (split; [exact Hu |]);
        (split; [exists e; split; [rewrite Hc; apply in_or_app; left; right; now left
                                 | exact He] |]);
        (split; [reflexivity |]);
        (split; [intros result' [= <-] _; split; reflexivity |]);
        intros [[e' He'] | [result' [[= <-] Hf]]]; congruence.
    + cbn [outcome after calls call ret throw app];
        rewrite ?sentBodies_app, ?nextCalls_app, ?Hs, ?Hn; cbn;
        (split; [discriminate |]); (split; [exact Hu |]);
        (split; [exists e; split; [rewrite Hc; apply in_or_app; left; right; now left
                                 | exact He] |]);
        (split; [reflexivity |]);
        (split; [intros result' [= <-] Ht; congruence |]);
        intros _; split; reflexivity.
  - cbn [outcome after calls call ret throw app];
      rewrite ?sentBodies_app, ?nextCalls_app, ?Hs, ?Hn; cbn;
      (split; [discriminate |]); (split; [exact Hu |]);
      (split; [exists e; split; [rewrite Hc; apply in_or_app; left; right; now left
                               | exact He] |]);
      (split; [reflexivity |]);
      (split; [intros result' Habs; discriminate Habs |]);
      intros _; split; reflexivity.
  - cbn [outcome after calls call ret throw app];
      rewrite ?sentBodies_app, ?nextCalls_app, ?Hs, ?Hn; cbn;
      (split; [discriminate |]); (split; [exact Hu |]);
      (split; [exists e; split; [rewrite Hc; apply in_or_app; left; right; now left
                               | exact He] |]);
      (split; [reflexivity |]);
      (split; [intros result' Habs; discriminate Habs |]);
      intros _; split; reflexivity.
  - cbn. rewrite Hs, Hn.
    (split; [discriminate |]); (split; [exact Hu |]);
      (split; [exists e; split; [rewrite Hc; right; now left | exact He] |]);
      (split; [discriminate |]);
      (split; [intros result' Habs; discriminate Habs |]).
    intros [[e' He'] | [result' [Habs _]]]; discriminate.
Qed.

(** On the example site ["/five"] is rendered and sent, ["/broken"] falls
    through. *)
Example render_on_site :
  calls (render Example.imports Example.config (Example.request "/five")
           Example.response None (Example.start [])) =
  [GenerateWithCacheKey "/five" Generate; EngineRender "http://localhost/five";
   CacheAdd "/five" (HtmlString "revalidate:5")
     (CacheISRConfig.mk (value 5) null None);
   ResSend (HtmlString "revalidate:5")] /\
  calls (render Example.imports Example.config (Example.request "/broken")
           Example.response None (Example.start [])) =
  [GenerateWithCacheKey "/broken" Generate;
   EngineRender "http://localhost/broken"; Next].
Proof. split; vm_compute; reflexivity. Qed.

(** ** [nameToStrategy] *)

Section NameToStrategyFacts.

Variable U : Type.
Variable strategies : list (string * U).
Variable DEFAULT_STRATEGY_NAME : string.

Lemma distinctAfter_repeat (previous x : string) (a b : list string) :
  distinctAfter previous (a ++ x :: x :: b) = distinctAfter previous (a ++ x :: b).
Proof.
  revert previous. induction a as [| y a IH]; intros previous; cbn.
  - destruct (String.eqb_spec x previous) as [-> | Hneq];
      rewrite ?String.eqb_refl; reflexivity.
  - destruct (y =? previous)%string; [apply IH | f_equal; apply IH].
Qed.

Lemma distinctAfter_length (previous : string) (names : list string) :
  (List.length (distinctAfter previous names) <= List.length names)%nat.
Proof.
  revert previous. induction names as [| x names IH]; intros previous; cbn; [lia |].
  destruct (x =? previous)%string; cbn.
  - specialize (IH previous). lia.
  - specialize (IH x). lia.
Qed.

(** X18. [nameToStrategy] emits once per change of name: a name repeated
    right after itself adds no emission, the first name always gives one, and
    there are never more emissions than names. *)
Theorem nameToStrategy_emits_on_change :
  forall (a b : list string) (x : string) (names : list string),
    nameToStrategy strategies DEFAULT_STRATEGY_NAME (a ++ x :: x :: b) =
      nameToStrategy strategies DEFAULT_STRATEGY_NAME (a ++ x :: b) /\
    (List.length (nameToStrategy strategies DEFAULT_STRATEGY_NAME names) <=
     List.length names)%nat /\
    hd_error (nameToStrategy strategies DEFAULT_STRATEGY_NAME (x :: names)) =
      Some (pickStrategy strategies DEFAULT_STRATEGY_NAME x).
Proof.
  intros a b x names. repeat split.
  - unfold nameToStrategy. f_equal. destruct a as [| y a]; cbn.
    + now rewrite String.eqb_refl.
    + f_equal. apply distinctAfter_repeat.
  - unfold nameToStrategy. rewrite length_map.
    destruct names as [| y names]; cbn; [lia |].
    pose proof (distinctAfter_length y names). lia.
Qed.

(** X19. With the default strategy configured no emission is undefined.  A
    configured name gives its own strategy; a name that is neither configured
    nor the name of a member of [Object.prototype] (such as [toString])
    resolves to the default strategy.  The filter is on names, not on
    strategies: two different such names in a row emit the default strategy
    twice. *)
Theorem nameToStrategy_falls_back :
  forall (fallback : U) (names : list string) (a b : string),
    getProperty DEFAULT_STRATEGY_NAME strategies = Some fallback ->
    Forall (fun emitted => emitted <> None)
           (nameToStrategy strategies DEFAULT_STRATEGY_NAME names) /\
    (forall s, getProperty a strategies = Some s ->
               nameToStrategy strategies DEFAULT_STRATEGY_NAME [a] = [Some (Own s)]) /\
    (getProperty a strategies = None -> objectPrototypeMember a = false ->
     nameToStrategy strategies DEFAULT_STRATEGY_NAME [a] = [Some (Own fallback)]) /\
    (getProperty a strategies = None -> objectPrototypeMember a = false ->
     getProperty b strategies = None -> objectPrototypeMember b = false ->
     a <> b ->
     nameToStrategy strategies DEFAULT_STRATEGY_NAME [a; b] =
     [Some (Own fallback); Some (Own fallback)]).
Proof.
  intros fallback names a b Hdefault.
  assert (Hread : readMember DEFAULT_STRATEGY_NAME strategies = Some (Own fallback))
    by (unfold readMember; now rewrite Hdefault).
  assert (Hpick : forall name,
             getProperty name strategies = None ->
             objectPrototypeMember name = false ->
             pickStrategy strategies DEFAULT_STRATEGY_NAME name = Some (Own fallback)).
  { intros name Hn Hm. unfold pickStrategy, readMember at 1. now rewrite Hn, Hm. }
  split; [| split; [| split]].
  - unfold nameToStrategy. apply Forall_map, Forall_forall. intros name _.
    unfold pickStrategy. destruct (readMember name strategies); [discriminate |].
    now rewrite Hread.
  - intros s Hs. cbn. unfold pickStrategy, readMember. now rewrite Hs.
  - intros Ha Hma. cbn. now rewrite (Hpick a Ha Hma).
  - intros Ha Hma Hb Hmb Hneq. cbn. apply not_eq_sym, String.eqb_neq in Hneq.
    rewrite Hneq. cbn. now rewrite (Hpick a Ha Hma), (Hpick b Hb Hmb).
Qed.

End NameToStrategyFacts.

Lemma nameToStrategy_falls_back_witness :
  nameToStrategy ExampleMore.strategies "native" ["global"; "local"] =
  [Some (Own 1%nat); Some (Own 1%nat)].
Proof.
  assert (Hdefault : getProperty "native" ExampleMore.strategies = Some 1%nat)
    by reflexivity.
  assert (Hneq : "global" <> "local") by discriminate.
  pose proof (@nameToStrategy_falls_back nat ExampleMore.strategies "native"
                1%nat [] "global" "local" Hdefault) as [_ [_ [_ Htwice]]].
  exact (Htwice eq_refl eq_refl eq_refl eq_refl Hneq).
Defined.

(** A name that [Object.prototype] defines is answered by the inherited
    member, not by the default strategy. *)
Example inherited_name_is_emitted :
  nameToStrategy ExampleMore.strategies "native" ["noop"; "toString"; "local"] =
  [Some (Own 2%nat); Some (Inherited "toString"); Some (Own 1%nat)].
Proof. reflexivity. Qed.
